(** * telegram-ai-chatbot: conversation trimming, output chunking, access gate

    A shallow embedding of the session and message-pipeline logic of
    [function.py] and [handler.py], and the properties the specification
    states about it.

    Conventions.
    - A Python [str] is a list of characters; [len] is [length], the slice
      [s[:n]] (with [0 <= n]) is [take n s], [+] is [++].  One [ascii] stands
      for one code point; the few literals of the source with characters
      outside ASCII (an emoji, the dot of the DALL-E label) are written as
      their bytes, and no length of such a literal is taken.
    - A Python [int] is a [Z].
    - Handlers are functions from the state they read to the state they leave
      and the list of calls they make to the outside (transport, storage,
      inference), in program order.
    - Where the source shares a mutable object (the history list, its message
      dicts), module [Objects] models the store of objects and the
      references into it; module [Function] gives the same code on values. *)

From Stdlib Require Import ZArith Ascii String DecimalString Lia.
From stdpp Require Import base option list gmap strings.

Local Open Scope Z_scope.

(** ** Python strings *)

Abbreviation str := (list ascii).

(** String literals of the source, as lists of characters. *)
Definition py (s : string) : str := list_ascii_of_string s.
Arguments py : simpl never.

(** The character ["\n"]. *)
Definition nl : ascii := ascii_of_nat 10.

(** [len(s)] *)
Definition len (s : str) : Z := Z.of_nat (length s).

(** [s.split("\n")]: never empty; [n] newlines give [n + 1] fields. *)
Fixpoint split_nl (s : str) : list str :=
  match s with
  | [] => [[]]
  | c :: s' =>
      if decide (c = nl) then [] :: split_nl s'
      else match split_nl s' with
           | [] => [[c]]
           | l :: ls => (c :: l) :: ls
           end
  end.

(** [needle in s] for a non-empty needle: some suffix of [s] starts with it. *)
Fixpoint starts_with (needle s : str) : bool :=
  match needle, s with
  | [], _ => true
  | _ :: _, [] => false
  | a :: needle', b :: s' => bool_decide (a = b) && starts_with needle' s'
  end.

Fixpoint contains (needle s : str) : bool :=
  starts_with needle s ||
  match s with
  | [] => false
  | _ :: s' => contains needle s'
  end.

(** [sep.join(ls)] *)
Fixpoint join (sep : str) (ls : list str) : str :=
  match ls with
  | [] => []
  | [l] => l
  | l :: ls' => l ++ sep ++ join sep ls'
  end.

(** [str(n)] for an [int], as an f-string prints it. *)
Definition str_of_int (n : Z) : str := py (NilEmpty.string_of_int (Z.to_int n)).

(** Truth value of a [str] or a [list]: non-empty. *)
Definition truthy {A} (l : list A) : bool :=
  match l with [] => false | _ => true end.

(** ** Data model *)

(** A history entry, the dict [{"role": ..., "content": ...}]. *)
Record message := dict { role : str; content : str }.

#[global] Instance message_eq_dec : EqDecision message.
Proof. solve_decision. Defined.

(** ** base.py *)

Module Base.

(** Modelled from the spec: base.py is not among the sources.  The session
    record has the attributes that handler.py reads and assigns, which are
    the fields of the Session of the specification (model, its two display
    strings, history, message count, context budget, voice reply, system
    role, image quality and size). *)
Record user_data := UserData {
  model : str;
  model_message_info : str;
  model_message_chat : str;
  messages : list message;
  count_messages : Z;
  max_out : Z;
  voice_answer : bool;
  system_message : str;
  pic_grade : str;
  pic_size : str;
}.

(** Attribute assignments [user_data.f = v]. *)
Definition set_model v u :=
  UserData v (model_message_info u) (model_message_chat u) (messages u)
    (count_messages u) (max_out u) (voice_answer u) (system_message u)
    (pic_grade u) (pic_size u).
Definition set_model_message_info v u :=
  UserData (model u) v (model_message_chat u) (messages u)
    (count_messages u) (max_out u) (voice_answer u) (system_message u)
    (pic_grade u) (pic_size u).
Definition set_model_message_chat v u :=
  UserData (model u) (model_message_info u) v (messages u)
    (count_messages u) (max_out u) (voice_answer u) (system_message u)
    (pic_grade u) (pic_size u).
Definition set_messages v u :=
  UserData (model u) (model_message_info u) (model_message_chat u) v
    (count_messages u) (max_out u) (voice_answer u) (system_message u)
    (pic_grade u) (pic_size u).
Definition set_count_messages v u :=
  UserData (model u) (model_message_info u) (model_message_chat u) (messages u)
    v (max_out u) (voice_answer u) (system_message u)
    (pic_grade u) (pic_size u).
Definition set_max_out v u :=
  UserData (model u) (model_message_info u) (model_message_chat u) (messages u)
    (count_messages u) v (voice_answer u) (system_message u)
    (pic_grade u) (pic_size u).
Definition set_voice_answer v u :=
  UserData (model u) (model_message_info u) (model_message_chat u) (messages u)
    (count_messages u) (max_out u) v (system_message u)
    (pic_grade u) (pic_size u).
Definition set_system_message v u :=
  UserData (model u) (model_message_info u) (model_message_chat u) (messages u)
    (count_messages u) (max_out u) (voice_answer u) v
    (pic_grade u) (pic_size u).
Definition set_pic_grade v u :=
  UserData (model u) (model_message_info u) (model_message_chat u) (messages u)
    (count_messages u) (max_out u) (voice_answer u) (system_message u)
    v (pic_size u).
Definition set_pic_size v u :=
  UserData (model u) (model_message_info u) (model_message_chat u) (messages u)
    (count_messages u) (max_out u) (voice_answer u) (system_message u)
    (pic_grade u) v.

End Base.

(** ** text.py *)

Module Text.

Definition start_message : str :=
  py "Hello! The bot is ready to work, the current model is GPT-4o mini, "
  ++ py "voice response is disabled, the dialogue context has been cleared, "
  ++ py "the message counter has been reset, the system role has been removed, the image quality is set to standard, the image size is 1024x1024".

Definition system_message_text : str :=
  py "<b>Enter the system role value, either as text or voice, for example it could be "
  ++ py "like this - </b><i>You always respond as a pirate.</i>".

Definition help_message : str :=
  py "🧰 <b>Bot Commands:</b>" ++ [nl]
  ++ py "/start - Start the bot and initialize data" ++ [nl]
  ++ py "/menu - Open the main menu" ++ [nl]
  ++ py "/help - Show help" ++ [nl; nl]
  ++ py "⚙️ <b>Main Menu:</b>" ++ [nl]
  ++ py " - <b>Model Selection:</b> Change the AI model (4o mini, 4o, o1 mini, o1, DALL·E 3)" ++ [nl]
  ++ py " - <b>Image Settings:</b> Adjust image quality and size" ++ [nl]
  ++ py " - <b>Context:</b> Show or clear message history" ++ [nl]
  ++ py " - <b>Audio:</b> Enable or disable audio responses" ++ [nl]
  ++ py " - <b>System Role:</b> Assign or remove the system role" ++ [nl]
  ++ py " - <b>Information:</b> Show current configuration and statistics".

End Text.

(** ** function.py *)

Module Function.

Import Base.

(** [info_menu_func], on the record [get_or_create_user_data] returns. *)
Definition info_menu_func (user_data : user_data) : str :=
  let info_voice_answer :=
    if voice_answer user_data then py "Enabled" else py "Disabled" in
  let info_system_message :=
    if truthy (system_message user_data) then py "Set" else py "Absent" in
  py "<i>Messages:</i> <b>" ++ str_of_int (count_messages user_data) ++ py "</b>" ++ [nl]
  ++ py "<i>Model:</i> <b>" ++ model_message_info user_data ++ py "</b>" ++ [nl]
  ++ py "<i>Audio:</i> <b>" ++ info_voice_answer ++ py "</b>" ++ [nl]
  ++ py "<i>Role:</i> <b>" ++ info_system_message ++ py "</b>" ++ [nl]
  ++ py "<i>Picture</i>" ++ [nl]
  ++ py "<i>Quality:</i> <b>" ++ pic_grade user_data ++ py "</b>" ++ [nl]
  ++ py "<i>Size:</i> <b>" ++ pic_size user_data ++ py "</b>".

(** The loop of [prune_messages], over [reversed(messages)]; [pruned_messages]
    is appended to at its end. *)
Fixpoint prune_loop (rev_messages : list message) (max_chars total_chars : Z)
    (pruned_messages : list message) : list message :=
  match rev_messages with
  | [] => pruned_messages
  | message :: rest =>
      let content_length := len (content message) in
      let remaining_chars := max_chars - total_chars in
      if remaining_chars <=? 0 then pruned_messages
      else if content_length >? remaining_chars then
        let pruned_content := take (Z.to_nat remaining_chars) (content message) in
        pruned_messages ++ [dict (role message) pruned_content]
      else
        prune_loop rest max_chars (total_chars + content_length)
          (pruned_messages ++ [message])
  end.

Definition prune_messages (messages : list message) (max_chars : Z) : list message :=
  reverse (prune_loop (reverse messages) max_chars 0 []).

(** [sum(len(msg["content"]) for msg in ms)] *)
Definition content_chars (ms : list message) : Z :=
  foldr (fun m acc => len (content m) + acc) 0 ms.

(** The entry [m] cut down to the first [r] characters of its content. *)
Definition truncated (m : message) (r : nat) : message :=
  dict (role m) (take r (content m)).

End Function.

(** ** The same code over shared objects *)

Module Objects.

Abbreviation ref := positive.

(** The objects the history is made of: a [list] holds references to its
    items, a message is a [dict]. *)
Inductive object :=
  | List (items : list ref)
  | Dict (m : message).

Abbreviation heap := (gmap ref object).

(** A newly built object gets a reference no live object has. *)
Definition new (h : heap) (o : object) : heap * ref :=
  let r := fresh (dom h) in (<[r := o]> h, r).

Definition get_list (h : heap) (l : ref) : option (list ref) :=
  match h !! l with Some (List xs) => Some xs | _ => None end.

Definition get_dict (h : heap) (d : ref) : option message :=
  match h !! d with Some (Dict m) => Some m | _ => None end.

(** [l.append(x)] *)
Definition append (h : heap) (l x : ref) : option heap :=
  xs ← get_list h l; Some (<[l := List (xs ++ [x])]> h).

(** [l.insert(0, x)] *)
Definition insert0 (h : heap) (l x : ref) : option heap :=
  xs ← get_list h l; Some (<[l := List (x :: xs)]> h).

(** The value of a list of messages: what [==] compares and what is sent
    to the model. *)
Definition value (h : heap) (l : ref) : option (list message) :=
  xs ← get_list h l; mapM (get_dict h) xs.

(** The loop of [prune_messages]; [pruned_messages] refers to the list being
    built.  [None] is an item that is not a message dict (a [TypeError]). *)
Fixpoint prune_loop (h : heap) (rev_messages : list ref) (max_chars total_chars : Z)
    (pruned_messages : ref) : option heap :=
  match rev_messages with
  | [] => Some h
  | message :: rest =>
      m ← get_dict h message;
      let content_length := len (content m) in
      let remaining_chars := max_chars - total_chars in
      if remaining_chars <=? 0 then Some h
      else if content_length >? remaining_chars then
        let pruned_content := take (Z.to_nat remaining_chars) (content m) in
        let '(h1, d) := new h (Dict (dict (role m) pruned_content)) in
        append h1 pruned_messages d
      else
        h1 ← append h pruned_messages message;
        prune_loop h1 rest max_chars (total_chars + content_length) pruned_messages
  end.

(** [prune_messages(messages, max_chars)]: the heap it leaves and the
    reference to the list it returns, [list(reversed(pruned_messages))]. *)
Definition prune_messages (h : heap) (messages : ref) (max_chars : Z) : option (heap * ref) :=
  items ← get_list h messages;
  let '(h0, pruned_messages) := new h (List []) in
  h1 ← prune_loop h0 (reverse items) max_chars 0 pruned_messages;
  pruned ← get_list h1 pruned_messages;
  Some (new h1 (List (reverse pruned))).

End Objects.

(** ** handler.py *)

Module Handler.

Import Base Function.

(** *** The outside: transport, storage, inference *)

(** Reply keyboards of buttons.py. *)
Inductive markup :=
  | keyboard | keyboard_model | keyboard_pic | keyboard_context
  | keyboard_voice | keyboard_value_work.

(** How a text is sent: the bot's default [ParseMode.HTML], [ParseMode.MARKDOWN],
    or the entities of [Text(...).as_kwargs()] with [bold] leading characters
    in [Bold]. *)
Inductive parse_mode := HTML | MARKDOWN | as_kwargs (bold : nat).

Inductive exn := Exception (args : str).

(** [f"{e}"] *)
Definition str_of_exn (e : exn) : str := match e with Exception args => args end.

(** The calls a handler makes to its collaborators. *)
Inductive call :=
  | answer (text : str) (mode : parse_mode) (reply_markup : option markup)
  | reply (text : str) (mode : parse_mode)
  | edit_text (text : str) (reply_markup : option markup)
  | callback_answer
  | save_user_data (user_id : Z)
  | bot_send_message (user_id : Z) (text : str) (mode : parse_mode)
      (reply_markup : option markup)
  | delete_message (chat_id message_id : Z)
  | send_chat_action (chat_id : Z) (action : str)
  | send_photo (chat_id : Z) (url : str) (reply_to_message_id : Z)
  | process_voice_message (user_id : Z)
  | chat_completions_create (model : str) (messages : list message)
  | images_generate (prompt size quality : str)
  | audio_speech_create (input : str)
  | stream_to_file (unic_id : Z)
  | send_audio (unic_id : Z)
  | get_file
  | download_and_encode_image
  | process_image_with_gpt (text : str)
  | logging_exception (e : exn).

(** An incoming [Message]: [voice] is set for a voice message, [photo] for a
    photo. *)
Record Message := {
  from_user_id : Z;
  chat_id : Z;
  message_id : Z;
  text : option str;
  voice : bool;
  photo : bool;
  caption : option str;
}.

(** A [CallbackQuery]: the user who pressed the button, the button's data and
    the message that carries the keyboard. *)
Record CallbackQuery := {
  cq_from_user_id : Z;
  data : str;
  cq_message : Message;
}.

(** Configuration and what the collaborators answer.  [raises tr c] is the
    exception call [c] raises after the calls [tr], if it raises.
    [simple_bot_responses] is imported from function.py by handler.py but is
    not in the sources: it is a parameter here. *)
Record env := {
  OWNER_ID : Z;
  ADMIN_ID : Z;
  formatted_datetime : str;
  raises : list call -> call -> option exn;
  sent_message_id : list call -> Z;
  transcription : Z -> str;
  simple_bot_responses : str -> str;
  completion_content : str -> list message -> str;
  image_url : str -> str -> str -> str;
  vision_content : str -> str;
}.

(** *** State *)

(** [ChangeValueState] *)
Inductive fsm := waiting_for_new_value.

#[global] Instance fsm_eq_dec : EqDecision fsm.
Proof. solve_decision. Defined.

(** What the handler of one update can read and change: the session record
    of the user the update comes from (the object [get_or_create_user_data]
    returns for that user id), the module globals [ALL_USERS_ACCESS] and
    [sys_massage] (unbound until first assigned), and the [FSMContext] state
    of that user in that chat.  The sessions and states of all users are in
    [world] below, and [view] takes from it what one update sees. *)
Record bot := Bot {
  user : user_data;
  ALL_USERS_ACCESS : bool;
  sys_massage : option str;
  state : option fsm;
}.

(** The module is loaded with [ALL_USERS_ACCESS = False]. *)
Definition startup (u : user_data) : bot := Bot u false None None.

(** *** Handlers as computations *)

(** A handler runs from a state and the calls made so far to a state, the
    calls made, and either a result or the exception that ended it. *)
Definition M (A : Type) : Type := bot * list call -> bot * list call * (exn + A).

#[global] Instance M_ret : MRet M := fun A a s => (s, inr a).

#[global] Instance M_bind : MBind M := fun A B f m s =>
  match m s with
  | (s', inl e) => (s', inl e)
  | (s', inr a) => f a s'
  end.

Definition raise {A} (e : exn) : M A := fun s => (s, inl e).

(** [try: body except Exception as e: handler e] *)
Definition try_except {A} (body : M A) (handler : exn -> M A) : M A := fun s =>
  match body s with
  | (s', inl e) => handler e s'
  | r => r
  end.

Definition get_bot : M bot := fun s => (s, inr (fst s)).

Definition update_bot (f : bot -> bot) : M unit := fun s => ((f (fst s), snd s), inr tt).

Definition calls_so_far : M (list call) := fun s => (s, inr (snd s)).

(** [user_data.f = v] on the sender's record. *)
Definition assign (f : user_data -> user_data) : M unit :=
  update_bot (fun b => Bot (f (user b)) (ALL_USERS_ACCESS b) (sys_massage b) (state b)).

(** [await state.clear()] and [await state.set_state(s)] *)
Definition state_clear : M unit :=
  update_bot (fun b => Bot (user b) (ALL_USERS_ACCESS b) (sys_massage b) None).
Definition state_set_state (s : fsm) : M unit :=
  update_bot (fun b => Bot (user b) (ALL_USERS_ACCESS b) (sys_massage b) (Some s)).

Definition when (c : bool) (m : M unit) : M unit := if c then m else mret tt.

(** [for x in xs: body x] *)
Fixpoint for_each {A} (xs : list A) (body : A -> M unit) : M unit :=
  match xs with
  | [] => mret tt
  | x :: xs' => body x;; for_each xs' body
  end.

(** Run a handler on its own: the state it leaves, the calls it made, and
    how it ended. *)
Definition run {A} (m : M A) (b : bot) : bot * list call * (exn + A) := m (b, []).

Definition calls_of {A} (m : M A) (b : bot) : list call := snd (fst (run m b)).
Definition bot_after {A} (m : M A) (b : bot) : bot := fst (fst (run m b)).
Definition result_of {A} (m : M A) (b : bot) : exn + A := snd (run m b).

Section Handlers.

Variable E : env.

(** [logging.exception(e)]: recorded, raises nothing. *)
Definition log_exception (e : exn) : M unit := fun s =>
  ((fst s, snd s ++ [logging_exception e]), inr tt).

(** A call to a collaborator: raises what [E] says, else is recorded. *)
Definition await (c : call) : M unit := fun s =>
  match raises E (snd s) c with
  | Some e => (s, inl e)
  | None => ((fst s, snd s ++ [c]), inr tt)
  end.

(** [get_or_create_user_data(user_id)]: every call in handler.py passes the
    id of the user the handler's own update comes from; the record of that
    user is the one in the handler's state (see [view]). *)
Definition get_or_create_user_data : M user_data := b ← get_bot; mret (user b).

(** [checkAccess(message)] *)
Definition checkAccess (message : Message) : M bool :=
  let user_id := from_user_id message in
  if bool_decide (user_id = OWNER_ID E) || bool_decide (user_id = ADMIN_ID E) then mret true
  else
    b ← get_bot;
    if ALL_USERS_ACCESS b then mret true
    else
      await (answer (py "<i>Sorry, you do not have access to this bot." ++ [nl]
                     ++ py "User ID:</i> <b>" ++ str_of_int user_id ++ py "</b>")
               HTML None);;
      mret false.

Definition set_ALL_USERS_ACCESS (v : bool) : M unit :=
  update_bot (fun b => Bot (user b) v (sys_massage b) (state b)).

Definition enable_all_access (message : Message) : M unit :=
  let user_id := from_user_id message in
  if bool_decide (user_id ≠ OWNER_ID E) && bool_decide (user_id ≠ ADMIN_ID E) then
    await (answer (py "You do not have permission to use this command.") HTML None)
  else
    set_ALL_USERS_ACCESS true;;
    await (answer (py "Bot access has been enabled for all users.") HTML None).

Definition disable_all_access (message : Message) : M unit :=
  let user_id := from_user_id message in
  if bool_decide (user_id ≠ OWNER_ID E) && bool_decide (user_id ≠ ADMIN_ID E) then
    await (answer (py "You do not have permission to use this command.") HTML None)
  else
    set_ALL_USERS_ACCESS false;;
    await (answer (py "Bot access has been disabled for all non-owner users. Owner access remains unaffected.") HTML None).

Definition command_start_handler (message : Message) : M unit :=
  ok ← checkAccess message;
  if negb ok then mret tt else
  state_clear;;
  assign (set_model (py "gpt-4o-mini"));;
  assign (set_model_message_info (py "4o mini"));;
  assign (set_model_message_chat (py "4o mini:" ++ [nl; nl]));;
  assign (set_messages []);;
  assign (set_count_messages 0);;
  assign (set_max_out 128000);;
  assign (set_voice_answer false);;
  assign (set_system_message []);;
  assign (set_pic_grade (py "standard"));;
  assign (set_pic_size (py "1024x1024"));;
  await (save_user_data (from_user_id message));;
  await (answer Text.start_message HTML None).

Definition process_key_button (message : Message) : M unit :=
  ok ← checkAccess message;
  if negb ok then mret tt else
  state_clear;;
  user_data ← get_or_create_user_data;
  await (answer (info_menu_func user_data) HTML (Some keyboard)).

(** **** Model selection *)

Definition model_text (user_data : user_data) : str :=
  py "<i>Model:</i> " ++ model_message_info user_data ++ py " ".

Definition process_callback_model_choice (callback_query : CallbackQuery) : M unit :=
  ok ← checkAccess (cq_message callback_query);
  if negb ok then mret tt else
  state_clear;;
  user_data ← get_or_create_user_data;
  await (edit_text (model_text user_data) (Some keyboard_model));;
  await callback_answer.

(** [F.data == "gpt_4o_mini"] *)
Definition process_callback_menu_1 (callback_query : CallbackQuery) : M unit :=
  ok ← checkAccess (cq_message callback_query);
  if negb ok then mret tt else
  user_data ← get_or_create_user_data;
  if bool_decide (model user_data = py "gpt-4o-mini") then await callback_answer else
  assign (set_model (py "gpt-4o-mini"));;
  assign (set_max_out 128000);;
  assign (set_model_message_info (py "4o mini"));;
  assign (set_model_message_chat (py "4o mini:" ++ [nl; nl]));;
  await (save_user_data (cq_from_user_id callback_query));;
  user_data ← get_or_create_user_data;
  await (edit_text (model_text user_data) (Some keyboard_model));;
  await callback_answer.

(** [F.data == "gpt_4_o"] *)
Definition process_callback_menu_2 (callback_query : CallbackQuery) : M unit :=
  ok ← checkAccess (cq_message callback_query);
  if negb ok then mret tt else
  user_data ← get_or_create_user_data;
  if bool_decide (model user_data = py "gpt-4o") then await callback_answer else
  assign (set_model (py "gpt-4o"));;
  assign (set_max_out 128000);;
  assign (set_model_message_info (py "4o"));;
  assign (set_model_message_chat (py "4o:" ++ [nl; nl]));;
  await (save_user_data (cq_from_user_id callback_query));;
  user_data ← get_or_create_user_data;
  await (edit_text (model_text user_data) (Some keyboard_model));;
  await callback_answer.

(** [F.data == "gpt_o1_mini"] (the source's second [process_callback_menu_1]) *)
Definition process_callback_menu_1_o1_mini (callback_query : CallbackQuery) : M unit :=
  ok ← checkAccess (cq_message callback_query);
  if negb ok then mret tt else
  user_data ← get_or_create_user_data;
  if bool_decide (model user_data = py "o1-mini") then await callback_answer else
  assign (set_model (py "o1-mini"));;
  assign (set_max_out 128000);;
  assign (set_model_message_info (py "o1 mini"));;
  assign (set_model_message_chat (py "o1 mini:" ++ [nl; nl]));;
  await (save_user_data (cq_from_user_id callback_query));;
  user_data ← get_or_create_user_data;
  await (edit_text (model_text user_data) (Some keyboard_model));;
  await callback_answer.

(** [F.data == "gpt_o1_preview"] (the source's second [process_callback_menu_2]) *)
Definition process_callback_menu_2_o1_preview (callback_query : CallbackQuery) : M unit :=
  ok ← checkAccess (cq_message callback_query);
  if negb ok then mret tt else
  user_data ← get_or_create_user_data;
  if bool_decide (model user_data = py "o1-preview") then await callback_answer else
  assign (set_model (py "o1-preview"));;
  assign (set_max_out 128000);;
  assign (set_model_message_info (py "o1"));;
  assign (set_model_message_chat (py "o1:" ++ [nl; nl]));;
  await (save_user_data (cq_from_user_id callback_query));;
  user_data ← get_or_create_user_data;
  await (edit_text (model_text user_data) (Some keyboard_model));;
  await callback_answer.

(** [F.data == "dall_e_3"] *)
Definition process_callback_menu_3 (callback_query : CallbackQuery) : M unit :=
  ok ← checkAccess (cq_message callback_query);
  if negb ok then mret tt else
  user_data ← get_or_create_user_data;
  if bool_decide (model user_data = py "dall-e-3") then await callback_answer else
  assign (set_model (py "dall-e-3"));;
  assign (set_model_message_info (py "DALL·E 3"));;
  assign (set_model_message_chat (py "DALL·E 3:" ++ [nl; nl]));;
  await (save_user_data (cq_from_user_id callback_query));;
  user_data ← get_or_create_user_data;
  await (edit_text (model_text user_data) (Some keyboard_model));;
  await callback_answer.

(** **** Image settings *)

Definition pic_text (user_data : user_data) : str :=
  pic_grade user_data ++ py " : " ++ pic_size user_data ++ py " ".

Definition process_callback_menu_pic_setup (callback_query : CallbackQuery) : M unit :=
  ok ← checkAccess (cq_message callback_query);
  if negb ok then mret tt else
  state_clear;;
  user_data ← get_or_create_user_data;
  await (edit_text (pic_text user_data) (Some keyboard_pic));;
  await callback_answer.

Definition process_callback_set_sd (callback_query : CallbackQuery) : M unit :=
  ok ← checkAccess (cq_message callback_query);
  if negb ok then mret tt else
  user_data ← get_or_create_user_data;
  if bool_decide (pic_grade user_data = py "standard") then await callback_answer else
  assign (set_pic_grade (py "standard"));;
  await (save_user_data (cq_from_user_id callback_query));;
  user_data ← get_or_create_user_data;
  await (edit_text (pic_text user_data) (Some keyboard_pic));;
  await callback_answer.

Definition process_callback_set_hd (callback_query : CallbackQuery) : M unit :=
  ok ← checkAccess (cq_message callback_query);
  if negb ok then mret tt else
  user_data ← get_or_create_user_data;
  if bool_decide (pic_grade user_data = py "hd") then await callback_answer else
  assign (set_pic_grade (py "hd"));;
  await (save_user_data (cq_from_user_id callback_query));;
  user_data ← get_or_create_user_data;
  await (edit_text (pic_text user_data) (Some keyboard_pic));;
  await callback_answer.

Definition process_callback_set_1024x1024 (callback_query : CallbackQuery) : M unit :=
  ok ← checkAccess (cq_message callback_query);
  if negb ok then mret tt else
  user_data ← get_or_create_user_data;
  if bool_decide (pic_size user_data = py "1024x1024") then await callback_answer else
  assign (set_pic_size (py "1024x1024"));;
  await (save_user_data (cq_from_user_id callback_query));;
  user_data ← get_or_create_user_data;
  await (edit_text (pic_text user_data) (Some keyboard_pic));;
  await callback_answer.

Definition process_callback_set_1024x1792 (callback_query : CallbackQuery) : M unit :=
  ok ← checkAccess (cq_message callback_query);
  if negb ok then mret tt else
  user_data ← get_or_create_user_data;
  if bool_decide (pic_size user_data = py "1024x1792") then await callback_answer else
  assign (set_pic_size (py "1024x1792"));;
  await (save_user_data (cq_from_user_id callback_query));;
  user_data ← get_or_create_user_data;
  await (edit_text (pic_text user_data) (Some keyboard_pic));;
  await callback_answer.

Definition process_callback_set_1792x1024 (callback_query : CallbackQuery) : M unit :=
  ok ← checkAccess (cq_message callback_query);
  if negb ok then mret tt else
  user_data ← get_or_create_user_data;
  if bool_decide (pic_size user_data = py "1792x1024") then await callback_answer else
  assign (set_pic_size (py "1792x1024"));;
  await (save_user_data (cq_from_user_id callback_query));;
  user_data ← get_or_create_user_data;
  await (edit_text (pic_text user_data) (Some keyboard_pic));;
  await callback_answer.

(** **** Context *)

Definition process_callback_context_work (callback_query : CallbackQuery) : M unit :=
  ok ← checkAccess (cq_message callback_query);
  if negb ok then mret tt else
  state_clear;;
  user_data ← get_or_create_user_data;
  await (edit_text (py "<i>Messages:</i> " ++ str_of_int (count_messages user_data) ++ py " ")
           (Some keyboard_context));;
  await callback_answer.

Definition generate_history (messages : list message) : str :=
  join [nl; nl] (map (fun msg => role msg ++ py ":" ++ [nl] ++ content msg) messages).

(** The loop of [send_history]: the lines of the chunk being filled, its
    length counted with one newline per line, and the chunks closed so far. *)
Definition send_history_step (st : list str * Z * list str) (line : str)
    : list str * Z * list str :=
  let '(current_chunk, current_length, chunks) := st in
  let line_length := len line + 1 in
  if current_length + line_length >? 4096 then
    ([line], line_length, chunks ++ [join [nl] current_chunk])
  else (current_chunk ++ [line], current_length + line_length, chunks).

Definition send_history_chunks (history : str) : list str :=
  let lines := split_nl history in
  let '(current_chunk, _, chunks) := foldl send_history_step ([], 0, []) lines in
  if truthy current_chunk then chunks ++ [join [nl] current_chunk] else chunks.

Definition send_message (user_id : Z) (content : str) : M unit :=
  await (bot_send_message user_id content (as_kwargs 0) None).

Definition send_menu (user_id : Z) : M unit :=
  await (bot_send_message user_id (py "Actions with context:") HTML (Some keyboard_context)).

Definition send_history (user_id : Z) (history : str) : M unit :=
  for_each (send_history_chunks history) (send_message user_id);;
  send_menu user_id.

Definition process_callback_context (callback_query : CallbackQuery) : M unit :=
  ok ← checkAccess (cq_message callback_query);
  if negb ok then mret tt else
  user_data ← get_or_create_user_data;
  let history := generate_history (messages user_data) in
  if bool_decide (text (cq_message callback_query) = Some (py "Context is empty")) then
    await callback_answer
  else if negb (truthy history) then
    await (edit_text (py "Context is empty") (Some keyboard_context));;
    await callback_answer
  else
    send_history (cq_from_user_id callback_query) history;;
    await (edit_text (py "Context:") None);;
    await callback_answer.

Definition process_callback_clear (callback_query : CallbackQuery) : M unit :=
  ok ← checkAccess (cq_message callback_query);
  if negb ok then mret tt else
  assign (set_messages []);;
  assign (set_count_messages 0);;
  await (save_user_data (cq_from_user_id callback_query));;
  if bool_decide (text (cq_message callback_query) = Some (py "Context cleared")) then
    await callback_answer
  else
    await (edit_text (py "Context cleared") (Some keyboard_context));;
    await callback_answer.

(** **** Voice answers *)

Definition process_callback_voice_answer_work (callback_query : CallbackQuery) : M unit :=
  ok ← checkAccess (cq_message callback_query);
  if negb ok then mret tt else
  state_clear;;
  user_data ← get_or_create_user_data;
  let info_voice_answer := if voice_answer user_data then py "on" else py "off" in
  await (edit_text (py "<i>Audio:</i> " ++ info_voice_answer) (Some keyboard_voice));;
  await callback_answer.

Definition process_callback_voice_answer_add (callback_query : CallbackQuery) : M unit :=
  ok ← checkAccess (cq_message callback_query);
  if negb ok then mret tt else
  user_data ← get_or_create_user_data;
  if voice_answer user_data then await callback_answer else
  assign (set_voice_answer true);;
  await (save_user_data (cq_from_user_id callback_query));;
  user_data ← get_or_create_user_data;
  let info_voice_answer := if voice_answer user_data then py "enabled" else py "off" in
  await (edit_text (py "<i>Audio:</i> " ++ info_voice_answer) (Some keyboard_voice));;
  await callback_answer.

Definition process_callback_voice_answer_del (callback_query : CallbackQuery) : M unit :=
  ok ← checkAccess (cq_message callback_query);
  if negb ok then mret tt else
  user_data ← get_or_create_user_data;
  if negb (voice_answer user_data) then await callback_answer else
  assign (set_voice_answer false);;
  await (save_user_data (cq_from_user_id callback_query));;
  user_data ← get_or_create_user_data;
  let info_voice_answer := if voice_answer user_data then py "on" else py "off" in
  await (edit_text (py "<i>Audio:</i> " ++ info_voice_answer) (Some keyboard_voice));;
  await callback_answer.

(** **** System role *)

Definition role_text (user_data : user_data) : str :=
  let info_system_message :=
    if negb (truthy (system_message user_data)) then py "Undefined"
    else system_message user_data in
  py "<i>Role:</i> " ++ info_system_message.

(** [F.data == "system_value_work"] (the source's second
    [process_callback_voice_answer_work]) *)
Definition process_callback_system_value_work (callback_query : CallbackQuery) : M unit :=
  ok ← checkAccess (cq_message callback_query);
  if negb ok then mret tt else
  state_clear;;
  user_data ← get_or_create_user_data;
  await (edit_text (role_text user_data) (Some keyboard_value_work));;
  await callback_answer.

Definition process_callback_change_value (callback_query : CallbackQuery) : M unit :=
  ok ← checkAccess (cq_message callback_query);
  if negb ok then mret tt else
  state_set_state waiting_for_new_value;;
  await (edit_text Text.system_message_text None);;
  await callback_answer.

Definition process_callback_delete_value (callback_query : CallbackQuery) : M unit :=
  ok ← checkAccess (cq_message callback_query);
  if negb ok then mret tt else
  state_clear;;
  user_data ← get_or_create_user_data;
  if negb (truthy (system_message user_data)) then await callback_answer else
  assign (set_system_message []);;
  await (save_user_data (cq_from_user_id callback_query));;
  user_data ← get_or_create_user_data;
  await (edit_text (role_text user_data) (Some keyboard_value_work));;
  await callback_answer.

Definition set_sys_massage (v : str) : M unit :=
  update_bot (fun b => Bot (user b) (ALL_USERS_ACCESS b) (Some v) (state b)).

(** [message.text] as a condition: present and non-empty. *)
Definition text_truthy (message : Message) : bool :=
  match text message with Some t => truthy t | None => false end.

Definition text_or_empty (message : Message) : str :=
  match text message with Some t => t | None => [] end.

Definition process_new_value (message : Message) : M unit :=
  ok ← checkAccess message;
  if negb ok then mret tt else
  (if voice message then
     await (process_voice_message (from_user_id message));;
     set_sys_massage (transcription E (from_user_id message))
   else if text_truthy message then set_sys_massage (text_or_empty message)
   else mret tt);;
  b ← get_bot;
  match sys_massage b with
  | None => raise (Exception (py "name 'sys_massage' is not defined"))
  | Some v =>
      assign (set_system_message v);;
      await (save_user_data (from_user_id message));;
      state_clear;;
      user_data ← get_or_create_user_data;
      await (answer (role_text user_data) HTML (Some keyboard_value_work))
  end.

(** **** Main menu, information, help *)

Definition process_callback_menu_back (callback_query : CallbackQuery) : M unit :=
  ok ← checkAccess (cq_message callback_query);
  if negb ok then mret tt else
  state_clear;;
  user_data ← get_or_create_user_data;
  await (edit_text (info_menu_func user_data) (Some keyboard)).

Definition process_callback_info (callback_query : CallbackQuery) : M unit :=
  ok ← checkAccess (cq_message callback_query);
  if negb ok then mret tt else
  state_clear;;
  user_data ← get_or_create_user_data;
  let info_voice_answer := if voice_answer user_data then py "on" else py "off" in
  let info_system_message :=
    if negb (truthy (system_message user_data)) then py "Undefined"
    else system_message user_data in
  let info_messages :=
    py "<i>Date:</i> <b>" ++ formatted_datetime E ++ py "</b>" ++ [nl]
    ++ py "<i>User ID:</i> <b>" ++ str_of_int (cq_from_user_id callback_query) ++ py "</b>" ++ [nl]
    ++ py "<i>Model:</i> <b>" ++ model_message_info user_data ++ py "</b>" ++ [nl]
    ++ py "<i>Image</i>" ++ [nl]
    ++ py "<i>Quality:</i> <b>" ++ pic_grade user_data ++ py "</b>" ++ [nl]
    ++ py "<i>Size:</i> <b>" ++ pic_size user_data ++ py "</b>" ++ [nl]
    ++ py "<i>Messages:</i> <b>" ++ str_of_int (count_messages user_data) ++ py "</b>" ++ [nl]
    ++ py "<i>Audios:</i> <b>" ++ info_voice_answer ++ py "</b>" ++ [nl]
    ++ py "<i>Role:</i> <b>" ++ info_system_message ++ py "</b>" in
  await (edit_text info_messages None);;
  await callback_answer.

Definition help_handler (message : Message) : M unit :=
  ok ← checkAccess message;
  if negb ok then mret tt else
  state_clear;;
  await (answer Text.help_message HTML None).

(** **** Sending the model's response *)

(** [send_message_kwargs]: one reply, [Text(Bold(label), response)]. *)
Definition send_message_kwargs (model_massage_kwargs response_message_kwargs : str) : M unit :=
  await (reply (model_massage_kwargs ++ response_message_kwargs)
           (as_kwargs (length model_massage_kwargs))).

(** The loop of [send_message_kwargs_long]: the chunk being filled and the
    chunks closed so far. *)
Definition kwargs_long_step (st : str * list str) (line : str) : str * list str :=
  let '(chunk, chunks) := st in
  if len chunk + len line + 1 >? 4096 then (line, chunks ++ [chunk])
  else if truthy chunk then (chunk ++ line ++ [nl], chunks)
  else (line, chunks).

(** The chunks [send_message_kwargs_long] sends. *)
Definition kwargs_long_chunks (model_message_kwargs response_message_kwargs : str) : list str :=
  let content := model_message_kwargs ++ [nl] ++ response_message_kwargs in
  let messages := split_nl content in
  let '(chunk, chunks) := foldl kwargs_long_step ([], []) messages in
  if truthy chunk then chunks ++ [chunk] else chunks.

Definition send_message_kwargs_long (model_message_kwargs response_message_kwargs : str)
    : M unit :=
  for_each (kwargs_long_chunks model_message_kwargs response_message_kwargs)
    (fun chunk => await (answer chunk (as_kwargs 0) None)).

(** [send_message_md]: one Markdown reply. *)
Definition send_message_md (model_massage_md response_md : str) : M unit :=
  await (reply (py "*" ++ model_massage_md ++ py "*" ++ response_md) MARKDOWN).

(** The text [send_message_md_long] cuts up. *)
Definition md_final_message (model_massage_md response_md : str) : str :=
  py "*" ++ model_massage_md ++ py "*" ++ [nl] ++ response_md.

(** The loop of [send_message_md_long]: the lines of the chunk being filled
    and the chunks closed so far.  [len(current_chunk)] is the number of
    lines in the list. *)
Definition md_long_step (st : list str * list str) (line : str) : list str * list str :=
  let '(current_chunk, chunks) := st in
  if Z.of_nat (length current_chunk) + len line + 1 >? 4096 then
    ([line], chunks ++ [join [nl] current_chunk])
  else (current_chunk ++ [line], chunks).

(** The chunks [send_message_md_long] sends. *)
Definition md_long_chunks (model_massage_md response_md : str) : list str :=
  let lines := split_nl (md_final_message model_massage_md response_md) in
  let '(current_chunk, chunks) := foldl md_long_step ([], []) lines in
  if truthy current_chunk then chunks ++ [join [nl] current_chunk] else chunks.

Definition send_message_md_long (model_massage_md response_md : str) : M unit :=
  for_each (md_long_chunks model_massage_md response_md)
    (fun chunk => await (answer chunk MARKDOWN None)).

Definition text_to_speech (unic_id : Z) (text_message : str) : M unit :=
  await (audio_speech_create text_message);;
  await (stream_to_file unic_id);;
  await (send_audio unic_id).

(** The variant a response is sent through. *)
Inductive variant := md_long | md | kwargs_long | kwargs.

(** The choice made under "Sending the model's response to the user". *)
Definition choose_variant (response_message : str) : variant :=
  if contains (py "```") response_message then
    if len response_message >? 4096 then md_long else md
  else
    if len response_message >? 4096 then kwargs_long else kwargs.

(** The choice made after an exception. *)
Definition fallback_variant (response_message : str) : variant :=
  if len response_message >? 4096 then kwargs_long else kwargs.

Definition send_variant (v : variant) (label response_message : str) : M unit :=
  match v with
  | md_long => send_message_md_long label response_message
  | md => send_message_md label response_message
  | kwargs_long => send_message_kwargs_long label response_message
  | kwargs => send_message_kwargs label response_message
  end.

(** One branch of the dispatch: send, then speak if voice answers are on. *)
Definition send_and_speak (v : variant) (message : Message) (user_data : user_data)
    (response_message : str) : M unit :=
  send_variant v (model_message_chat user_data) response_message;;
  when (voice_answer user_data) (text_to_speech (chat_id message) response_message).

(** [chatgpt_text_handler], "Sending the model's response to the user": the
    inner [try] and its [except]. *)
Definition dispatch (message : Message) (response_message : str) : M unit :=
  user_data ← get_or_create_user_data;
  try_except
    (send_and_speak (choose_variant response_message) message user_data response_message)
    (fun e =>
       log_exception e;;
       send_and_speak (fallback_variant response_message) message user_data response_message).

(** **** The conversation pipeline *)

Definition is_text_model (m : str) : bool :=
  bool_decide (m = py "gpt-4o-mini") || bool_decide (m = py "gpt-4o")
  || bool_decide (m = py "o1-mini") || bool_decide (m = py "o1-preview").

Definition takes_system_role (m : str) : bool :=
  bool_decide (m = py "gpt-4o-mini") || bool_decide (m = py "gpt-4o").

(** The list passed as [messages=] to the model: the pruned history, with the
    system entry put in front for the two models that take one. *)
Definition model_input (user_data : user_data) : list message :=
  let pruned_messages := prune_messages (messages user_data) (max_out user_data) in
  let system_message := dict (py "system") (system_message user_data) in
  if takes_system_role (model user_data) then system_message :: pruned_messages
  else pruned_messages.

Definition temporary_message : str := py "⏳ Hold on, your request is being processed!".

Definition chatgpt_text_handler (message : Message) : M unit :=
  ok ← checkAccess message;
  if negb ok then mret tt else
  user_data ← get_or_create_user_data;
  await (answer temporary_message HTML None);;
  tr ← calls_so_far;
  let last_message_id := sent_message_id E tr in
  user_prompt ←
    (if voice message then
       await (process_voice_message (from_user_id message));;
       mret (transcription E (from_user_id message))
     else if text_truthy message then mret (text_or_empty message)
     else mret []);
  let simple_response := simple_bot_responses E user_prompt in
  if truthy simple_response then
    await (delete_message (chat_id message) last_message_id);;
    await (reply simple_response HTML)
  else if is_text_model (model user_data) then
    assign (fun u => set_messages (messages u ++ [dict (py "user") user_prompt]) u);;
    try_except
      (user_data ← get_or_create_user_data;
       let pruned_messages := model_input user_data in
       await (chat_completions_create (model user_data) pruned_messages);;
       await (send_chat_action (chat_id message) (py "typing"));;
       let response_message := completion_content E (model user_data) pruned_messages in
       assign (fun u => set_messages (messages u ++ [dict (py "assistant") response_message]) u);;
       assign (fun u => set_count_messages (count_messages u + 1) u);;
       await (save_user_data (from_user_id message));;
       await (delete_message (chat_id message) last_message_id);;
       dispatch message response_message)
      (fun e =>
         log_exception e;;
         await (reply (py "An error occurred: " ++ str_of_exn e) HTML))
  else if bool_decide (model user_data = py "dall-e-3") then
    try_except
      (await (images_generate user_prompt (pic_size user_data) (pic_grade user_data));;
       mret true)
      (fun e =>
         log_exception e;;
         await (reply (py "An error occurred: " ++ str_of_exn e) HTML);;
         mret false)
    ≫= fun generated =>
    if negb generated then mret tt else
    await (send_chat_action (chat_id message) (py "upload_photo"));;
    assign (fun u => set_count_messages (count_messages u + 1) u);;
    await (save_user_data (from_user_id message));;
    await (delete_message (chat_id message) last_message_id);;
    await (send_photo (chat_id message)
             (image_url E user_prompt (pic_size user_data) (pic_grade user_data))
             (message_id message))
  else mret tt.

(** **** Photos *)

Definition update_user_data (user_id : Z) : M unit :=
  assign (fun u => set_count_messages (count_messages u + 1) u);;
  await (save_user_data user_id).

Definition chatgpt_photo_vision_handler (message : Message) : M unit :=
  ok ← checkAccess message;
  if negb ok then mret tt else
  state_clear;;
  try_except
    (await (answer temporary_message HTML None);;
     tr ← calls_so_far;
     let temp_message_id := sent_message_id E tr in
     let text :=
       match caption message with
       | Some c => if truthy c then c else py "What's in the picture?"
       | None => py "What's in the picture?"
       end in
     await get_file;;
     await download_and_encode_image;;
     await (process_image_with_gpt text);;
     let ai_response := vision_content E text in
     update_user_data (from_user_id message);;
     await (delete_message (chat_id message) temp_message_id);;
     await (answer ai_response HTML None))
    (fun e =>
       log_exception e;;
       await (reply (py "An error occurred: " ++ str_of_exn e) HTML)).

(** **** The router *)

(** Message handlers, tried in the order the module registers them.  The
    filter of the conversation handler, [F.content_type.in_({"text",
    "voice"})], goes by the content type aiogram computes, which is "text"
    only for a text that is not empty; the command filters compare
    [message.text], and the state filter takes any message. *)
Definition on_message (message : Message) : M unit :=
  b ← get_bot;
  if bool_decide (text message = Some (py "/enable_all")) then enable_all_access message
  else if bool_decide (text message = Some (py "/disable_all")) then disable_all_access message
  else if bool_decide (text message = Some (py "/start")) then command_start_handler message
  else if bool_decide (text message = Some (py "/menu")) then process_key_button message
  else if bool_decide (state b = Some waiting_for_new_value) then process_new_value message
  else if bool_decide (text message = Some (py "/help")) then help_handler message
  else if text_truthy message || voice message then chatgpt_text_handler message
  else if photo message then chatgpt_photo_vision_handler message
  else mret tt.

(** Callback handlers, by the button's data. *)
Definition on_callback_query (callback_query : CallbackQuery) : M unit :=
  let d := data callback_query in
  if bool_decide (d = py "model_choice") then process_callback_model_choice callback_query
  else if bool_decide (d = py "gpt_4o_mini") then process_callback_menu_1 callback_query
  else if bool_decide (d = py "gpt_4_o") then process_callback_menu_2 callback_query
  else if bool_decide (d = py "gpt_o1_mini") then process_callback_menu_1_o1_mini callback_query
  else if bool_decide (d = py "gpt_o1_preview") then process_callback_menu_2_o1_preview callback_query
  else if bool_decide (d = py "dall_e_3") then process_callback_menu_3 callback_query
  else if bool_decide (d = py "pic_setup") then process_callback_menu_pic_setup callback_query
  else if bool_decide (d = py "set_sd") then process_callback_set_sd callback_query
  else if bool_decide (d = py "set_hd") then process_callback_set_hd callback_query
  else if bool_decide (d = py "set_1024x1024") then process_callback_set_1024x1024 callback_query
  else if bool_decide (d = py "set_1024x1792") then process_callback_set_1024x1792 callback_query
  else if bool_decide (d = py "set_1792x1024") then process_callback_set_1792x1024 callback_query
  else if bool_decide (d = py "context_work") then process_callback_context_work callback_query
  else if bool_decide (d = py "context") then process_callback_context callback_query
  else if bool_decide (d = py "clear") then process_callback_clear callback_query
  else if bool_decide (d = py "voice_answer_work") then process_callback_voice_answer_work callback_query
  else if bool_decide (d = py "voice_answer_add") then process_callback_voice_answer_add callback_query
  else if bool_decide (d = py "voice_answer_del") then process_callback_voice_answer_del callback_query
  else if bool_decide (d = py "system_value_work") then process_callback_system_value_work callback_query
  else if bool_decide (d = py "change_value") then process_callback_change_value callback_query
  else if bool_decide (d = py "delete_value") then process_callback_delete_value callback_query
  else if bool_decide (d = py "back_menu") then process_callback_menu_back callback_query
  else if bool_decide (d = py "info") then process_callback_info callback_query
  else mret tt.

(** An update the bot receives. *)
Inductive update :=
  | message_update (message : Message)
  | callback_update (callback_query : CallbackQuery).

Definition handle (u : update) : M unit :=
  match u with
  | message_update message => on_message message
  | callback_update callback_query => on_callback_query callback_query
  end.

(** **** The state for all users *)

(** The program keeps one session per user id (every handler asks
    [get_or_create_user_data] for the session of the user its own update
    comes from: [message.from_user.id], [callback_query.from_user.id]) and
    aiogram one [FSMContext] state per chat and user; the two module globals
    are shared. *)
Record world := World {
  sessions : Z -> user_data;
  all_users_access : bool;
  last_sys_massage : option str;
  states : Z * Z -> option fsm;
}.

(** The user whose session a handler works on. *)
Definition session_key (u : update) : Z :=
  match u with
  | message_update message => from_user_id message
  | callback_update callback_query => cq_from_user_id callback_query
  end.

(** The chat and user whose state the handler is given. *)
Definition state_key (u : update) : Z * Z :=
  match u with
  | message_update message => (chat_id message, from_user_id message)
  | callback_update callback_query =>
      (chat_id (cq_message callback_query), cq_from_user_id callback_query)
  end.

(** What the handler of [u] sees of the state for all users. *)
Definition view (u : update) (w : world) : bot :=
  Bot (sessions w (session_key u)) (all_users_access w) (last_sys_massage w)
    (states w (state_key u)).

Definition update_at {K V} `{EqDecision K} (k : K) (v : V) (f : K -> V) : K -> V :=
  fun k' => if decide (k' = k) then v else f k'.

(** What it leaves, put back. *)
Definition put (u : update) (b : bot) (w : world) : world :=
  World (update_at (session_key u) (user b) (sessions w))
    (ALL_USERS_ACCESS b) (sys_massage b)
    (update_at (state_key u) (state b) (states w)).

(** One update, handled on the state for all users: the state it leaves,
    the calls made, and how the handler ended. *)
Definition step (u : update) (w : world) : world * list call * (exn + unit) :=
  let '((b, tr), r) := run (handle u) (view u w) in
  ((put u b w, tr), r).

Definition world_after (u : update) (w : world) : world := (step u w).1.1.
Definition calls_in (u : update) (w : world) : list call := (step u w).1.2.

End Handlers.

End Handler.

(** ** The conversation pipeline over shared objects *)

Module Pipeline.

Import Objects.

(** [chatgpt_text_handler], from "Add the user's message to the chat history"
    to "Adding the model's response to the chat history", with
    [user_data.messages] a reference to the history list.  [completion] is
    the model's answer to the list it is sent, [None] when the call raises.
    The result is the heap left, the value of the list sent to the model,
    and the model's answer. *)
Definition exchange (completion : str -> list message -> option str)
    (h : heap) (messages : ref) (model system_message user_prompt : str) (max_out : Z)
    : option (heap * list message * option str) :=
  let '(h1, user_entry) := new h (Dict (dict (py "user") user_prompt)) in
  h2 ← append h1 messages user_entry;
  '(h3, pruned_messages) ← prune_messages h2 messages max_out;
  let '(h4, system_entry) := new h3 (Dict (dict (py "system") system_message)) in
  h5 ← (if Handler.takes_system_role model then insert0 h4 pruned_messages system_entry
        else Some h4);
  sent ← value h5 pruned_messages;
  match completion model sent with
  | None => Some (h5, sent, None)
  | Some response_message =>
      let '(h6, assistant_entry) := new h5 (Dict (dict (py "assistant") response_message)) in
      h7 ← append h6 messages assistant_entry;
      Some (h7, sent, Some response_message)
  end.

End Pipeline.

(** * Vocabulary of the properties *)

(** The predicates the properties are stated with, and the concrete
    sessions, messages and outsides they are tried on. *)

Import Base Function Handler.

(** What the loop leaves in [pruned_messages]: the first [k] entries it was
    given, whole, then possibly one more entry cut to the characters that
    were left. *)
Inductive loop_outcome (rev_messages : list message) (max_chars total_chars : Z)
    (k : nat) : list message -> Prop :=
  | loop_whole :
      total_chars + content_chars (take k rev_messages) <= Z.max total_chars max_chars ->
      loop_outcome rev_messages max_chars total_chars k (take k rev_messages)
  | loop_cut m r :
      rev_messages !! k = Some m ->
      Z.of_nat r = max_chars - total_chars - content_chars (take k rev_messages) ->
      (0 < r < length (content m))%nat ->
      loop_outcome rev_messages max_chars total_chars k
        (take k rev_messages ++ [truncated m r]).

(** The result of [prune_messages], read off the history: the last entries
    from position [k] on, whole, or the entry at [k] cut to [r] characters
    followed by the whole entries after it. *)
Inductive pruned_shape (history : list message) (max_chars : Z) : list message -> Prop :=
  | pruned_whole k :
      content_chars (drop k history) <= Z.max 0 max_chars ->
      pruned_shape history max_chars (drop k history)
  | pruned_cut k m r :
      history !! k = Some m ->
      Z.of_nat r = max_chars - content_chars (drop (S k) history) ->
      (0 < r < length (content m))%nat ->
      pruned_shape history max_chars (truncated m r :: drop (S k) history).

(** The history of scenario A: 50 entries of 100 characters each. *)
Definition scenario_history : list message :=
  replicate 50 (dict (py "user") (replicate 100 "h"%char)).

(** An outside where no call raises. *)
Definition quiet_env : env := {|
  OWNER_ID := 1001;
  ADMIN_ID := 1002;
  formatted_datetime := py "01.01.2025 12:00:00";
  raises := fun _ _ => None;
  sent_message_id := fun _ => 7;
  transcription := fun _ => py "hello";
  simple_bot_responses := fun _ => [];
  completion_content := fun _ _ => py "ok";
  image_url := fun _ _ _ => py "https://example.org/image.png";
  vision_content := fun _ => py "a picture";
|}.

(** A session as [/start] leaves it, with the given model and history. *)
Definition session (model label : str) (history : list message) : user_data := {|
  model := model;
  model_message_info := label;
  model_message_chat := label ++ py ":" ++ [nl; nl];
  messages := history;
  count_messages := 0;
  max_out := 128000;
  voice_answer := false;
  system_message := [];
  pic_grade := py "standard";
  pic_size := py "1024x1024";
|}.

Definition text_message (user_id : Z) (t : str) : Message := {|
  from_user_id := user_id; chat_id := user_id; message_id := 1;
  text := Some t; voice := false; photo := false; caption := None;
|}.

(** A button press: the keyboard is on a message the bot itself sent. *)
Definition button_press (user_id sender_id : Z) (d : str) (shown : str) : CallbackQuery := {|
  cq_from_user_id := user_id;
  data := d;
  cq_message := text_message sender_id shown;
|}.

Definition denial (user_id : Z) : str :=
  py "<i>Sorry, you do not have access to this bot." ++ [nl]
  ++ py "User ID:</i> <b>" ++ str_of_int user_id ++ py "</b>".

Definition admitted (E : env) (b : bot) (user_id : Z) : Prop :=
  user_id = OWNER_ID E \/ user_id = ADMIN_ID E \/ ALL_USERS_ACCESS b = true.

(** The callbacks that set one setting to one value. *)
Inductive setting :=
  | quality_sd | quality_hd
  | size_1024x1024 | size_1024x1792 | size_1792x1024
  | voice_on | voice_off
  | model_4o_mini | model_4o | model_o1_mini | model_o1_preview | model_dall_e_3
  | role_removed.

(** The button data that triggers it. *)
Definition setting_data (s : setting) : str :=
  match s with
  | quality_sd => py "set_sd"
  | quality_hd => py "set_hd"
  | size_1024x1024 => py "set_1024x1024"
  | size_1024x1792 => py "set_1024x1792"
  | size_1792x1024 => py "set_1792x1024"
  | voice_on => py "voice_answer_add"
  | voice_off => py "voice_answer_del"
  | model_4o_mini => py "gpt_4o_mini"
  | model_4o => py "gpt_4_o"
  | model_o1_mini => py "gpt_o1_mini"
  | model_o1_preview => py "gpt_o1_preview"
  | model_dall_e_3 => py "dall_e_3"
  | role_removed => py "delete_value"
  end.

(** The session already has the value the callback would set. *)
Definition already_set (s : setting) (u : user_data) : Prop :=
  match s with
  | quality_sd => pic_grade u = py "standard"
  | quality_hd => pic_grade u = py "hd"
  | size_1024x1024 => pic_size u = py "1024x1024"
  | size_1024x1792 => pic_size u = py "1024x1792"
  | size_1792x1024 => pic_size u = py "1792x1024"
  | voice_on => voice_answer u = true
  | voice_off => voice_answer u = false
  | model_4o_mini => model u = py "gpt-4o-mini"
  | model_4o => model u = py "gpt-4o"
  | model_o1_mini => model u = py "o1-mini"
  | model_o1_preview => model u = py "o1-preview"
  | model_dall_e_3 => model u = py "dall-e-3"
  | role_removed => system_message u = []
  end.

(** A bot whose access is open to all users. *)
Definition open_bot (u : user_data) : bot := Bot u true None None.

(** The image-settings screen as the bot last rendered it, with the SD
    button pressed by user 42 while the quality is already "standard". *)
Definition press_sd_again : CallbackQuery :=
  button_press 42 5000 (py "set_sd") (py "standard : 1024x1024 ").

(** [m] takes every state to one related to it by [R]. *)
Definition preserves (R : relation (bot * list call)) {A} (m : M A) : Prop :=
  forall s, R s (m s).1.

(** The stored history only grows: what it held is still there, in front. *)
Definition R_history : relation (bot * list call) :=
  fun s s' => messages (user s.1) `prefix_of` messages (user s'.1).

#[global] Instance R_history_preorder : PreOrder R_history.
Proof.
  split.
  - intros s. unfold R_history. reflexivity.
  - intros s1 s2 s3. unfold R_history. apply transitivity.
Qed.

Definition is_start (u : update) : Prop :=
  exists message, u = message_update message /\ text message = Some (py "/start").

Definition is_clear (u : update) : Prop :=
  exists callback_query,
    u = callback_update callback_query /\ data callback_query = py "clear".

(** The label of the default model, as [/start] sets it. *)
Definition label_4o_mini : str := py "4o mini:" ++ [nl; nl].

(** A response of 90 lines of 99 characters and one more character: 9000
    characters. *)
Definition ninety_lines : str :=
  join [nl] (replicate 90 (replicate 99 "a"%char)) ++ ["a"%char].

(** The number of places in a text where a triple-backtick delimiter starts. *)
Fixpoint count_fences (s : str) : nat :=
  match s with
  | [] => 0
  | _ :: s' => (if starts_with (py "```") s then 1 else 0) + count_fences s'
  end.

(** Every chunk holds its fenced blocks whole: the delimiters in it pair up. *)
Definition fences_together (chunks : list str) : Prop :=
  Forall (fun c => Nat.even (count_fences c) = true) chunks.

(** One fenced block of a single line of 5000 characters. *)
Definition fenced_response : str :=
  py "```" ++ [nl] ++ replicate 5000 "a"%char ++ [nl] ++ py "```".

(** The sends of each variant, as calls. *)
Definition sends_of (v : variant) (label response : str) : list call :=
  match v with
  | md_long => map (fun chunk => answer chunk MARKDOWN None) (md_long_chunks label response)
  | md => [reply (py "*" ++ label ++ py "*" ++ response) MARKDOWN]
  | kwargs_long =>
      map (fun chunk => answer chunk (as_kwargs 0) None) (kwargs_long_chunks label response)
  | kwargs => [reply (label ++ response) (as_kwargs (length label))]
  end.

(** The calls of [text_to_speech], made when voice answers are on. *)
Definition speech_calls (u : user_data) (message : Message) (response : str) : list call :=
  if voice_answer u
  then [audio_speech_create response; stream_to_file (chat_id message);
        send_audio (chat_id message)]
  else [].

(** None of the calls [cs] raises, whatever was called before. *)
Definition never_raise (E : env) (cs : list call) : Prop :=
  forall tr c, c ∈ cs -> raises E tr c = None.

(** A state and the calls so far, after more calls and no change of state. *)
Definition R_frame : relation (bot * list call) :=
  fun s s' => s'.1 = s.1 /\ s.2 `prefix_of` s'.2.

#[global] Instance R_frame_preorder : PreOrder R_frame.
Proof.
  split.
  - intros s. split; reflexivity.
  - intros s1 s2 s3 [Hb1 Htr1] [Hb2 Htr2]. split; [congruence|by etrans].
Qed.







Section object_vocabulary.

Import Objects.

(** [r] refers to a message dict of value [m]. *)
Definition refers (h : heap) (r : ref) (m : message) : Prop := get_dict h r = Some m.

(** What the loop appends to the list it builds, as references and as
    values: the first [k] items it was given, the very same objects, then
    possibly one new dict holding the cut entry. *)
Inductive appended (h hf : heap) (rest : list ref) (msgs : list message)
    (max_chars total_chars : Z) : list ref -> list message -> Prop :=
  | appended_whole k :
      appended h hf rest msgs max_chars total_chars (take k rest) (take k msgs)
  | appended_cut k d m r :
      msgs !! k = Some m ->
      h !! d = None ->
      hf !! d = Some (Dict (truncated m r)) ->
      Z.of_nat r = max_chars - total_chars - content_chars (take k msgs) ->
      (0 < r < length (content m))%nat ->
      appended h hf rest msgs max_chars total_chars
        (take k rest ++ [d]) (take k msgs ++ [truncated m r]).

(** The list [prune_messages] returns, as references: the last items of the
    history from position [k] on, the very same objects, or a new dict [d]
    holding the entry at [k] cut to its first [r] characters, followed by the
    items after it. *)
Inductive returned (h h' : heap) (items : list ref) (history : list message)
    (max_chars : Z) : list ref -> Prop :=
  | returned_whole k :
      returned h h' items history max_chars (drop k items)
  | returned_cut k d m r :
      history !! k = Some m ->
      h !! d = None ->
      h' !! d = Some (Dict (dict (role m) (take r (content m)))) ->
      Z.of_nat r = max_chars - content_chars (drop (S k) history) ->
      (0 < r < length (content m))%nat ->
      returned h h' items history max_chars (d :: drop (S k) items).

(** A heap with a two-entry history: list 1 holds dicts 2 and 3. *)
Definition small_heap : heap :=
  <[1%positive := List [2%positive; 3%positive]]>
    (<[2%positive := Dict (dict (py "user") (py "hello"))]>
       (<[3%positive := Dict (dict (py "assistant") (py "world"))]> ∅)).

Definition small_history : list message :=
  [dict (py "user") (py "hello"); dict (py "assistant") (py "world")].

(** The clear button, pressed on the context screen. *)
Definition press_clear : CallbackQuery :=
  button_press 42 5000 (py "clear") (py "Actions with context:").

End object_vocabulary.

(** ** Vocabulary of the further properties *)

(** The characters of a text other than newlines, in order. *)
Definition letters (s : str) : str := filter (fun c => c <> nl) s.

(** The user an update is checked for: the sender of the message, or of the
    message that carries the pressed button. *)
Definition sender (u : update) : Z :=
  match u with
  | message_update message => from_user_id message
  | callback_update callback_query => from_user_id (cq_message callback_query)
  end.

(** The owner or the admin. *)
Definition privileged (E : env) (user_id : Z) : Prop :=
  user_id = OWNER_ID E \/ user_id = ADMIN_ID E.

(** Relations on (state, calls) that steps of handlers keep. *)
Definition R_flag : relation (bot * list call) :=
  fun s s' => ALL_USERS_ACCESS s'.1 = ALL_USERS_ACCESS s.1.

Definition R_conversation : relation (bot * list call) :=
  fun s s' =>
    messages (user s'.1) = messages (user s.1)
    /\ count_messages (user s'.1) = count_messages (user s.1).

Definition R_state : relation (bot * list call) :=
  fun s s' => state s'.1 = state s.1.

Definition R_user : relation (bot * list call) :=
  fun s s' => user s'.1 = user s.1.

(** The model and its two display strings. *)
Definition model_fields (u : user_data) : str * str * str :=
  (model u, model_message_info u, model_message_chat u).

Definition R_model : relation (bot * list call) :=
  fun s s' => model_fields (user s'.1) = model_fields (user s.1).

(** The five combinations of model and display strings the handlers assign. *)
Definition model_table : list (str * str * str) :=
  [ (py "gpt-4o-mini", py "4o mini", py "4o mini:" ++ [nl; nl]);
    (py "gpt-4o", py "4o", py "4o:" ++ [nl; nl]);
    (py "o1-mini", py "o1 mini", py "o1 mini:" ++ [nl; nl]);
    (py "o1-preview", py "o1", py "o1:" ++ [nl; nl]);
    (py "dall-e-3", py "DALL·E 3", py "DALL·E 3:" ++ [nl; nl]) ].

Definition consistent (u : user_data) : Prop := model_fields u ∈ model_table.

(** The stored history is the same. *)
Definition R_messages : relation (bot * list call) :=
  fun s s' => messages (user s'.1) = messages (user s.1).

#[global] Instance R_flag_preorder : PreOrder R_flag.
Proof. split; [by intros s|intros s1 s2 s3; unfold R_flag; congruence]. Qed.

#[global] Instance R_conversation_preorder : PreOrder R_conversation.
Proof.
  split; [by intros s|].
  intros s1 s2 s3 [H1 H2] [H3 H4]. split; congruence.
Qed.

#[global] Instance R_state_preorder : PreOrder R_state.
Proof. split; [by intros s|intros s1 s2 s3; unfold R_state; congruence]. Qed.

#[global] Instance R_user_preorder : PreOrder R_user.
Proof. split; [by intros s|intros s1 s2 s3; unfold R_user; congruence]. Qed.

#[global] Instance R_model_preorder : PreOrder R_model.
Proof. split; [by intros s|intros s1 s2 s3; unfold R_model; congruence]. Qed.

#[global] Instance R_messages_preorder : PreOrder R_messages.
Proof. split; [by intros s|intros s1 s2 s3; unfold R_messages; congruence]. Qed.

(** How a handler ends for a sender without access: the state is as it was
    and at most one plain message was sent. *)
Definition denied_outcome (s : bot * list call) (r : bot * list call * (exn + unit)) : Prop :=
  r.1.1 = s.1
  /\ (r.1.2 = s.2 \/ exists t, r.1.2 = s.2 ++ [answer t HTML None]).

(** The call to the model. *)
Definition is_completion (c : call) : bool :=
  match c with chat_completions_create _ _ => true | _ => false end.

(** An outside where the call to the model raises, and nothing else does. *)
Definition completion_fails_env : env := {|
  OWNER_ID := 1001;
  ADMIN_ID := 1002;
  formatted_datetime := py "01.01.2025 12:00:00";
  raises := fun _ c =>
    if is_completion c then Some (Exception (py "timeout")) else None;
  sent_message_id := fun _ => 7;
  transcription := fun _ => py "hello";
  simple_bot_responses := fun _ => [];
  completion_content := fun _ _ => py "ok";
  image_url := fun _ _ _ => py "https://example.org/image.png";
  vision_content := fun _ => py "a picture";
|}.

(** The session [/start] leaves. *)
Definition fresh_session : user_data := {|
  model := py "gpt-4o-mini";
  model_message_info := py "4o mini";
  model_message_chat := py "4o mini:" ++ [nl; nl];
  messages := [];
  count_messages := 0;
  max_out := 128000;
  voice_answer := false;
  system_message := [];
  pic_grade := py "standard";
  pic_size := py "1024x1024";
|}.

(** A text that is one of the four commands routed before the role input. *)
Definition early_command (t : str) : Prop :=
  t = py "/enable_all" \/ t = py "/disable_all" \/ t = py "/start" \/ t = py "/menu".

(** A bot waiting for the system role of the sender. *)
Definition waiting_bot (u : user_data) : bot := Bot u true None (Some waiting_for_new_value).

(** A message that reaches the conversation handler with a text model
    chosen: a non-empty text that is none of the five commands, or a voice
    message, from a sender with access, while the bot is not waiting for
    the sender's system role. *)
Definition chat_update (E : env) (b : bot) (u : update) : Prop :=
  exists message,
    u = message_update message
    /\ admitted E b (from_user_id message)
    /\ state b <> Some waiting_for_new_value
    /\ (forall t, text message = Some t -> ~ early_command t /\ t <> py "/help")
    /\ (text_truthy message = true \/ voice message = true)
    /\ is_text_model (model (user b)) = true.

(** A button pressed by a user in the private chat with the bot: the
    message with the keyboard is the bot's, in the user's chat. *)
Definition button_in_chat (user_id bot_id : Z) (d shown : str) : CallbackQuery := {|
  cq_from_user_id := user_id;
  data := d;
  cq_message := {|
    from_user_id := bot_id; chat_id := user_id; message_id := 2;
    text := Some shown; voice := false; photo := false; caption := None;
  |};
|}.

(** A state for all users in which every user has the session and the
    state of [b]. *)
Definition world_of (b : bot) : world :=
  World (fun _ => user b) (ALL_USERS_ACCESS b) (sys_massage b) (fun _ => state b).

(** An outside where no call raises and [simple_bot_responses] knows one
    greeting. *)
Definition greeting_env : env := {|
  OWNER_ID := 1001;
  ADMIN_ID := 1002;
  formatted_datetime := py "01.01.2025 12:00:00";
  raises := fun _ _ => None;
  sent_message_id := fun _ => 7;
  transcription := fun _ => py "hello";
  simple_bot_responses := fun t => if bool_decide (t = py "hello") then py "Hi there!" else [];
  completion_content := fun _ _ => py "ok";
  image_url := fun _ _ _ => py "https://example.org/image.png";
  vision_content := fun _ => py "a picture";
|}.

(** The messages [send_history] sends for the chunks, and the menu after
    them. *)
Definition history_sends (user_id : Z) (chunks : list str) : list call :=
  map (fun chunk => bot_send_message user_id chunk (as_kwargs 0) None) chunks
  ++ [bot_send_message user_id (py "Actions with context:") HTML (Some keyboard_context)].

(** A photo with its caption, if it has one. *)
Definition photo_message (user_id : Z) (c : option str) : Message := {|
  from_user_id := user_id;
  chat_id := user_id;
  message_id := 1;
  text := None;
  voice := false;
  photo := true;
  caption := c;
|}.

(** The question asked about a photo without a caption. *)
Definition default_question : str := py "What's in the picture?".

(** The length [send_history] counts for a group of lines: each line and
    one newline. *)
Definition weight (lines : list str) : Z :=
  foldr (fun line acc => len line + 1 + acc) 0 lines.

(** * Properties *)

(** ** Python strings *)

Lemma split_nl_nonempty s : split_nl s <> [].
Proof. destruct s as [|c s]; simpl; [done|]. case_decide; [done|]. by destruct (split_nl s). Qed.

Lemma join_nl_cons l ls : ls <> [] -> join [nl] (l :: ls) = l ++ nl :: join [nl] ls.
Proof. by destruct ls. Qed.

(** ["\n".join(s.split("\n")) == s] *)
Lemma join_split_nl s : join [nl] (split_nl s) = s.
Proof.
  induction s as [|c s IH]; [done|]. simpl split_nl.
  case_decide as Hc.
  - rewrite join_nl_cons by apply split_nl_nonempty. rewrite IH. by subst.
  - pose proof (split_nl_nonempty s) as Hne.
    destruct (split_nl s) as [|l ls]; [done|].
    destruct ls as [|l' ls]; simpl in *; by rewrite <- IH.
Qed.

(** ** [prune_messages] on values *)

Lemma content_chars_app ms1 ms2 :
  content_chars (ms1 ++ ms2) = content_chars ms1 + content_chars ms2.
Proof.
  induction ms1 as [|m ms1 IH]; simpl; [lia|]. rewrite IH. lia.
Qed.

Lemma content_chars_nonneg ms : 0 <= content_chars ms.
Proof. induction ms as [|m ms IH]; simpl; unfold len; lia. Qed.

Lemma content_chars_reverse ms : content_chars (reverse ms) = content_chars ms.
Proof.
  induction ms as [|m ms IH]; [done|].
  rewrite reverse_cons, content_chars_app, IH. simpl. lia.
Qed.

Lemma prune_loop_outcome rev_messages max_chars total_chars pruned :
  exists k out,
    prune_loop rev_messages max_chars total_chars pruned = pruned ++ out
    /\ loop_outcome rev_messages max_chars total_chars k out.
Proof.
  revert total_chars pruned.
  induction rev_messages as [|m rest IH]; intros total pruned; simpl.
  - exists 0%nat, []. split; [by rewrite app_nil_r|].
    apply (loop_whole [] max_chars total 0); simpl; lia.
  - destruct (Z.leb_spec (max_chars - total) 0) as [Hle|Hgt].
    { exists 0%nat, []. split; [by rewrite app_nil_r|].
      apply (loop_whole (m :: rest) max_chars total 0); simpl; lia. }
    destruct (Z.gtb_spec (len (content m)) (max_chars - total)) as [Hcut|Hfit].
    { exists 0%nat, [truncated m (Z.to_nat (max_chars - total))]. split; [done|].
      apply (loop_cut (m :: rest) max_chars total 0 m); simpl;
        [done | lia | unfold len in Hcut; lia]. }
    destruct (IH (total + len (content m)) (pruned ++ [m])) as (k & out & Heq & Hout).
    exists (S k), (m :: out). split; [by rewrite Heq, <- app_assoc|].
    destruct Hout as [Hsum | m' r Hm' Hr Hlen].
    + apply (loop_whole (m :: rest) max_chars total (S k)); simpl; lia.
    + apply (loop_cut (m :: rest) max_chars total (S k) m' r); simpl; [done | lia | done].
Qed.

Lemma prune_messages_shape history max_chars :
  pruned_shape history max_chars (prune_messages history max_chars).
Proof.
  unfold prune_messages.
  destruct (prune_loop_outcome (reverse history) max_chars 0 []) as (k & out & -> & Hout).
  rewrite app_nil_l.
  destruct Hout as [Hsum | m r Hm Hr Hlen].
  - rewrite take_reverse, reverse_involutive.
    apply pruned_whole.
    rewrite take_reverse, content_chars_reverse in Hsum. lia.
  - apply reverse_lookup_Some in Hm as [Hm Hk].
    rewrite reverse_snoc, take_reverse, reverse_involutive.
    rewrite take_reverse, content_chars_reverse in Hr.
    replace (length history - k)%nat with (S (length history - S k)) in * by lia.
    apply pruned_cut; [done | lia | done].
Qed.

Lemma content_chars_truncated m r :
  (r <= length (content m))%nat -> len (content (truncated m r)) = Z.of_nat r.
Proof. intros Hr. unfold len, truncated. simpl. rewrite length_take. lia. Qed.

(** The scenario of the specification, step by step through the loop. *)
Lemma prune_messages_scenario history :
  length history = 50%nat ->
  Forall (fun m => len (content m) = 100) history ->
  exists m48 m49 m50,
    drop 47 history = [m48; m49; m50]
    /\ prune_messages history 250 = [truncated m48 50; m49; m50].
Proof.
  intros Hlen Hall.
  assert (length (drop 47 history) = 3%nat) as Hlen3 by (rewrite length_drop; lia).
  destruct (drop 47 history) as [|m48 [|m49 [|m50 [|? ?]]]] eqn:Hdrop; try done.
  exists m48, m49, m50. split; [done|].
  assert (Forall (fun m => len (content m) = 100) [m48; m49; m50]) as Hlast.
  { rewrite <- Hdrop. by apply Forall_drop. }
  apply Forall_cons in Hlast as [H48 Hlast].
  apply Forall_cons in Hlast as [H49 Hlast].
  apply Forall_cons in Hlast as [H50 _].
  unfold prune_messages.
  rewrite <- (take_drop 47 history), Hdrop, reverse_app.
  change (reverse [m48; m49; m50]) with [m50; m49; m48].
  cbn [app prune_loop]. rewrite H50. cbn [Z.sub Z.opp Z.add Z.leb Z.gtb Z.compare Pos.compare Pos.compare_cont Z.pos_sub].
  cbn [app prune_loop]. rewrite H49. simpl.
  rewrite H48. simpl. done.
Qed.

Lemma prune_loop_acc rev_messages max_chars total_chars pruned :
  prune_loop rev_messages max_chars total_chars pruned
  = pruned ++ prune_loop rev_messages max_chars total_chars [].
Proof.
  revert total_chars pruned.
  induction rev_messages as [|m rest IH]; intros total pruned; simpl.
  - by rewrite app_nil_r.
  - destruct (_ <=? 0); [by rewrite app_nil_r|].
    destruct (_ >? _); [done|].
    rewrite (IH _ (pruned ++ [m])), (IH _ [m]). by rewrite <- app_assoc.
Qed.

(** ** [prune_messages] on shared objects *)

Section objects.

Import Objects.

Lemma refers_weaken h h' r m : h ⊆ h' -> refers h r m -> refers h' r m.
Proof.
  unfold refers, get_dict. intros Hsub Hr.
  destruct (h !! r) as [o|] eqn:Ho; [|done].
  by rewrite (lookup_weaken _ _ _ _ Ho Hsub).
Qed.

Lemma get_list_weaken h h' l xs : h ⊆ h' -> get_list h l = Some xs -> get_list h' l = Some xs.
Proof.
  unfold get_list. intros Hsub Hl.
  destruct (h !! l) as [o|] eqn:Ho; [|done].
  by rewrite (lookup_weaken _ _ _ _ Ho Hsub).
Qed.

Lemma new_fresh h o : h !! (new h o).2 = None.
Proof. simpl. apply not_elem_of_dom, is_fresh. Qed.

Lemma new_subseteq h o : h ⊆ (new h o).1.
Proof. simpl. apply insert_subseteq, not_elem_of_dom, is_fresh. Qed.

Lemma new_lookup h o : (new h o).1 !! (new h o).2 = Some o.
Proof. simpl. apply lookup_insert_eq. Qed.

Lemma subseteq_fresh (h hi : heap) r : h ⊆ hi -> hi !! r = None -> h !! r = None.
Proof.
  intros Hsub Hr. destruct (h !! r) as [o|] eqn:Ho; [|done].
  by rewrite (lookup_weaken _ _ _ _ Ho Hsub) in Hr.
Qed.

Lemma value_refers h l xs ms :
  get_list h l = Some xs -> Forall2 (refers h) xs ms -> value h l = Some ms.
Proof.
  intros Hl Hxs. unfold value. rewrite Hl. simpl. by apply mapM_Some.
Qed.

Lemma value_inv h l ms :
  value h l = Some ms -> exists xs, get_list h l = Some xs /\ Forall2 (refers h) xs ms.
Proof.
  unfold value. destruct (get_list h l) as [xs|]; [|done]. simpl.
  intros Hm. exists xs. split; [done|]. by apply mapM_Some.
Qed.

Lemma append_lookup (h : heap) l xs x :
  h !! l = Some (List xs) -> append h l x = Some (<[l := List (xs ++ [x])]> h).
Proof. intros Hl. unfold append, get_list. by rewrite Hl. Qed.

Lemma prune_loop_objects (h : heap) pruned rest msgs max_chars :
  Forall2 (refers h) rest msgs ->
  h !! pruned = None ->
  forall total (hi : heap) acc,
    h ⊆ hi ->
    hi !! pruned = Some (List acc) ->
    exists (hf : heap) out,
      Objects.prune_loop hi rest max_chars total pruned = Some hf
      /\ h ⊆ hf
      /\ hf !! pruned = Some (List (acc ++ out))
      /\ appended h hf rest msgs max_chars total out
           (Function.prune_loop msgs max_chars total []).
Proof.
  intros Hrest Hpruned.
  induction Hrest as [|x m rest msgs Hx Hrest IH]; intros total hi acc Hsub Hacc.
  - exists hi, []. rewrite app_nil_r. repeat split; try done.
    apply (appended_whole h hi [] [] max_chars total 0).
  - simpl. rewrite (refers_weaken _ _ _ _ Hsub Hx). simpl.
    destruct (Z.leb_spec (max_chars - total) 0) as [Hle|Hgt].
    { exists hi, []. rewrite app_nil_r. repeat split; try done.
      apply (appended_whole h hi (x :: rest) (m :: msgs) max_chars total 0). }
    destruct (Z.gtb_spec (len (content m)) (max_chars - total)) as [Hcut|Hfit].
    { set (d := fresh (dom hi)).
      assert (hi !! d = None) as Hd by apply not_elem_of_dom, is_fresh.
      assert (d <> pruned) as Hne by (intros ->; by rewrite Hacc in Hd).
      set (o := Dict (dict (role m) (take (Z.to_nat (max_chars - total)) (content m)))).
      rewrite (append_lookup (<[d := o]> hi) pruned acc d)
        by (by rewrite lookup_insert_ne).
      eexists _, [d]. split; [done|]. split; [|split].
      - apply insert_subseteq_r; [done|].
        apply insert_subseteq_r; [by eapply subseteq_fresh|done].
      - apply lookup_insert_eq.
      - apply (appended_cut h _ (x :: rest) (m :: msgs) max_chars total 0 d m
                 (Z.to_nat (max_chars - total))); simpl.
        + done.
        + by eapply subseteq_fresh.
        + rewrite lookup_insert_ne by done. apply lookup_insert_eq.
        + lia.
        + unfold len in Hcut. lia. }
    rewrite (append_lookup hi pruned acc x) by done. simpl.
    destruct (IH (total + len (content m)) (<[pruned := List (acc ++ [x])]> hi) (acc ++ [x]))
      as (hf & out & Hrun & Hsubf & Hlist & Hout).
    { by apply insert_subseteq_r. }
    { apply lookup_insert_eq. }
    exists hf, (x :: out). rewrite Hrun. split; [done|]. split; [done|]. split.
    { by rewrite Hlist, <- app_assoc. }
    rewrite prune_loop_acc. simpl.
    destruct Hout as [k | k d m' r Hm' Hd Hfd Hr Hlen].
    + apply (appended_whole h hf (x :: rest) (m :: msgs) max_chars total (S k)).
    + apply (appended_cut h hf (x :: rest) (m :: msgs) max_chars total (S k) d m' r);
        simpl; try done. lia.
Qed.

Lemma prune_messages_objects (h : heap) messages items history max_chars :
  get_list h messages = Some items ->
  Forall2 (refers h) items history ->
  exists (h' : heap) l' refs,
    Objects.prune_messages h messages max_chars = Some (h', l')
    /\ h ⊆ h'
    /\ h !! l' = None
    /\ get_list h' l' = Some refs
    /\ Forall2 (refers h') refs (Function.prune_messages history max_chars)
    /\ returned h h' items history max_chars refs.
Proof.
  intros Hlist Hitems.
  unfold Objects.prune_messages. rewrite Hlist. simpl.
  set (p := fresh (dom h)).
  assert (h !! p = None) as Hp by apply not_elem_of_dom, is_fresh.
  destruct (prune_loop_objects h p (reverse items) (reverse history) max_chars
              (Forall2_reverse _ _ _ Hitems) Hp 0 (<[p := List []]> h) [])
    as (hf & out & Hrun & Hsub & Hout & Happ).
  { by apply insert_subseteq. }
  { apply lookup_insert_eq. }
  rewrite Hrun. simpl. unfold get_list at 1. rewrite Hout. simpl.
  set (l' := fresh (dom hf)).
  assert (hf !! l' = None) as Hl' by apply not_elem_of_dom, is_fresh.
  assert (hf ⊆ <[l' := List (reverse out)]> hf) as Hsub' by by apply insert_subseteq.
  assert (h ⊆ <[l' := List (reverse out)]> hf) as Hsub'' by (by etrans).
  pose proof (Forall2_length _ _ _ Hitems) as Hlen.
  eexists _, l', (reverse out). split; [done|].
  change (fresh (dom hf)) with l'. split; [done|].
  split; [exact (subseteq_fresh h hf l' Hsub Hl')|].
  split; [unfold get_list; by rewrite lookup_insert_eq|].
  unfold Function.prune_messages.
  generalize dependent (<[l' := List (reverse out)]> hf). intros h' Hsub' Hsub''.
  destruct Happ as [k | k d m r Hm Hd Hfd Hr Hrlen].
  - split.
    + apply Forall2_reverse, Forall2_take, Forall2_reverse.
      eapply Forall2_impl; [done|]. intros ???. by eapply refers_weaken.
    + rewrite take_reverse, reverse_involutive. apply returned_whole.
  - apply reverse_lookup_Some in Hm as [Hm Hk].
    rewrite take_reverse, content_chars_reverse in Hr.
    split.
    + apply Forall2_reverse, Forall2_app.
      * apply Forall2_take, Forall2_reverse.
        eapply Forall2_impl; [done|]. intros ???. by eapply refers_weaken.
      * constructor; [|constructor]. unfold refers, get_dict.
        by rewrite (lookup_weaken _ _ _ _ Hfd Hsub').
    + rewrite reverse_snoc, take_reverse, reverse_involutive.
      replace (length items - k)%nat with (S (length history - S k)) by lia.
      replace (length history - k)%nat with (S (length history - S k)) in Hr by lia.
      apply (returned_cut _ _ _ _ _ (length history - S k)%nat d m r);
        [done|done| |lia|done].
      exact (lookup_weaken _ _ _ _ Hfd Hsub').
Qed.

End objects.

(** C3.  For a budget [0 <= budget], [prune_messages history budget] has
    total content length at most [budget]; it is the end of [history] from
    some position [k] on, in the original order, with every entry whole
    except possibly the first (oldest) one, whose content is cut to [r]
    characters; and for a history of 50 entries of 100 characters and budget
    250 it is the third-most-recent entry cut to 50 characters followed by
    the two most recent entries whole. *)
Theorem prune_messages_budget_suffix (history : list message) (budget : Z) :
  0 <= budget ->
  content_chars (prune_messages history budget) <= budget
  /\ (exists k : nat,
        prune_messages history budget = drop k history
        \/ exists m r,
             history !! k = Some m
             /\ (r < length (content m))%nat
             /\ prune_messages history budget = truncated m r :: drop (S k) history)
  /\ (length history = 50%nat ->
      Forall (fun m => len (content m) = 100) history ->
      budget = 250 ->
      exists m48 m49 m50,
        drop 47 history = [m48; m49; m50]
        /\ prune_messages history budget = [truncated m48 50; m49; m50]).
Proof.
  intros Hbudget. split; [|split].
  - destruct (prune_messages_shape history budget) as [k Hsum | k m r Hm Hr Hlen].
    + lia.
    + change (content_chars (truncated m r :: drop (S k) history))
        with (len (content (truncated m r)) + content_chars (drop (S k) history)).
      rewrite content_chars_truncated by lia. lia.
  - destruct (prune_messages_shape history budget) as [k Hsum | k m r Hm Hr Hlen].
    + exists k. by left.
    + exists k. right. exists m, r. repeat split; [done|lia].
  - intros Hlen Hall ->. by apply prune_messages_scenario.
Qed.

Lemma prune_messages_budget_suffix_witness :
  0 <= 250
  /\ content_chars (prune_messages scenario_history 250) <= 250
  /\ prune_messages scenario_history 250
     = [dict (py "user") (replicate 50 "h"%char);
        dict (py "user") (replicate 100 "h"%char);
        dict (py "user") (replicate 100 "h"%char)].
Proof.
  split; [lia|].
  destruct (prune_messages_budget_suffix scenario_history 250) as (Hsum & _ & Hscenario);
    [lia|].
  split; [exact Hsum|].
  destruct Hscenario as (m48 & m49 & m50 & Hdrop & ->).
  - reflexivity.
  - apply Forall_forall. intros m Hm.
    apply elem_of_replicate in Hm as [-> _]. reflexivity.
  - reflexivity.
  - vm_compute in Hdrop. by injection Hdrop as <- <- <-.
Defined.

Section objects_claims.

Import Objects.



(** [prune_messages] leaves every object of the heap as it was, and run again
    on the heap it left it returns a list of equal value. *)
Lemma prune_messages_pure (h : heap) (messages : ref) (history : list message)
    (max_chars : Z) :
  value h messages = Some history ->
  exists (h1 h2 : heap) l1 l2,
    Objects.prune_messages h messages max_chars = Some (h1, l1)
    /\ (forall r o, h !! r = Some o -> h1 !! r = Some o)
    /\ value h1 messages = Some history
    /\ Objects.prune_messages h1 messages max_chars = Some (h2, l2)
    /\ (forall r o, h1 !! r = Some o -> h2 !! r = Some o)
    /\ value h2 l1 = Some (Function.prune_messages history max_chars)
    /\ value h2 l2 = Some (Function.prune_messages history max_chars).
Proof.
  intros (items & Hlist & Hitems)%value_inv.
  destruct (prune_messages_objects h messages items history max_chars Hlist Hitems)
    as (h1 & l1 & refs1 & Hrun1 & Hsub1 & _ & Hrefs1 & Hvals1 & _).
  assert (get_list h1 messages = Some items) as Hlist1 by by eapply get_list_weaken.
  assert (Forall2 (refers h1) items history) as Hitems1.
  { eapply Forall2_impl; [done|]. intros ???. by eapply refers_weaken. }
  destruct (prune_messages_objects h1 messages items history max_chars Hlist1 Hitems1)
    as (h2 & l2 & refs2 & Hrun2 & Hsub2 & _ & Hrefs2 & Hvals2 & _).
  exists h1, h2, l1, l2. split; [done|].
  split; [intros r o Hr; by eapply lookup_weaken|].
  split; [by eapply value_refers|]. split; [done|].
  split; [intros r o Hr; by eapply lookup_weaken|].
  split; [|by eapply value_refers].
  eapply value_refers; [by eapply get_list_weaken|].
  eapply Forall2_impl; [done|]. intros ???. by eapply refers_weaken.
Qed.

Lemma get_list_Some (h : heap) l xs : get_list h l = Some xs <-> h !! l = Some (List xs).
Proof.
  unfold get_list. split.
  - destruct (h !! l) as [[]|]; naive_solver.
  - by intros ->.
Qed.

(** Updating a list object leaves the message dicts as they are. *)
Lemma refers_insert_list (h : heap) l xs ys r m :
  h !! l = Some (List xs) -> refers h r m -> refers (<[l := List ys]> h) r m.
Proof.
  intros Hl Hr. unfold refers, get_dict in *.
  destruct (decide (l = r)) as [->|Hne].
  - by rewrite Hl in Hr.
  - by rewrite lookup_insert_ne.
Qed.

Lemma refers_insert_new (h : heap) d o r m :
  h !! d = None -> refers h r m -> refers (<[d := o]> h) r m.
Proof. intros Hd. apply refers_weaken. by apply insert_subseteq. Qed.

Lemma Forall2_refers_insert_list (h : heap) l xs ys rs ms :
  h !! l = Some (List xs) ->
  Forall2 (refers h) rs ms -> Forall2 (refers (<[l := List ys]> h)) rs ms.
Proof.
  intros Hl H. eapply Forall2_impl; [done|]. intros r m. by apply (refers_insert_list h l xs).
Qed.

Lemma Forall2_refers_weaken (h h' : heap) rs ms :
  h ⊆ h' -> Forall2 (refers h) rs ms -> Forall2 (refers h') rs ms.
Proof. intros Hsub H. eapply Forall2_impl; [done|]. intros r m. by apply refers_weaken. Qed.

(** Appending a new dict to the history list. *)
Lemma append_new_dict (h : heap) messages items history m :
  h !! messages = Some (List items) ->
  Forall2 (refers h) items history ->
  exists (h' : heap) d,
    new h (Dict m) = (<[d := Dict m]> h, d)
    /\ append (<[d := Dict m]> h) messages d = Some h'
    /\ h' !! messages = Some (List (items ++ [d]))
    /\ Forall2 (refers h') (items ++ [d]) (history ++ [m]).
Proof.
  intros Hlist Hitems.
  set (d := fresh (dom h)).
  assert (h !! d = None) as Hd by apply not_elem_of_dom, is_fresh.
  assert (d <> messages) as Hne by (intros Heq; by rewrite Heq, Hlist in Hd).
  assert ((<[d := Dict m]> h) !! messages = Some (List items)) as Hlist'
    by by rewrite lookup_insert_ne.
  exists (<[messages := List (items ++ [d])]> (<[d := Dict m]> h)), d.
  split; [done|]. split; [by apply append_lookup|].
  split; [apply lookup_insert_eq|].
  eapply Forall2_refers_insert_list; [done|].
  apply Forall2_app.
  - eapply Forall2_refers_weaken; [|done]. by apply insert_subseteq.
  - constructor; [|constructor]. unfold refers, get_dict. by rewrite lookup_insert_eq.
Qed.

(** C8 (as amended).  One exchange on the history list [messages] of value
    [history]: the list sent to the model is the pruned history with the
    user's entry, preceded by a system entry holding the session's system
    role exactly when the model is gpt-4o-mini or gpt-4o; the history list
    itself ends up holding the old entries, the user's entry and, when the
    model answered, the assistant's entry, and no system entry is added to
    it. *)
Theorem exchange_history (completion : str -> list message -> option str)
    (h : heap) (messages : ref) (history : list message)
    (model system_message user_prompt : str) (max_out : Z) :
  value h messages = Some history ->
  exists (h' : heap) sent,
    Pipeline.exchange completion h messages model system_message user_prompt max_out
      = Some (h', sent, completion model sent)
    /\ sent = (if Handler.takes_system_role model
               then [dict (py "system") system_message] else [])
              ++ Function.prune_messages (history ++ [dict (py "user") user_prompt]) max_out
    /\ value h' messages
       = Some (history ++ [dict (py "user") user_prompt]
               ++ match completion model sent with
                  | Some response_message => [dict (py "assistant") response_message]
                  | None => []
                  end).
Proof.
  intros (items & Hlist%get_list_Some & Hitems)%value_inv.
  unfold Pipeline.exchange.
  destruct (append_new_dict h messages items history (dict (py "user") user_prompt)
              Hlist Hitems) as (h2 & u & -> & -> & Hlist2 & Hitems2).
  simpl.
  destruct (prune_messages_objects h2 messages (items ++ [u])
              (history ++ [dict (py "user") user_prompt]) max_out)
    as (h3 & lp & refs & -> & Hsub3 & Hlp & Hrefs%get_list_Some & Hvals & _);
    [by apply get_list_Some | done |].
  simpl.
  set (sy := fresh (dom h3)).
  set (h4 := <[sy := Dict (dict (py "system") system_message)]> h3).
  assert (h3 !! sy = None) as Hsy by apply not_elem_of_dom, is_fresh.
  assert (h3 ⊆ h4) as Hsub4 by by apply insert_subseteq.
  assert (h3 !! messages = Some (List (items ++ [u]))) as Hlist3
    by by eapply lookup_weaken.
  assert (messages <> lp) as Hne by (intros Heq; by rewrite Heq, Hlp in Hlist2).
  set (sent := (if Handler.takes_system_role model
                then [dict (py "system") system_message] else [])
               ++ Function.prune_messages (history ++ [dict (py "user") user_prompt]) max_out).
  assert (exists h5 : heap,
    (if Handler.takes_system_role model then insert0 h4 lp sy else Some h4) = Some h5
    /\ value h5 lp = Some sent
    /\ h5 !! messages = Some (List (items ++ [u]))
    /\ Forall2 (refers h5) (items ++ [u]) (history ++ [dict (py "user") user_prompt]))
    as (h5 & -> & Hsent & Hlist5 & Hitems5).
  { assert (h4 !! lp = Some (List refs)) as Hrefs4 by by eapply lookup_weaken.
    assert (Forall2 (refers h4) refs
              (Function.prune_messages (history ++ [dict (py "user") user_prompt]) max_out))
      as Hvals4 by by eapply Forall2_refers_weaken.
    assert (Forall2 (refers h4) (items ++ [u])
              (history ++ [dict (py "user") user_prompt])) as Hitems4.
    { eapply Forall2_refers_weaken; [done|]. by eapply Forall2_refers_weaken. }
    subst sent. destruct (Handler.takes_system_role model).
    - exists (<[lp := List (sy :: refs)]> h4).
      split; [unfold insert0; by rewrite (proj2 (get_list_Some h4 lp refs) Hrefs4)|].
      split; [|split].
      + eapply value_refers; [apply get_list_Some, lookup_insert_eq|].
        eapply Forall2_refers_insert_list; [done|].
        constructor; [|done]. unfold refers, get_dict. subst h4.
        by rewrite lookup_insert_eq.
      + rewrite lookup_insert_ne by done. by eapply lookup_weaken.
      + by eapply Forall2_refers_insert_list.
    - exists h4. split; [done|]. split; [|split].
      + eapply value_refers; [by apply get_list_Some|done].
      + by eapply lookup_weaken.
      + done. }
  simpl. rewrite Hsent. simpl.
  exists (match completion model sent with
          | Some response_message =>
              <[messages := List ((items ++ [u]) ++ [fresh (dom h5)])]>
                (<[fresh (dom h5) := Dict (dict (py "assistant") response_message)]> h5)
          | None => h5
          end), sent.
  destruct (completion model sent) as [response_message|].
  - destruct (append_new_dict h5 messages (items ++ [u])
                (history ++ [dict (py "user") user_prompt])
                (dict (py "assistant") response_message) Hlist5 Hitems5)
      as (h7 & a & Hnew & Happ & Hlist7 & Hitems7).
    injection Hnew as Hh6 Ha. subst a. rewrite Happ.
    unfold append in Happ. rewrite (proj2 (get_list_Some _ _ _)) in Happ
      by (rewrite lookup_insert_ne; [done|]; intros Heq;
          pose proof (is_fresh (dom h5)) as Hf; apply not_elem_of_dom in Hf;
          by rewrite Heq, Hlist5 in Hf).
    simpl in Happ. injection Happ as <-.
    split; [done|]. split; [done|].
    rewrite <- (app_assoc history) in Hitems7.
    eapply value_refers; [by apply get_list_Some|done].
  - split; [done|]. split; [done|].
    eapply value_refers; [by apply get_list_Some|done].
Qed.

End objects_claims.

(** ** handler.py *)

(** *** The access gate *)

(** The three ways [checkAccess] ends. *)
Lemma checkAccess_cases E message (s : bot * list call) :
  (admitted E s.1 (from_user_id message)
   /\ checkAccess E message s = (s, inr true))
  \/ (~ admitted E s.1 (from_user_id message)
      /\ raises E s.2 (answer (denial (from_user_id message)) HTML None) = None
      /\ checkAccess E message s
         = ((s.1, s.2 ++ [answer (denial (from_user_id message)) HTML None]), inr false))
  \/ (~ admitted E s.1 (from_user_id message)
      /\ exists e,
           raises E s.2 (answer (denial (from_user_id message)) HTML None) = Some e
           /\ checkAccess E message s = (s, inl e)).
Proof.
  destruct s as [b tr]. unfold checkAccess, admitted. simpl.
  repeat case_bool_decide; simpl; try (left; split; [tauto|done]).
  unfold mbind, M_bind, get_bot. simpl.
  destruct (ALL_USERS_ACCESS b) eqn:Hall; [left; split; [tauto|done]|].
  unfold mbind, M_bind, await. simpl. fold (denial (from_user_id message)).
  destruct (raises E tr _) as [e|] eqn:Hraise.
  - right. right. split; [intros [?|[?|?]]; congruence|]. by exists e.
  - right. left. split; [intros [?|[?|?]]; congruence|]. done.
Qed.

Lemma denial_holds_id user_id :
  denial user_id
  = (py "<i>Sorry, you do not have access to this bot." ++ [nl] ++ py "User ID:</i> <b>")
    ++ str_of_int user_id ++ py "</b>".
Proof. unfold denial. rewrite <- !app_assoc. reflexivity. Qed.

(** C6.  [checkAccess] returns [True] exactly for the owner, the admin, or
    anyone once [ALL_USERS_ACCESS] is set, and then makes no call; the flag
    is off when the module is loaded; otherwise the only call it makes is the
    denial message, whose text holds the decimal user id, and it returns
    [False]; the bot's state is never changed. *)
Theorem checkAccess_admits (E : env) (message : Message) (b : bot) (u : user_data) :
  (result_of (checkAccess E message) b = inr true
   <-> admitted E b (from_user_id message))
  /\ ALL_USERS_ACCESS (startup u) = false
  /\ bot_after (checkAccess E message) b = b
  /\ (admitted E b (from_user_id message) -> calls_of (checkAccess E message) b = [])
  /\ (~ admitted E b (from_user_id message) ->
      (forall c, c ∈ calls_of (checkAccess E message) b ->
                 c = answer (denial (from_user_id message)) HTML None)
      /\ (raises E [] (answer (denial (from_user_id message)) HTML None) = None ->
          run (checkAccess E message) b
          = ((b, [answer (denial (from_user_id message)) HTML None]), inr false)))
  /\ (exists before after,
        denial (from_user_id message)
        = before ++ str_of_int (from_user_id message) ++ after).
Proof.
  unfold result_of, bot_after, calls_of, run.
  split; [|split; [reflexivity|]].
  - destruct (checkAccess_cases E message (b, []))
      as [[Hadm ->] | [(Hden & Hquiet & ->) | (Hden & e & Hraise & ->)]];
      cbn [fst snd] in *; split; intros H; try tauto; try discriminate H.
  - destruct (checkAccess_cases E message (b, []))
      as [[Hadm ->] | [(Hden & Hquiet & ->) | (Hden & e & Hraise & ->)]];
      cbn [fst snd] in *.
    + split; [reflexivity|]. split; [intros _; reflexivity|]. split; [tauto|].
      eexists _, _. apply denial_holds_id.
    + split; [reflexivity|]. split; [tauto|]. split.
      * intros _. split; [|intros _; reflexivity].
        intros c Hc. by apply list_elem_of_singleton in Hc.
      * eexists _, _. apply denial_holds_id.
    + split; [reflexivity|]. split; [tauto|]. split.
      * intros _. split.
        -- intros c Hc. by apply elem_of_nil in Hc.
        -- intros Hq. rewrite Hq in Hraise. discriminate Hraise.
      * eexists _, _. apply denial_holds_id.
Qed.

(** *** Settings callbacks *)

(** Decide the router's comparisons of two literals. *)
Ltac route :=
  repeat match goal with
  | |- context [bool_decide (py ?a = py ?b)] =>
      let v := eval vm_compute in (bool_decide (py a = py b)) in
      change (bool_decide (py a = py b)) with v
  end;
  cbv iota.

(** A callback whose setting is already in place: the session is left as it
    was and the only calls are the acknowledgement of the button press or,
    for a sender without access, the denial. *)
Lemma setting_in_place (E : env) (s : setting) (callback_query : CallbackQuery) (b : bot) :
  data callback_query = setting_data s ->
  already_set s (user b) ->
  user (bot_after (on_callback_query E callback_query) b) = user b
  /\ (forall c, c ∈ calls_of (on_callback_query E callback_query) b ->
        c = callback_answer
        \/ c = answer (denial (from_user_id (cq_message callback_query))) HTML None)
  /\ (admitted E b (from_user_id (cq_message callback_query)) ->
      raises E [] callback_answer = None ->
      calls_of (on_callback_query E callback_query) b = [callback_answer]).
Proof.
  intros Hdata Hset.
  unfold bot_after, calls_of, run, on_callback_query. rewrite Hdata.
  destruct s; unfold setting_data; route;
    match goal with |- context [?handler E callback_query (b, [])] => unfold handler end;
    unfold mbind, M_bind;
    (destruct (checkAccess_cases E (cq_message callback_query) (b, []))
       as [[Hadm ->] | [(Hden & Hquiet & ->) | (Hden & e & Hraise & ->)]];
     cbn [fst snd negb app];
     [ | split; [reflexivity|]; split; [|tauto];
         intros c Hc; apply list_elem_of_singleton in Hc; by right
       | split; [reflexivity|]; split; [|tauto];
         intros c Hc; by apply elem_of_nil in Hc ]).
  all: unfold state_clear, update_bot, get_or_create_user_data, get_bot, mbind, M_bind, mret, M_ret;
    cbn [fst snd user]; simpl in Hset;
    try rewrite (bool_decide_eq_true_2 _ Hset); try rewrite Hset; cbn [negb truthy];
    unfold await; cbn [fst snd];
    destruct (raises E [] callback_answer) as [e|] eqn:Hraise; cbn [fst snd user app];
    (split; [reflexivity|]; split;
     [intros c Hc; first [by apply elem_of_nil in Hc
                         | apply list_elem_of_singleton in Hc; by left]
     | intros _ Hq; first [discriminate Hq | reflexivity]]).
Qed.

(** C7 (as stated) fails: pressing SD when the quality is already
    "standard" edits no message, so no screen is rendered again; the button
    press is acknowledged and nothing else happens. *)
Lemma set_sd_in_place_renders_nothing :
  let b := open_bot (session (py "gpt-4o-mini") (py "4o mini") []) in
  pic_grade (user b) = py "standard"
  /\ calls_of (process_callback_set_sd quiet_env press_sd_again) b = [callback_answer]
  /\ ~ (exists text reply_markup,
          edit_text text reply_markup
          ∈ calls_of (process_callback_set_sd quiet_env press_sd_again) b).
Proof.
  split; [reflexivity|]. split; [reflexivity|].
  intros (text & reply_markup & Hin).
  assert (calls_of (process_callback_set_sd quiet_env press_sd_again)
            (open_bot (session (py "gpt-4o-mini") (py "4o mini") []))
          = [callback_answer]) as Hcalls by reflexivity.
  rewrite Hcalls in Hin. apply list_elem_of_singleton in Hin. discriminate Hin.
Qed.

(** C7 (as amended).  A settings callback whose value is already in place
    leaves the session as it was, saves nothing and edits no message: it only
    acknowledges the button press (or, for a sender without access, sends
    the denial). *)
Theorem settings_in_place_no_write_no_render (E : env) (s : setting)
    (callback_query : CallbackQuery) (b : bot) :
  data callback_query = setting_data s ->
  already_set s (user b) ->
  user (bot_after (on_callback_query E callback_query) b) = user b
  /\ (forall c, c ∈ calls_of (on_callback_query E callback_query) b ->
        (forall user_id, c <> save_user_data user_id)
        /\ (forall text reply_markup, c <> edit_text text reply_markup))
  /\ (admitted E b (from_user_id (cq_message callback_query)) ->
      raises E [] callback_answer = None ->
      calls_of (on_callback_query E callback_query) b = [callback_answer]).
Proof.
  intros Hdata Hset.
  destruct (setting_in_place E s callback_query b Hdata Hset) as (Huser & Hcalls & Hack).
  split; [exact Huser|]. split; [|exact Hack].
  intros c Hc. destruct (Hcalls c Hc) as [-> | ->]; split; intros; discriminate.
Qed.

Lemma settings_in_place_no_write_no_render_witness :
  let b := open_bot (session (py "gpt-4o-mini") (py "4o mini") []) in
  data press_sd_again = setting_data quality_sd
  /\ already_set quality_sd (user b)
  /\ user (bot_after (on_callback_query quiet_env press_sd_again) b) = user b
  /\ calls_of (on_callback_query quiet_env press_sd_again) b = [callback_answer].
Proof.
  split; [reflexivity|]. split; [reflexivity|].
  destruct (settings_in_place_no_write_no_render quiet_env quality_sd press_sd_again
              (open_bot (session (py "gpt-4o-mini") (py "4o mini") [])))
    as (Huser & _ & Hack).
  - reflexivity.
  - reflexivity.
  - split; [exact Huser|]. apply Hack; [|reflexivity].
    right. right. reflexivity.
Defined.

(** *** Relations every step of a handler keeps *)

Section preserves.

Context (R : relation (bot * list call)) `{!PreOrder R}.

(** A recorded call is a step of [R]. *)
Hypothesis R_call : forall b tr c, R (b, tr) (b, tr ++ [c]).

Lemma preserves_ret {A} (a : A) : preserves R (mret a).
Proof. intros s. reflexivity. Qed.

Lemma preserves_raise {A} e : preserves R (raise (A := A) e).
Proof. intros s. reflexivity. Qed.

Lemma preserves_bind {A B} (m : M A) (f : A -> M B) :
  preserves R m -> (forall a, preserves R (f a)) -> preserves R (m ≫= f).
Proof.
  intros Hm Hf s. unfold mbind, M_bind.
  specialize (Hm s). destruct (m s) as [s' [e|a]]; [done|].
  etrans; [exact Hm|]. apply Hf.
Qed.

Lemma preserves_try_except {A} (body : M A) (handler : exn -> M A) :
  preserves R body -> (forall e, preserves R (handler e)) ->
  preserves R (try_except body handler).
Proof.
  intros Hm Hf s. unfold try_except.
  specialize (Hm s). destruct (body s) as [s' [e|a]]; [|done].
  etrans; [exact Hm|]. apply Hf.
Qed.

Lemma preserves_get_bot : preserves R get_bot.
Proof. intros s. reflexivity. Qed.

Lemma preserves_calls_so_far : preserves R calls_so_far.
Proof. intros s. reflexivity. Qed.

Lemma preserves_await E c : preserves R (await E c).
Proof.
  intros [b tr]. unfold await. simpl.
  destruct (raises E tr c); simpl; [reflexivity|apply R_call].
Qed.

Lemma preserves_log_exception e : preserves R (log_exception e).
Proof. intros [b tr]. apply R_call. Qed.

Lemma preserves_update_bot f :
  (forall b tr, R (b, tr) (f b, tr)) -> preserves R (update_bot f).
Proof. intros Hf [b tr]. apply Hf. Qed.

Lemma preserves_when c m : preserves R m -> preserves R (when c m).
Proof. intros Hm. destruct c; [done|]. apply preserves_ret. Qed.

Lemma preserves_for_each {A} (xs : list A) body :
  (forall x, preserves R (body x)) -> preserves R (for_each xs body).
Proof.
  intros Hbody. induction xs as [|x xs IH]; simpl.
  - apply preserves_ret.
  - apply preserves_bind; [apply Hbody|]. intros _. exact IH.
Qed.

Lemma preserves_get_or_create_user_data : preserves R get_or_create_user_data.
Proof.
  apply preserves_bind; [apply preserves_get_bot|]. intros b. apply preserves_ret.
Qed.

Lemma preserves_checkAccess E message : preserves R (checkAccess E message).
Proof.
  unfold checkAccess.
  destruct (_ || _); [apply preserves_ret|].
  apply preserves_bind; [apply preserves_get_bot|]. intros b.
  destruct (ALL_USERS_ACCESS b); [apply preserves_ret|].
  apply preserves_bind; [apply preserves_await|]. intros _. apply preserves_ret.
Qed.

Lemma preserves_text_to_speech E unic_id text_message :
  preserves R (text_to_speech E unic_id text_message).
Proof.
  unfold text_to_speech.
  repeat (apply preserves_bind; [apply preserves_await|]; intros _).
  apply preserves_await.
Qed.

Lemma preserves_send_variant E v label response_message :
  preserves R (send_variant E v label response_message).
Proof.
  destruct v; simpl.
  - apply preserves_for_each. intros chunk. apply preserves_await.
  - apply preserves_await.
  - apply preserves_for_each. intros chunk. apply preserves_await.
  - apply preserves_await.
Qed.

Lemma preserves_send_and_speak E v message user_data response_message :
  preserves R (send_and_speak E v message user_data response_message).
Proof.
  unfold send_and_speak.
  apply preserves_bind; [apply preserves_send_variant|]. intros _.
  apply preserves_when, preserves_text_to_speech.
Qed.

Lemma preserves_dispatch E message response_message :
  preserves R (dispatch E message response_message).
Proof.
  unfold dispatch.
  apply preserves_bind; [apply preserves_get_or_create_user_data|]. intros user_data.
  apply preserves_try_except; [apply preserves_send_and_speak|]. intros e.
  apply preserves_bind; [apply preserves_log_exception|]. intros _.
  apply preserves_send_and_speak.
Qed.

End preserves.

(** *** What can empty the stored history *)

Lemma R_history_call b tr c : R_history (b, tr) (b, tr ++ [c]).
Proof. unfold R_history. reflexivity. Qed.

(** A state update that keeps the history or appends to it. *)
Ltac history_update :=
  intros ? ?; unfold R_history; cbn [fst snd user messages set_model set_model_message_info
    set_model_message_chat set_messages set_count_messages set_max_out set_voice_answer
    set_system_message set_pic_grade set_pic_size];
  first [reflexivity | apply prefix_app_r; reflexivity].

(** One step through a handler's code. *)
Ltac keep_history_step :=
  first
    [ apply (preserves_ret R_history)
    | apply (preserves_raise R_history)
    | apply (preserves_get_bot R_history)
    | apply (preserves_calls_so_far R_history)
    | apply (preserves_await R_history R_history_call)
    | apply (preserves_log_exception R_history R_history_call)
    | apply (preserves_checkAccess R_history R_history_call)
    | apply (preserves_get_or_create_user_data R_history)
    | apply (preserves_dispatch R_history R_history_call)
    | apply (preserves_bind R_history); [|intros ?]
    | apply (preserves_try_except R_history); [|intros ?]
    | apply (preserves_when R_history)
    | apply (preserves_for_each R_history); intros ?
    | apply (preserves_update_bot R_history); history_update
    | progress unfold assign, state_clear, state_set_state, set_ALL_USERS_ACCESS,
        set_sys_massage, send_message, send_menu, send_history, update_user_data
    | match goal with
      | |- preserves _ (if ?c then _ else _) => destruct c
      | |- preserves _ (match ?x with _ => _ end) => destruct x
      | |- preserves _ (let _ := _ in _) => cbv zeta
      end ].

Ltac keep_history :=
  match goal with |- preserves _ (?handler _ _) => unfold handler end;
  repeat keep_history_step.

(** Every update but [/start] and the clear button leaves the history it
    found in front of the history it leaves. *)
Lemma handle_keeps_history E u :
  ~ is_start u -> ~ is_clear u -> preserves R_history (handle E u).
Proof.
  intros Hstart Hclear. destruct u as [message|callback_query]; simpl.
  - unfold on_message.
    apply (preserves_bind R_history); [apply (preserves_get_bot R_history)|]. intros b.
    repeat (case_bool_decide; cbv iota);
      try (exfalso; apply Hstart; by eexists).
    all: repeat match goal with |- preserves _ (if ?c then _ else _) => destruct c end.
    all: first [apply (preserves_ret R_history) | keep_history].
  - unfold on_callback_query. cbv zeta.
    repeat (case_bool_decide; cbv iota);
      try (exfalso; apply Hclear; by eexists).
    all: first [apply (preserves_ret R_history) | keep_history].
Qed.

(** C9 (as stated) fails on its last part: [/start] empties a non-empty
    stored history too, and it is not the clear operation. *)
Lemma start_empties_history :
  let b := startup (session (py "gpt-4o") (py "4o") [dict (py "user") (py "hi")]) in
  let u := message_update (text_message 1001 (py "/start")) in
  messages (user b) <> []
  /\ messages (user (bot_after (handle quiet_env u) b)) = []
  /\ ~ is_clear u.
Proof.
  split; [discriminate|]. split; [reflexivity|].
  intros (callback_query & Hu & _). discriminate Hu.
Qed.

Lemma only_start_and_clear_empty E u b :
  messages (user b) <> [] ->
  messages (user (bot_after (handle E u) b)) = [] ->
  is_start u \/ is_clear u.
Proof.
  intros Hfull Hempty.
  assert (is_start u \/ is_clear u \/ (~ is_start u /\ ~ is_clear u)) as [?|[?|[Hs Hc]]];
    [|by left|by right|].
  { destruct u as [message|callback_query].
    - destruct (decide (text message = Some (py "/start"))) as [Heq|Hne].
      + left. by eexists.
      + right. right. split.
        * intros (m & [= <-] & Hm). done.
        * intros (c & [=] & _).
    - destruct (decide (data callback_query = py "clear")) as [Heq|Hne].
      + right. left. by eexists.
      + right. right. split.
        * intros (m & [=] & _).
        * intros (c & [= <-] & Hc). done. }
  exfalso. apply Hfull.
  pose proof (handle_keeps_history E u Hs Hc (b, [])) as Hkeep.
  unfold R_history, bot_after, run in *. simpl in Hkeep.
  rewrite Hempty in Hkeep. by apply prefix_nil_inv in Hkeep.
Qed.

Section history_claim.

Import Objects.

(** C9 (as amended).  [prune_messages] changes no object that existed before
    the call (neither the history list nor any of its dicts: whatever a
    reference held, it still holds), the history still has its value
    afterwards, and a second call with the same arguments returns a list of
    the same value; and an update that turns a non-empty stored history into
    an empty one is the clear button or the [/start] command. *)
Theorem prune_messages_pure_and_history_emptied_by_start_or_clear :
  (forall (h : heap) (messages : ref) (history : list message) (max_chars : Z),
     value h messages = Some history ->
     exists (h1 h2 : heap) l1 l2,
       Objects.prune_messages h messages max_chars = Some (h1, l1)
       /\ (forall r o, h !! r = Some o -> h1 !! r = Some o)
       /\ value h1 messages = Some history
       /\ Objects.prune_messages h1 messages max_chars = Some (h2, l2)
       /\ (forall r o, h1 !! r = Some o -> h2 !! r = Some o)
       /\ value h2 l1 = Some (Function.prune_messages history max_chars)
       /\ value h2 l2 = Some (Function.prune_messages history max_chars))
  /\ (forall (E : env) (u : update) (b : bot),
        Base.messages (user b) <> [] ->
        Base.messages (user (bot_after (handle E u) b)) = [] ->
        is_start u \/ is_clear u).
Proof.
  split.
  - apply prune_messages_pure.
  - apply only_start_and_clear_empty.
Qed.

Lemma prune_messages_pure_and_history_emptied_by_start_or_clear_witness :
  (value small_heap 1%positive = Some small_history
   /\ exists (h1 h2 : heap) l1 l2,
        Objects.prune_messages small_heap 1%positive 7 = Some (h1, l1)
        /\ value h1 1%positive = Some small_history
        /\ Objects.prune_messages h1 1%positive 7 = Some (h2, l2)
        /\ value h2 l1 = value h2 l2)
  /\ (is_start (callback_update press_clear) \/ is_clear (callback_update press_clear)).
Proof.
  destruct prune_messages_pure_and_history_emptied_by_start_or_clear as [Hpure Hempty].
  split.
  - split; [reflexivity|].
    destruct (Hpure small_heap 1%positive small_history 7)
      as (h1 & h2 & l1 & l2 & Hrun1 & _ & Hval1 & Hrun2 & _ & Hl1 & Hl2).
    + reflexivity.
    + exists h1, h2, l1, l2. split; [exact Hrun1|]. split; [exact Hval1|].
      split; [exact Hrun2|]. rewrite Hl1, Hl2. reflexivity.
  - apply (Hempty quiet_env (callback_update press_clear)
             (open_bot (session (py "gpt-4o") (py "4o") [dict (py "user") (py "hi")]))).
    + discriminate.
    + reflexivity.
Defined.

End history_claim.

Section exchange_claim.

Import Objects.

Lemma exchange_history_witness :
  value small_heap 1%positive = Some small_history
  /\ exists (h' : heap),
       Pipeline.exchange (fun _ _ => Some (py "ok")) small_heap 1%positive
         (py "gpt-4o") (py "You always respond as a pirate.") (py "hi") 128000
       = Some (h',
               dict (py "system") (py "You always respond as a pirate.")
                 :: small_history ++ [dict (py "user") (py "hi")],
               Some (py "ok"))
       /\ value h' 1%positive
          = Some (small_history
                  ++ [dict (py "user") (py "hi"); dict (py "assistant") (py "ok")]).
Proof.
  split; [reflexivity|].
  destruct (exchange_history (fun _ _ => Some (py "ok")) small_heap 1%positive
              small_history (py "gpt-4o") (py "You always respond as a pirate.")
              (py "hi") 128000)
    as (h' & sent & Hrun & Hsent & Hval).
  - reflexivity.
  - exists h'. rewrite Hrun, Hsent. split; [reflexivity|]. exact Hval.
Defined.

(** C8 (as stated) fails on its first part: with the model o1-mini and a
    system role set, the list sent to the model holds no system entry. *)
Lemma o1_mini_gets_no_system_entry :
  exists (h' : heap) sent answer,
    Pipeline.exchange (fun _ _ => Some (py "ok")) small_heap 1%positive
      (py "o1-mini") (py "You always respond as a pirate.") (py "hi") 128000
    = Some (h', sent, answer)
    /\ sent = small_history ++ [dict (py "user") (py "hi")]
    /\ Forall (fun m => role m <> py "system") sent.
Proof.
  eexists _, _, _. split; [vm_compute; reflexivity|].
  split; [reflexivity|].
  repeat constructor; discriminate.
Qed.

End exchange_claim.

(** The handler agrees: for o1-mini the call to the model carries the pruned
    history alone, for gpt-4o the system entry comes first. *)
Lemma model_input_spec (u : user_data) :
  model_input u
  = (if takes_system_role (model u) then [dict (py "system") (system_message u)] else [])
    ++ prune_messages (messages u) (max_out u).
Proof. unfold model_input. by destruct (takes_system_role (model u)). Qed.

(** *** Cutting a long response into chunks *)

Lemma len_app (a b : str) : len (a ++ b) = len a + len b.
Proof. unfold len. rewrite length_app. lia. Qed.

Lemma len_nonneg (a : str) : 0 <= len a.
Proof. unfold len. lia. Qed.

(** [send_message_kwargs_long]: a chunk grows only while it stays within
    4096 characters, and a chunk is opened with one line. *)
Lemma kwargs_long_fold_bound lines :
  Forall (fun l => len l <= 4096) lines ->
  forall chunk chunks,
    len chunk <= 4096 ->
    Forall (fun c => len c <= 4096) chunks ->
    len (foldl kwargs_long_step (chunk, chunks) lines).1 <= 4096
    /\ Forall (fun c => len c <= 4096) (foldl kwargs_long_step (chunk, chunks) lines).2.
Proof.
  induction 1 as [|line lines Hline Hlines IH]; intros chunk chunks Hchunk Hchunks.
  - done.
  - simpl. destruct (Z.gtb_spec (len chunk + len line + 1) 4096) as [Hover|Hfits].
    + apply IH; [done|]. apply Forall_app. split; [done|]. by constructor.
    + destruct (truthy chunk).
      * apply IH; [|done]. rewrite !len_app. change (len [nl]) with 1. lia.
      * by apply IH.
Qed.

Lemma kwargs_long_chunks_bound label response :
  Forall (fun l => len l <= 4096) (split_nl (label ++ [nl] ++ response)) ->
  Forall (fun c => len c <= 4096) (kwargs_long_chunks label response).
Proof.
  intros Hlines. unfold kwargs_long_chunks.
  destruct (kwargs_long_fold_bound _ Hlines [] []) as [Hchunk Hchunks]; [done|done|].
  destruct (foldl kwargs_long_step ([], []) _) as [chunk chunks]. simpl in *.
  destruct (truthy chunk); [|done].
  apply Forall_app. split; [done|]. by constructor.
Qed.

(** Joining the joins of non-empty groups of lines joins all the lines. *)
Lemma join_nl_app (a b : list str) :
  a <> [] -> b <> [] -> join [nl] (a ++ b) = join [nl] a ++ nl :: join [nl] b.
Proof.
  intros Ha Hb. induction a as [|l a IH]; [done|].
  destruct a as [|l' a].
  - simpl. by destruct b.
  - change ((l :: l' :: a) ++ b) with (l :: (l' :: a) ++ b).
    rewrite (join_nl_cons l ((l' :: a) ++ b)) by done.
    rewrite IH by done. rewrite (join_nl_cons l (l' :: a)) by done.
    by rewrite <- app_assoc.
Qed.

Lemma join_nl_concat (groups : list (list str)) :
  Forall (fun g => g <> []) groups ->
  join [nl] (map (join [nl]) groups) = join [nl] (concat groups).
Proof.
  induction 1 as [|g groups Hg Hgroups IH]; [done|].
  destruct groups as [|g' groups].
  - simpl. by rewrite app_nil_r.
  - rewrite map_cons, join_nl_cons by done. rewrite IH.
    change (concat (g :: g' :: groups)) with (g ++ concat (g' :: groups)).
    rewrite join_nl_app; [done|done|].
    inversion Hgroups; subst. simpl. destruct g'; [done|]. done.
Qed.

(** [send_message_md_long]: the chunks closed so far are the joins of groups
    of whole lines, and the groups followed by the lines of the open chunk
    are the lines read so far. *)
Lemma md_long_fold_groups lines :
  forall current_chunk groups,
    exists groups',
      foldl md_long_step (current_chunk, map (join [nl]) groups) lines
      = ((foldl md_long_step (current_chunk, map (join [nl]) groups) lines).1,
         map (join [nl]) groups')
      /\ concat groups' ++ (foldl md_long_step (current_chunk, map (join [nl]) groups) lines).1
         = concat groups ++ current_chunk ++ lines
      /\ (current_chunk <> [] ->
          Forall (fun g => g <> []) groups ->
          (foldl md_long_step (current_chunk, map (join [nl]) groups) lines).1 <> []
          /\ Forall (fun g => g <> []) groups').
Proof.
  induction lines as [|line lines IH]; intros current_chunk groups.
  - exists groups. simpl. by rewrite app_nil_r.
  - simpl. destruct (_ >? 4096).
    + replace (map (join [nl]) groups ++ [join [nl] current_chunk])
        with (map (join [nl]) (groups ++ [current_chunk])) by by rewrite map_app.
      destruct (IH [line] (groups ++ [current_chunk])) as (groups' & Heq & Hcat & Hne).
      exists groups'. split; [done|]. split.
      * rewrite Hcat, concat_app. simpl. by rewrite app_nil_r, <- app_assoc.
      * intros Hcur Hgroups. apply Hne; [done|].
        apply Forall_app. split; [done|]. by constructor.
    + destruct (IH (current_chunk ++ [line]) groups) as (groups' & Heq & Hcat & Hne).
      exists groups'. split; [done|]. split.
      * rewrite Hcat. by rewrite <- app_assoc.
      * intros Hcur Hgroups. apply Hne; [|done]. by destruct current_chunk.
Qed.

Lemma md_long_chunks_groups label response :
  exists groups,
    md_long_chunks label response = map (join [nl]) groups
    /\ concat groups = split_nl (md_final_message label response).
Proof.
  unfold md_long_chunks.
  destruct (md_long_fold_groups (split_nl (md_final_message label response)) [] [])
    as (groups & Heq & Hcat & _).
  change (map (join [nl]) []) with (@nil str) in *. rewrite Heq.
  destruct (foldl md_long_step ([], []) _).1 as [|l current_chunk]; simpl in *.
  - exists groups. split; [done|]. by rewrite app_nil_r in Hcat.
  - exists (groups ++ [l :: current_chunk]). split; [by rewrite map_app|].
    rewrite concat_app. simpl. by rewrite app_nil_r.
Qed.

Lemma md_long_chunks_join label response :
  len (default [] (head (split_nl (md_final_message label response)))) < 4096 ->
  join [nl] (md_long_chunks label response) = md_final_message label response.
Proof.
  intros Hfirst. unfold md_long_chunks.
  rewrite <- (join_split_nl (md_final_message label response)) at 2.
  destruct (split_nl (md_final_message label response)) as [|l0 lines]; [done|].
  simpl in Hfirst. cbn [foldl]. unfold md_long_step at 2. cbn [length app].
  destruct (Z.gtb_spec (Z.of_nat 0 + len l0 + 1) 4096) as [Hover|_]; [lia|].
  destruct (md_long_fold_groups lines [l0] []) as (groups & Heq & Hcat & Hne).
  change (map (join [nl]) []) with (@nil str) in *. rewrite Heq.
  destruct Hne as [Hcur Hgroups]; [done|done|].
  destruct (foldl md_long_step ([l0], []) lines).1 as [|l current_chunk]; [done|].
  cbn [truthy]. simpl in Hcat. rewrite <- Hcat.
  replace (map (join [nl]) groups ++ [join [nl] (l :: current_chunk)])
    with (map (join [nl]) (groups ++ [l :: current_chunk])) by by rewrite map_app.
  rewrite join_nl_concat.
  - rewrite concat_app. simpl. by rewrite app_nil_r.
  - apply Forall_app. split; [done|]. by constructor.
Qed.

(** C1 (as stated) fails: a response that is one line of 5000 characters is
    sent by [send_message_kwargs_long] in a chunk of 5000 characters. *)
Lemma kwargs_long_chunk_over_limit :
  ~ Forall (fun c => len c <= 4096)
      (kwargs_long_chunks label_4o_mini (replicate 5000 "a"%char)).
Proof.
  assert (kwargs_long_chunks label_4o_mini (replicate 5000 "a"%char)
          = [label_4o_mini; replicate 5000 "a"%char]) as -> by (vm_compute; reflexivity).
  intros H. apply Forall_cons in H as [_ H]. apply Forall_cons in H as [H _].
  vm_compute in H. by apply H.
Qed.

(** C1 (as amended).  The chunks of [send_message_kwargs_long] are at most
    4096 characters long when every line of the labelled text is (a longer
    line is sent whole, as a chunk of its own); the chunks of
    [send_message_md_long], joined with newlines, are the labelled text,
    when its first line is shorter than 4096 characters. *)
Theorem long_variants_chunks (label response : str) :
  (Forall (fun l => len l <= 4096) (split_nl (label ++ [nl] ++ response)) ->
   Forall (fun c => len c <= 4096) (kwargs_long_chunks label response))
  /\ (len (default [] (head (split_nl (md_final_message label response)))) < 4096 ->
      join [nl] (md_long_chunks label response) = md_final_message label response).
Proof.
  split.
  - apply kwargs_long_chunks_bound.
  - apply md_long_chunks_join.
Qed.

Lemma long_variants_chunks_witness :
  Forall (fun c => len c <= 4096) (kwargs_long_chunks label_4o_mini ninety_lines)
  /\ join [nl] (md_long_chunks label_4o_mini ninety_lines)
     = md_final_message label_4o_mini ninety_lines.
Proof.
  destruct (long_variants_chunks label_4o_mini ninety_lines) as [Hbound Hjoin].
  split.
  - apply Hbound. apply (bool_decide_unpack _). vm_compute. exact I.
  - apply Hjoin. vm_compute. reflexivity.
Defined.

(** Two things the amended C1 leaves out.  [send_message_md_long] compares
    the number of lines of the open chunk, not its length, with 4096: one
    hundred lines of one hundred characters go out as one chunk of 10112
    characters, where [send_history] cuts the same text in three. *)
Example md_long_counts_lines :
  let response := join [nl] (replicate 100 (replicate 100 "a"%char)) in
  map len (md_long_chunks label_4o_mini response) = [10112]
  /\ map len (send_history_chunks (md_final_message label_4o_mini response))
     = [4052; 4039; 2019].
Proof. vm_compute. split; reflexivity. Qed.

(** [send_message_kwargs_long] puts the newline after the line it appends
    and none after the line that opens a chunk. *)
Example kwargs_long_moves_newline :
  kwargs_long_chunks label_4o_mini (py "a" ++ [nl] ++ py "b")
  = [py "4o mini:" ++ [nl; nl] ++ py "a" ++ [nl] ++ py "b" ++ [nl]]
  /\ label_4o_mini ++ [nl] ++ py "a" ++ [nl] ++ py "b"
     = py "4o mini:" ++ [nl; nl; nl] ++ py "a" ++ [nl] ++ py "b".
Proof. vm_compute. split; reflexivity. Qed.

(** C2 (as stated) fails: the response is one fenced block, it goes through
    [send_message_md_long], and the opening delimiter is sent in the first
    chunk, the closing one in the second. *)
Lemma md_long_splits_fenced_block :
  choose_variant fenced_response = md_long
  /\ count_fences fenced_response = 2%nat
  /\ md_long_chunks label_4o_mini fenced_response
     = [py "*4o mini:" ++ [nl; nl] ++ py "*" ++ [nl] ++ py "```";
        replicate 5000 "a"%char ++ [nl] ++ py "```"]
  /\ count_fences (py "*4o mini:" ++ [nl; nl] ++ py "*" ++ [nl] ++ py "```") = 1%nat
  /\ count_fences (replicate 5000 "a"%char ++ [nl] ++ py "```") = 1%nat
  /\ ~ fences_together (md_long_chunks label_4o_mini fenced_response).
Proof.
  assert (md_long_chunks label_4o_mini fenced_response
          = [py "*4o mini:" ++ [nl; nl] ++ py "*" ++ [nl] ++ py "```";
             replicate 5000 "a"%char ++ [nl] ++ py "```"]) as Hchunks
    by (vm_compute; reflexivity).
  split; [vm_compute; reflexivity|]. split; [vm_compute; reflexivity|].
  split; [exact Hchunks|]. split; [vm_compute; reflexivity|].
  split; [vm_compute; reflexivity|].
  rewrite Hchunks. intros H. apply Forall_cons in H as [H _].
  vm_compute in H. discriminate H.
Qed.

(** C2 (as amended).  [send_message_md_long] cuts the labelled text at
    newlines only: its chunks are the joins of groups of whole lines, and
    the groups, one after the other, are the lines of the text.  It does not
    look at the delimiters. *)
Theorem md_long_cuts_at_lines_only (label response : str) :
  exists groups : list (list str),
    md_long_chunks label response = map (join [nl]) groups
    /\ concat groups = split_nl (md_final_message label response).
Proof. apply md_long_chunks_groups. Qed.

(** *** Sending the response *)

Lemma never_raise_app E cs1 cs2 :
  never_raise E (cs1 ++ cs2) <-> never_raise E cs1 /\ never_raise E cs2.
Proof.
  unfold never_raise. split.
  - intros H. split; intros tr c Hc; apply H; apply elem_of_app; auto.
  - intros [H1 H2] tr c [Hc|Hc]%elem_of_app; auto.
Qed.

Lemma await_ok E c (s : bot * list call) :
  raises E s.2 c = None -> await E c s = ((s.1, s.2 ++ [c]), inr tt).
Proof. intros H. unfold await. by rewrite H. Qed.

Lemma for_each_await_ok E {A} (f : A -> call) (xs : list A) (s : bot * list call) :
  never_raise E (map f xs) ->
  for_each xs (fun x => await E (f x)) s = ((s.1, s.2 ++ map f xs), inr tt).
Proof.
  revert s. induction xs as [|x xs IH]; intros [b tr] Hquiet; simpl.
  - by rewrite app_nil_r.
  - unfold mbind, M_bind. rewrite await_ok by (apply Hquiet; simpl; left).
    rewrite IH.
    + simpl. by rewrite <- app_assoc.
    + intros tr' c Hc. apply Hquiet. simpl. by right.
Qed.

Lemma send_variant_ok E v label response (s : bot * list call) :
  never_raise E (sends_of v label response) ->
  send_variant E v label response s = ((s.1, s.2 ++ sends_of v label response), inr tt).
Proof.
  intros Hquiet. destruct v; simpl in *.
  - unfold send_message_md_long.
    by apply (for_each_await_ok E (fun chunk => answer chunk MARKDOWN None)).
  - unfold send_message_md. apply await_ok, Hquiet. by left.
  - unfold send_message_kwargs_long.
    by apply (for_each_await_ok E (fun chunk => answer chunk (as_kwargs 0) None)).
  - unfold send_message_kwargs. apply await_ok, Hquiet. by left.
Qed.

Lemma send_and_speak_ok E v message u response (s : bot * list call) :
  never_raise E (sends_of v (model_message_chat u) response) ->
  never_raise E (speech_calls u message response) ->
  send_and_speak E v message u response s
  = ((s.1, s.2 ++ sends_of v (model_message_chat u) response
             ++ speech_calls u message response), inr tt).
Proof.
  intros Hsends Hspeech. unfold send_and_speak, mbind, M_bind.
  rewrite send_variant_ok by done.
  unfold speech_calls in *. destruct (voice_answer u); simpl.
  - unfold text_to_speech, mbind, M_bind.
    rewrite await_ok by (apply Hspeech; set_solver). simpl.
    rewrite await_ok by (apply Hspeech; set_solver). simpl.
    rewrite await_ok by (apply Hspeech; set_solver). simpl.
    by rewrite <- !app_assoc.
  - by rewrite app_nil_r.
Qed.

(** The characters the formatted long variant sends. *)

Lemma letters_app a b : letters (a ++ b) = letters a ++ letters b.
Proof. apply filter_app. Qed.

Lemma letters_nl : letters [nl] = [].
Proof. reflexivity. Qed.

Lemma letters_concat_split s : letters (concat (split_nl s)) = letters s.
Proof.
  induction s as [|c s IH]; [done|]. cbn [split_nl].
  destruct (decide (c = nl)) as [->|Hc].
  - cbn [concat app]. rewrite IH.
    change (nl :: s) with ([nl] ++ s). by rewrite letters_app, letters_nl.
  - pose proof (split_nl_nonempty s) as Hne.
    destruct (split_nl s) as [|l ls]; [done|].
    cbn [concat] in *. change ((c :: l) ++ concat ls) with (c :: (l ++ concat ls)).
    unfold letters in *. rewrite !filter_cons_True by done. by rewrite IH.
Qed.

Lemma kwargs_long_fold_letters lines :
  forall chunk chunks,
    letters (concat (foldl kwargs_long_step (chunk, chunks) lines).2
             ++ (foldl kwargs_long_step (chunk, chunks) lines).1)
    = letters (concat chunks ++ chunk ++ concat lines).
Proof.
  induction lines as [|line lines IH]; intros chunk chunks.
  - simpl. by rewrite app_nil_r.
  - cbn [foldl]. unfold kwargs_long_step at 2 4.
    destruct (_ >? 4096).
    + rewrite IH, concat_app. simpl. by rewrite app_nil_r, <- !app_assoc.
    + destruct (truthy chunk) eqn:Hchunk; rewrite IH; cbn [concat].
      * rewrite !letters_app, letters_nl, app_nil_r. by rewrite <- !app_assoc.
      * by destruct chunk.
Qed.

Lemma kwargs_long_chunks_letters (label response : str) :
  letters (concat (kwargs_long_chunks label response))
  = letters (label ++ [nl] ++ response).
Proof.
  unfold kwargs_long_chunks.
  pose proof (kwargs_long_fold_letters (split_nl (label ++ [nl] ++ response)) [] []) as H.
  destruct (foldl kwargs_long_step ([], []) _) as [chunk chunks].
  cbn [fst snd concat app] in H. rewrite letters_concat_split in H.
  destruct chunk as [|x chunk]; cbn [truthy].
  - by rewrite app_nil_r in H.
  - rewrite concat_app. simpl. by rewrite app_nil_r.
Qed.






(** *** The dispatch table *)






Lemma dispatch_ok E message response (b : bot) (tr : list call) :
  (forall tr c, raises E tr c = None) ->
  dispatch E message response (b, tr)
  = ((b, tr ++ sends_of (choose_variant response) (model_message_chat (user b)) response
             ++ speech_calls (user b) message response), inr tt).
Proof.
  intros Hquiet.
  unfold dispatch, mbind, M_bind, get_or_create_user_data, get_bot, mbind, M_bind, mret, M_ret.
  cbn [fst snd]. unfold try_except.
  rewrite send_and_speak_ok; [done| |]; intros tr' c _; apply Hquiet.
Qed.




(** * Further properties *)

(** ** function.py: [prune_messages] *)

Lemma prune_loop_chars rev_messages max_chars total_chars :
  0 <= max_chars - total_chars ->
  content_chars (prune_loop rev_messages max_chars total_chars [])
  = Z.min (content_chars rev_messages) (max_chars - total_chars).
Proof.
  revert total_chars.
  induction rev_messages as [|m rest IH]; intros total Hleft; simpl.
  - lia.
  - pose proof (content_chars_nonneg rest) as Hrest.
    pose proof (len_nonneg (content m)) as Hm.
    destruct (Z.leb_spec (max_chars - total) 0) as [Hle|Hgt]; [simpl; lia|].
    destruct (Z.gtb_spec (len (content m)) (max_chars - total)) as [Hcut|Hfit].
    + simpl. unfold len in *. rewrite length_take. lia.
    + rewrite prune_loop_acc, content_chars_app, IH by lia. simpl. lia.
Qed.

(** X1.  For a budget [0 <= max_chars], the pruned history holds exactly
    as many characters as the smaller of the history's total and the budget:
    a history within the budget loses no character, a longer one fills the
    budget to the last character. *)
Theorem prune_messages_fills_budget (history : list message) (max_chars : Z) :
  0 <= max_chars ->
  content_chars (prune_messages history max_chars)
  = Z.min (content_chars history) max_chars.
Proof.
  intros Hmax. unfold prune_messages.
  rewrite content_chars_reverse, prune_loop_chars by lia.
  rewrite content_chars_reverse. f_equal. lia.
Qed.

Lemma prune_messages_fills_budget_witness :
  0 <= 250
  /\ content_chars (prune_messages scenario_history 250) = 250.
Proof.
  split; [lia|].
  rewrite (prune_messages_fills_budget scenario_history 250) by lia.
  reflexivity.
Defined.

Lemma prune_loop_all rev_messages max_chars total_chars :
  total_chars + content_chars rev_messages < max_chars ->
  prune_loop rev_messages max_chars total_chars [] = rev_messages.
Proof.
  revert total_chars.
  induction rev_messages as [|m rest IH]; intros total Hfits; simpl in *; [done|].
  pose proof (content_chars_nonneg rest) as Hrest.
  pose proof (len_nonneg (content m)) as Hm.
  destruct (Z.leb_spec (max_chars - total) 0) as [Hle|Hgt]; [lia|].
  destruct (Z.gtb_spec (len (content m)) (max_chars - total)) as [Hcut|Hfit]; [lia|].
  rewrite prune_loop_acc, IH by lia. done.
Qed.

(** X2.  A history whose total content is shorter than the budget is
    returned as it is.  (At a total equal to the budget the loop stops as
    soon as nothing is left, and older entries with empty content are
    dropped, as [prune_messages_drops_empty_at_exact_budget] shows.) *)
Theorem prune_messages_within_budget_is_identity (history : list message) (max_chars : Z) :
  content_chars history < max_chars ->
  prune_messages history max_chars = history.
Proof.
  intros Hfits. unfold prune_messages.
  rewrite prune_loop_all by (rewrite content_chars_reverse; lia).
  apply reverse_involutive.
Qed.

Lemma prune_messages_within_budget_is_identity_witness :
  content_chars scenario_history < 128000
  /\ prune_messages scenario_history 128000 = scenario_history.
Proof.
  assert (content_chars scenario_history < 128000) as H by (vm_compute; reflexivity).
  split; [exact H|].
  exact (prune_messages_within_budget_is_identity scenario_history 128000 H).
Defined.

Example prune_messages_drops_empty_at_exact_budget :
  prune_messages [dict (py "user") []; dict (py "assistant") (py "hello")] 5
  = [dict (py "assistant") (py "hello")].
Proof. reflexivity. Qed.

Lemma prune_loop_idempotent rev_messages max_chars total_chars :
  prune_loop (prune_loop rev_messages max_chars total_chars []) max_chars total_chars []
  = prune_loop rev_messages max_chars total_chars [].
Proof.
  revert total_chars.
  induction rev_messages as [|m rest IH]; intros total; [done|].
  cbn [prune_loop].
  destruct (Z.leb_spec (max_chars - total) 0) as [Hle|Hgt]; [done|].
  destruct (Z.gtb_spec (len (content m)) (max_chars - total)) as [Hcut|Hfit].
  - cbn [app prune_loop content].
    destruct (Z.leb_spec (max_chars - total) 0) as [?|_]; [lia|].
    destruct (Z.gtb_spec (len (take (Z.to_nat (max_chars - total)) (content m)))
                (max_chars - total)) as [Hagain|_]; [|done].
    unfold len in *. rewrite length_take in Hagain. lia.
  - rewrite (prune_loop_acc rest). cbn [app prune_loop].
    destruct (Z.leb_spec (max_chars - total) 0) as [?|_]; [lia|].
    destruct (Z.gtb_spec (len (content m)) (max_chars - total)) as [?|_]; [lia|].
    rewrite prune_loop_acc, IH. done.
Qed.

(** X3.  Pruning what was pruned, with the same budget, changes nothing. *)
Theorem prune_messages_idempotent (history : list message) (max_chars : Z) :
  prune_messages (prune_messages history max_chars) max_chars
  = prune_messages history max_chars.
Proof.
  unfold prune_messages. by rewrite reverse_involutive, prune_loop_idempotent.
Qed.

Lemma prune_loop_newest newest rest max_chars :
  0 < max_chars ->
  exists kept older,
    prune_loop (newest :: rest) max_chars 0 [] = kept :: older
    /\ kept = dict (role newest) (take (Z.to_nat max_chars) (content newest)).
Proof.
  intros Hmax. cbn [prune_loop].
  destruct (Z.leb_spec (max_chars - 0) 0) as [?|_]; [lia|].
  destruct (Z.gtb_spec (len (content newest)) (max_chars - 0)) as [Hcut|Hfit].
  - eexists _, _. split; [reflexivity|]. by rewrite Z.sub_0_r.
  - rewrite prune_loop_acc. eexists _, _. split; [reflexivity|].
    rewrite take_ge by (unfold len in Hfit; lia). by destruct newest.
Qed.

(** X4.  With a budget of at least one character the newest entry of the
    history is always part of the result, as its last entry, with its role
    and the first [max_chars] characters of its content (all of it, when it
    is no longer than that); with a budget of zero or less the result is
    empty. *)
Theorem prune_messages_keeps_newest (history : list message) (newest : message)
    (max_chars : Z) :
  (0 < max_chars ->
   last (prune_messages (history ++ [newest]) max_chars)
   = Some (dict (role newest) (take (Z.to_nat max_chars) (content newest))))
  /\ (max_chars <= 0 -> prune_messages (history ++ [newest]) max_chars = []).
Proof.
  unfold prune_messages. rewrite reverse_snoc. split.
  - intros Hmax.
    destruct (prune_loop_newest newest (reverse history) max_chars Hmax)
      as (kept & older & -> & ->).
    rewrite reverse_cons. apply last_snoc.
  - intros Hmax. cbn [prune_loop].
    by destruct (Z.leb_spec (max_chars - 0) 0) as [_|?]; [|lia].
Qed.

Lemma prune_messages_keeps_newest_witness :
  last (prune_messages (scenario_history ++ [dict (py "user") (py "newest")]) 3)
  = Some (dict (py "user") (py "new")).
Proof.
  destruct (prune_messages_keeps_newest scenario_history (dict (py "user") (py "newest")) 3)
    as [Hkept _].
  rewrite Hkept by lia. reflexivity.
Defined.

(** ** handler.py: showing the context *)

Lemma join_nonempty sep (ls : list str) l :
  l ∈ ls -> l <> [] -> join sep ls <> [].
Proof.
  induction ls as [|l0 ls IH]; intros Hin Hl; [by apply elem_of_nil in Hin|].
  destruct ls as [|l1 ls].
  - apply list_elem_of_singleton in Hin. by subst.
  - change (join sep (l0 :: l1 :: ls)) with (l0 ++ sep ++ join sep (l1 :: ls)).
    apply elem_of_cons in Hin as [->|Hin].
    + by destruct l0.
    + specialize (IH Hin Hl). intros Heq.
      apply app_eq_nil in Heq as [_ Heq]. apply app_eq_nil in Heq as [_ Heq]. done.
Qed.

Lemma generate_history_truthy (history : list message) :
  history <> [] -> truthy (generate_history history) = true.
Proof.
  intros Hfull. destruct history as [|m history]; [done|].
  assert (generate_history (m :: history) <> []) as Hne.
  { unfold generate_history.
    apply (join_nonempty _ _ (role m ++ py ":" ++ [nl] ++ content m)).
    - rewrite map_cons. apply elem_of_cons. by left.
    - by destruct (role m). }
  by destruct (generate_history (m :: history)).
Qed.

(** X5.  The text [generate_history] makes of the history is empty exactly
    when the history has no entry: every entry gives at least its role's
    colon.  So "Context is empty" is shown for an empty history and for no
    other. *)
Theorem generate_history_empty_iff (history : list message) :
  truthy (generate_history history) = false <-> history = [].
Proof.
  split.
  - intros Hempty. destruct (decide (history = [])) as [?|Hfull]; [done|].
    rewrite generate_history_truthy in Hempty by done. discriminate Hempty.
  - by intros ->.
Qed.

Lemma weight_app a b : weight (a ++ b) = weight a + weight b.
Proof. induction a as [|l a IH]; simpl; [lia|]. rewrite IH. lia. Qed.

Lemma len_join_nl (g : list str) : len (join [nl] g) = Z.max 0 (weight g - 1).
Proof.
  induction g as [|l g IH]; [done|].
  destruct g as [|l' g].
  - simpl. pose proof (len_nonneg l). lia.
  - rewrite join_nl_cons by done.
    change (l ++ nl :: join [nl] (l' :: g)) with (l ++ [nl] ++ join [nl] (l' :: g)).
    rewrite !len_app, IH. change (len [nl]) with 1.
    change (weight (l :: l' :: g)) with (len l + 1 + weight (l' :: g)).
    assert (0 < weight (l' :: g)).
    { simpl. pose proof (len_nonneg l').
      assert (0 <= weight g) by (clear; induction g as [|x g IH]; simpl;
                                  [lia|pose proof (len_nonneg x); lia]).
      lia. }
    pose proof (len_nonneg l). lia.
Qed.

(** The loop of [send_history]: the closed chunks are the joins of groups of
    whole lines, the counted length is the weight of the open chunk, the
    groups and the open chunk are the lines read, groups are not empty once
    the open chunk is not, and no weight passes 4096 when no line has 4096
    characters or more. *)
Lemma send_history_fold lines :
  forall current_chunk groups,
    exists groups' current_chunk',
      foldl send_history_step (current_chunk, weight current_chunk, map (join [nl]) groups) lines
      = (current_chunk', weight current_chunk', map (join [nl]) groups')
      /\ concat groups' ++ current_chunk' = concat groups ++ current_chunk ++ lines
      /\ (current_chunk <> [] ->
          Forall (fun g => g <> []) groups ->
          current_chunk' <> [] /\ Forall (fun g => g <> []) groups')
      /\ (Forall (fun l => len l < 4096) lines ->
          weight current_chunk <= 4096 ->
          Forall (fun g => weight g <= 4096) groups ->
          weight current_chunk' <= 4096 /\ Forall (fun g => weight g <= 4096) groups').
Proof.
  induction lines as [|line lines IH]; intros current_chunk groups.
  - exists groups, current_chunk. rewrite app_nil_r. done.
  - cbn [foldl]. unfold send_history_step at 2. cbv zeta.
    destruct (Z.gtb_spec (weight current_chunk + (len line + 1)) 4096) as [Hover|Hfits].
    + replace (map (join [nl]) groups ++ [join [nl] current_chunk])
        with (map (join [nl]) (groups ++ [current_chunk])) by by rewrite map_app.
      replace (len line + 1) with (weight [line]) by (simpl; lia).
      destruct (IH [line] (groups ++ [current_chunk]))
        as (groups' & cur' & Heq & Hcat & Hne & Hbound).
      exists groups', cur'. split; [done|]. split; [|split].
      * rewrite Hcat, concat_app. simpl. by rewrite app_nil_r, <- app_assoc.
      * intros Hcur Hgroups. apply Hne; [done|].
        apply Forall_app. split; [done|]. by constructor.
      * intros Hlines Hw Hgroups. apply Forall_cons in Hlines as [Hline Hlines].
        apply Hbound; [done|simpl; lia|].
        apply Forall_app. split; [done|]. by constructor.
    + replace (weight current_chunk + (len line + 1))
        with (weight (current_chunk ++ [line])) by (rewrite weight_app; simpl; lia).
      destruct (IH (current_chunk ++ [line]) groups)
        as (groups' & cur' & Heq & Hcat & Hne & Hbound).
      exists groups', cur'. split; [done|]. split; [|split].
      * rewrite Hcat. by rewrite <- app_assoc.
      * intros Hcur Hgroups. apply Hne; [|done]. by destruct current_chunk.
      * intros Hlines Hw Hgroups. apply Forall_cons in Hlines as [Hline Hlines].
        apply Hbound; [done| |done]. rewrite weight_app. simpl. lia.
Qed.

Lemma send_history_chunks_ok (history : str) :
  Forall (fun l => len l < 4096) (split_nl history) ->
  Forall (fun c => len c < 4096) (send_history_chunks history)
  /\ join [nl] (send_history_chunks history) = history.
Proof.
  intros Hlines. unfold send_history_chunks.
  rewrite <- (join_split_nl history) at 3.
  destruct (split_nl history) as [|l0 lines]; [done|].
  apply Forall_cons in Hlines as [Hl0 Hlines].
  cbn [foldl].
  assert (send_history_step ([], 0, []) l0 = ([l0], weight [l0], [])) as ->.
  { unfold send_history_step. cbv zeta. cbn [app].
    destruct (Z.gtb_spec (0 + (len l0 + 1)) 4096) as [?|_]; [lia|].
    f_equal. f_equal. simpl. lia. }
  destruct (send_history_fold lines [l0] [])
    as (groups & cur & Heq & Hcat & Hne & Hbound).
  change (map (join [nl]) []) with (@nil str) in Heq. rewrite Heq.
  destruct Hne as [Hcur Hgroups]; [done|done|].
  destruct Hbound as [Hwcur Hwgroups]; [done|simpl; lia|done|].
  destruct cur as [|l cur]; [done|]. cbn [truthy].
  replace (map (join [nl]) groups ++ [join [nl] (l :: cur)])
    with (map (join [nl]) (groups ++ [l :: cur])) by by rewrite map_app.
  split.
  - apply Forall_fmap. apply Forall_app. split.
    + eapply Forall_impl; [exact Hwgroups|]. intros g Hg. simpl in *.
      rewrite len_join_nl. lia.
    + constructor; [|done]. unfold compose. rewrite len_join_nl. lia.
  - rewrite join_nl_concat.
    + rewrite concat_app. simpl. rewrite app_nil_r. simpl in Hcat. by rewrite Hcat.
    + apply Forall_app. split; [done|]. by constructor.
Qed.

(** X6.  [send_history] cuts a history text whose lines are all shorter
    than 4096 characters into chunks that are all shorter than 4096
    characters, and the chunks joined with newlines, in order, are the text:
    nothing is lost and no line is cut. *)
Theorem send_history_chunks_bounded_and_lossless (history : str) :
  Forall (fun l => len l < 4096) (split_nl history) ->
  Forall (fun c => len c < 4096) (send_history_chunks history)
  /\ join [nl] (send_history_chunks history) = history.
Proof. apply send_history_chunks_ok. Qed.

Lemma send_history_chunks_bounded_and_lossless_witness :
  let history := generate_history scenario_history in
  Forall (fun c => len c < 4096) (send_history_chunks history)
  /\ join [nl] (send_history_chunks history) = history.
Proof.
  apply (send_history_chunks_bounded_and_lossless (generate_history scenario_history)).
  apply (bool_decide_unpack _). vm_compute. exact I.
Defined.

(** ** handler.py: the formatted long variant *)

(** X7.  The chunks of [send_message_kwargs_long], one after the other,
    hold the characters of the labelled text other than newlines, all of
    them and in their order: what the variant changes is only where
    newlines stand. *)
Theorem kwargs_long_keeps_letters (label response : str) :
  letters (concat (kwargs_long_chunks label response))
  = letters (label ++ [nl] ++ response).
Proof. apply kwargs_long_chunks_letters. Qed.

(** ** handler.py: running a handler step by step *)

Lemma ret_bind {A B} (a : A) (f : A -> M B) s : (mret a ≫= f) s = f a s.
Proof. reflexivity. Qed.

Lemma get_bot_bind {B} (f : bot -> M B) s : (get_bot ≫= f) s = f s.1 s.
Proof. reflexivity. Qed.

Lemma get_user_bind {B} (f : user_data -> M B) s :
  (get_or_create_user_data ≫= f) s = f (user s.1) s.
Proof. reflexivity. Qed.

Lemma calls_so_far_bind {B} (f : list call -> M B) s : (calls_so_far ≫= f) s = f s.2 s.
Proof. reflexivity. Qed.

Lemma update_bot_bind {B} g (f : unit -> M B) s :
  (update_bot g ≫= f) s = f tt (g s.1, s.2).
Proof. reflexivity. Qed.

Lemma await_bind_ok {B} E c (f : unit -> M B) s :
  raises E s.2 c = None -> (await E c ≫= f) s = f tt (s.1, s.2 ++ [c]).
Proof. intros H. unfold mbind, M_bind. by rewrite await_ok. Qed.

Lemma await_bind_raise {B} E c e (f : unit -> M B) s :
  raises E s.2 c = Some e -> (await E c ≫= f) s = (s, inl e).
Proof. intros H. unfold mbind, M_bind, await. by rewrite H. Qed.

Lemma log_exception_bind {B} e (f : unit -> M B) s :
  (log_exception e ≫= f) s = f tt (s.1, s.2 ++ [logging_exception e]).
Proof. reflexivity. Qed.

Lemma bind_bind {A B C} (m : M A) (f : A -> M B) (g : B -> M C) s :
  ((m ≫= f) ≫= g) s = (m ≫= fun a => f a ≫= g) s.
Proof. unfold mbind, M_bind. by destruct (m s) as [s' [e|a]]. Qed.

Lemma checkAccess_admitted E message s :
  admitted E s.1 (from_user_id message) -> checkAccess E message s = (s, inr true).
Proof.
  intros Hadm.
  by destruct (checkAccess_cases E message s) as [[_ ->] | [(Hden & _) | (Hden & _)]].
Qed.

Lemma checkAccess_bind_admitted {B} E message (f : bool -> M B) s :
  admitted E s.1 (from_user_id message) ->
  (checkAccess E message ≫= f) s = f true s.
Proof. intros Hadm. unfold mbind, M_bind. by rewrite checkAccess_admitted. Qed.

(** A handler that starts with the access check, for a sender without
    access. *)
Lemma denied_guard E message (k : M unit) s :
  ~ admitted E s.1 (from_user_id message) ->
  denied_outcome s
    ((checkAccess E message ≫= fun ok => if negb ok then mret tt else k) s).
Proof.
  intros Hden. unfold mbind, M_bind, denied_outcome.
  destruct (checkAccess_cases E message s)
    as [[Hadm _] | [(_ & _ & ->) | (_ & e & _ & ->)]]; [done| |]; simpl.
  - split; [done|]. right. by eexists.
  - split; [done|]. by left.
Qed.

Lemma R_flag_call b tr c : R_flag (b, tr) (b, tr ++ [c]).
Proof. reflexivity. Qed.

Lemma R_conversation_call b tr c : R_conversation (b, tr) (b, tr ++ [c]).
Proof. by split. Qed.

Lemma R_state_call b tr c : R_state (b, tr) (b, tr ++ [c]).
Proof. reflexivity. Qed.

Lemma R_user_call b tr c : R_user (b, tr) (b, tr ++ [c]).
Proof. reflexivity. Qed.

Lemma R_model_call b tr c : R_model (b, tr) (b, tr ++ [c]).
Proof. reflexivity. Qed.

(** One step through a handler's code, for a relation [R] with its step
    for calls [Hcall] and a tactic [upd] for the state updates it allows. *)
Ltac keep_step R Hcall upd :=
  lazymatch goal with
  | |- preserves _ (mret _) => apply (preserves_ret R)
  | |- preserves _ (raise _) => apply (preserves_raise R)
  | |- preserves _ get_bot => apply (preserves_get_bot R)
  | |- preserves _ calls_so_far => apply (preserves_calls_so_far R)
  | |- preserves _ (await _ _) => apply (preserves_await R Hcall)
  | |- preserves _ (log_exception _) => apply (preserves_log_exception R Hcall)
  | |- preserves _ (checkAccess _ _) => apply (preserves_checkAccess R Hcall)
  | |- preserves _ get_or_create_user_data => apply (preserves_get_or_create_user_data R)
  | |- preserves _ (dispatch _ _ _) => apply (preserves_dispatch R Hcall)
  | |- preserves _ (_ ≫= _) => apply (preserves_bind R); [|intros ?]
  | |- preserves _ (try_except _ _) => apply (preserves_try_except R); [|intros ?]
  | |- preserves _ (when _ _) => apply (preserves_when R)
  | |- preserves _ (for_each _ _) => apply (preserves_for_each R); intros ?
  | |- preserves _ (update_bot _) => apply (preserves_update_bot R); upd
  | |- preserves _ (if ?c then _ else _) => destruct c
  | |- preserves _ (match ?x with _ => _ end) => destruct x
  | |- preserves _ (let _ := _ in _) => cbv zeta
  | |- preserves _ _ =>
      progress unfold assign, state_clear, state_set_state, set_ALL_USERS_ACCESS,
        set_sys_massage, send_message, send_menu, send_history, update_user_data
  end.

Ltac keep R Hcall upd :=
  repeat first
    [ keep_step R Hcall upd
    | match goal with |- preserves _ (?handler _ _) => unfold handler end ].

(** State updates that leave the part of the state a relation looks at. *)
Ltac same_field R :=
  intros ? ?; unfold R; cbn [fst snd user state ALL_USERS_ACCESS]; reflexivity.

Ltac same_conversation :=
  intros ? ?; unfold R_conversation;
  cbn [fst snd user messages count_messages set_model set_model_message_info
    set_model_message_chat set_max_out set_voice_answer set_system_message
    set_pic_grade set_pic_size];
  split; reflexivity.

Ltac same_model :=
  intros ? ?; unfold R_model, model_fields;
  cbn [fst snd user model model_message_info model_message_chat set_messages
    set_count_messages set_max_out set_voice_answer set_system_message
    set_pic_grade set_pic_size];
  reflexivity.

(** ** handler.py: who can open and close the bot *)

Lemma callbacks_keep_flag E callback_query :
  preserves R_flag (on_callback_query E callback_query).
Proof.
  unfold on_callback_query. cbv zeta.
  repeat (case_bool_decide; cbv iota).
  all: first [apply (preserves_ret R_flag)
             | keep R_flag R_flag_call ltac:(same_field R_flag)].
Qed.

Lemma messages_keep_flag E message :
  text message <> Some (py "/enable_all") ->
  text message <> Some (py "/disable_all") ->
  preserves R_flag (on_message E message).
Proof.
  intros Hen Hdis. unfold on_message.
  apply (preserves_bind R_flag); [apply (preserves_get_bot R_flag)|]. intros b.
  repeat (case_bool_decide; cbv iota); try contradiction.
  all: repeat match goal with |- preserves _ (if ?c then _ else _) => destruct c end.
  all: first [apply (preserves_ret R_flag)
             | keep R_flag R_flag_call ltac:(same_field R_flag)].
Qed.

Lemma toggle_flag E message v reply_text (b : bot) :
  let r := (if bool_decide (from_user_id message ≠ OWNER_ID E)
               && bool_decide (from_user_id message ≠ ADMIN_ID E)
            then await E (answer (py "You do not have permission to use this command.")
                            HTML None)
            else set_ALL_USERS_ACCESS v;; await E (answer reply_text HTML None)) (b, []) in
  (privileged E (from_user_id message) /\ ALL_USERS_ACCESS r.1.1 = v)
  \/ (~ privileged E (from_user_id message) /\ r.1.1 = b).
Proof.
  unfold privileged. repeat case_bool_decide; simpl.
  - right. split; [tauto|].
    unfold await. simpl. by destruct (raises E [] _).
  - left. split; [tauto|].
    unfold mbind, M_bind, set_ALL_USERS_ACCESS, update_bot, await. simpl.
    by destruct (raises E [] _).
  - left. split; [tauto|].
    unfold mbind, M_bind, set_ALL_USERS_ACCESS, update_bot, await. simpl.
    by destruct (raises E [] _).
  - left. split; [tauto|].
    unfold mbind, M_bind, set_ALL_USERS_ACCESS, update_bot, await. simpl.
    by destruct (raises E [] _).
Qed.

(** X8.  [ALL_USERS_ACCESS] changes only when the owner or the admin sends
    [/enable_all], which sets it, or [/disable_all], which clears it: no
    other update, and no other sender, changes it. *)
Theorem access_flag_changed_by_privileged_toggle_only (E : env) (u : update) (b : bot) :
  ALL_USERS_ACCESS (bot_after (handle E u) b) <> ALL_USERS_ACCESS b ->
  exists message,
    u = message_update message
    /\ privileged E (from_user_id message)
    /\ ((text message = Some (py "/enable_all")
         /\ ALL_USERS_ACCESS (bot_after (handle E u) b) = true)
        \/ (text message = Some (py "/disable_all")
            /\ ALL_USERS_ACCESS (bot_after (handle E u) b) = false)).
Proof.
  intros Hchanged. destruct u as [message|callback_query].
  - exists message. split; [done|].
    destruct (decide (text message = Some (py "/enable_all"))) as [Hen|Hen].
    { revert Hchanged. unfold bot_after, run, handle, on_message.
      rewrite get_bot_bind, bool_decide_eq_true_2 by done. cbv iota.
      unfold enable_all_access. cbv zeta.
      destruct (toggle_flag E message true
                  (py "Bot access has been enabled for all users.") b)
        as [[Hpriv Hflag] | [Hpriv Hsame]]; simpl in *.
      - intros _. split; [done|]. left. done.
      - rewrite Hsame. done. }
    destruct (decide (text message = Some (py "/disable_all"))) as [Hdis|Hdis].
    { revert Hchanged. unfold bot_after, run, handle, on_message.
      rewrite get_bot_bind, bool_decide_eq_false_2, bool_decide_eq_true_2 by done.
      cbv iota. unfold disable_all_access. cbv zeta.
      destruct (toggle_flag E message false
                  (py "Bot access has been disabled for all non-owner users. Owner access remains unaffected.") b)
        as [[Hpriv Hflag] | [Hpriv Hsame]]; simpl in *.
      - intros _. split; [done|]. right. done.
      - rewrite Hsame. done. }
    exfalso. apply Hchanged. exact (messages_keep_flag E message Hen Hdis (b, [])).
  - exfalso. apply Hchanged. exact (callbacks_keep_flag E callback_query (b, [])).
Qed.

Lemma access_flag_changed_by_privileged_toggle_only_witness :
  let u := message_update (text_message 1001 (py "/enable_all")) in
  let b := startup fresh_session in
  ALL_USERS_ACCESS (bot_after (handle quiet_env u) b) <> ALL_USERS_ACCESS b
  /\ privileged quiet_env 1001.
Proof.
  assert (ALL_USERS_ACCESS
            (bot_after (handle quiet_env (message_update (text_message 1001 (py "/enable_all"))))
               (startup fresh_session))
          <> ALL_USERS_ACCESS (startup fresh_session)) as Hchanged by discriminate.
  split; [exact Hchanged|].
  destruct (access_flag_changed_by_privileged_toggle_only quiet_env _ _ Hchanged)
    as (message & Hu & Hpriv & _).
  injection Hu as <-. exact Hpriv.
Defined.

(** X9.  Once the owner or the admin has sent [/enable_all], the access
    check admits every sender and sends nothing; once they have sent
    [/disable_all], it admits no sender but the two of them. *)
Theorem toggle_then_checkAccess (E : env) (message : Message) (b : bot) :
  privileged E (from_user_id message) ->
  (text message = Some (py "/enable_all") ->
   forall other,
     run (checkAccess E other) (bot_after (on_message E message) b)
     = ((bot_after (on_message E message) b, []), inr true))
  /\ (text message = Some (py "/disable_all") ->
      forall other,
        ~ privileged E (from_user_id other) ->
        result_of (checkAccess E other) (bot_after (on_message E message) b) <> inr true).
Proof.
  intros Hpriv. split; intros Htext other.
  - assert (ALL_USERS_ACCESS (bot_after (on_message E message) b) = true) as Hflag.
    { unfold bot_after, run, on_message.
      rewrite get_bot_bind, bool_decide_eq_true_2 by done. cbv iota.
      unfold enable_all_access. cbv zeta.
      destruct (toggle_flag E message true
                  (py "Bot access has been enabled for all users.") b)
        as [[_ Hflag] | [Hno _]]; [exact Hflag|done]. }
    unfold run. apply checkAccess_admitted. right. right. exact Hflag.
  - intros Hother.
    assert (ALL_USERS_ACCESS (bot_after (on_message E message) b) = false) as Hflag.
    { unfold bot_after, run, on_message.
      rewrite get_bot_bind, bool_decide_eq_false_2, bool_decide_eq_true_2
        by (done || (rewrite Htext; discriminate)).
      cbv iota. unfold disable_all_access. cbv zeta.
      destruct (toggle_flag E message false
                  (py "Bot access has been disabled for all non-owner users. Owner access remains unaffected.") b)
        as [[_ Hflag] | [Hno _]]; [exact Hflag|done]. }
    unfold result_of, run.
    destruct (checkAccess_cases E other (bot_after (on_message E message) b, []))
      as [[Hadm _] | [(_ & _ & ->) | (_ & e & _ & ->)]]; simpl; try discriminate.
    exfalso. destruct Hadm as [?|[?|Hall]].
    + apply Hother. by left.
    + apply Hother. by right.
    + simpl in Hall. rewrite Hflag in Hall. discriminate Hall.
Qed.

Lemma toggle_then_checkAccess_witness :
  let b := startup fresh_session in
  let b' := bot_after (on_message quiet_env (text_message 1001 (py "/enable_all"))) b in
  privileged quiet_env 1001
  /\ run (checkAccess quiet_env (text_message 42 (py "hi"))) b' = ((b', []), inr true).
Proof.
  assert (privileged quiet_env 1001) as Hpriv by (left; reflexivity).
  split; [exact Hpriv|].
  destruct (toggle_then_checkAccess quiet_env (text_message 1001 (py "/enable_all"))
              (startup fresh_session) Hpriv) as [Hen _].
  apply Hen. reflexivity.
Defined.

(** ** handler.py: a sender without access *)

Lemma denied_toggle E message v reply_text (b : bot) :
  ~ admitted E b (from_user_id message) ->
  denied_outcome (b, [])
    ((if bool_decide (from_user_id message ≠ OWNER_ID E)
         && bool_decide (from_user_id message ≠ ADMIN_ID E)
      then await E (answer (py "You do not have permission to use this command.")
                      HTML None)
      else set_ALL_USERS_ACCESS v;; await E (answer reply_text HTML None)) (b, [])).
Proof.
  intros Hden. unfold admitted in Hden.
  rewrite !bool_decide_eq_true_2 by tauto. cbn [andb].
  unfold await, denied_outcome. cbn [fst snd].
  destruct (raises E [] _); cbn [fst snd app].
  - split; [done|]. by left.
  - split; [done|]. right. by eexists.
Qed.

(** X10.  An update from a sender who is not the owner or the admin, while
    [ALL_USERS_ACCESS] is off, changes nothing: the session, the waiting
    state and the flag are as before, and the bot does nothing but send at
    most one message in reply (the denial); in particular it saves nothing
    and calls no model. *)
Theorem denied_sender_changes_nothing (E : env) (u : update) (b : bot) :
  ~ admitted E b (sender u) ->
  bot_after (handle E u) b = b
  /\ (calls_of (handle E u) b = []
      \/ exists t, calls_of (handle E u) b = [answer t HTML None]).
Proof.
  intros Hden.
  enough (denied_outcome (b, []) (handle E u (b, []))) as Hout by exact Hout.
  destruct u as [message|callback_query]; simpl in *.
  - unfold on_message. rewrite get_bot_bind. cbn [fst].
    repeat (case_bool_decide; cbv iota).
    all: repeat match goal with
           | |- denied_outcome _ ((if ?c then _ else _) _) => destruct c
           end.
    all: try (match goal with
              | |- denied_outcome _ (?handler _ _ _) => unfold handler
              end;
              first [ by apply denied_guard | by apply denied_toggle ]).
    all: split; [done|by left].
  - unfold on_callback_query. cbv zeta.
    repeat (case_bool_decide; cbv iota).
    all: try (match goal with
              | |- denied_outcome _ (?handler _ _ _) => unfold handler
              end;
              by apply denied_guard).
    all: split; [done|by left].
Qed.

Lemma denied_sender_changes_nothing_witness :
  let b := startup (session (py "gpt-4o") (py "4o") [dict (py "user") (py "hi")]) in
  let u := message_update (text_message 42 (py "/start")) in
  ~ admitted quiet_env b (sender u)
  /\ bot_after (handle quiet_env u) b = b.
Proof.
  assert (~ admitted quiet_env
            (startup (session (py "gpt-4o") (py "4o") [dict (py "user") (py "hi")]))
            (sender (message_update (text_message 42 (py "/start"))))) as Hden.
  { intros [H|[H|H]]; discriminate H. }
  split; [exact Hden|].
  exact (proj1 (denied_sender_changes_nothing quiet_env _ _ Hden)).
Defined.

(** ** handler.py: the waiting state *)

Lemma start_clears_state E message (b : bot) :
  admitted E b (from_user_id message) ->
  state (bot_after (command_start_handler E message) b) = None.
Proof.
  intros Hadm. unfold bot_after, run, command_start_handler.
  rewrite checkAccess_bind_admitted by done. cbn [negb].
  unfold state_clear. rewrite update_bot_bind. cbn [fst snd].
  match goal with
  | |- state (?k ?s).1.1 = None =>
      assert (preserves R_state k) as Hk
        by keep R_state R_state_call ltac:(same_field R_state);
      exact (Hk s)
  end.
Qed.

Lemma menu_clears_state E message (b : bot) :
  admitted E b (from_user_id message) ->
  state (bot_after (process_key_button E message) b) = None.
Proof.
  intros Hadm. unfold bot_after, run, process_key_button.
  rewrite checkAccess_bind_admitted by done. cbn [negb].
  unfold state_clear. rewrite update_bot_bind. cbn [fst snd].
  match goal with
  | |- state (?k ?s).1.1 = None =>
      assert (preserves R_state k) as Hk
        by keep R_state R_state_call ltac:(same_field R_state);
      exact (Hk s)
  end.
Qed.

(** A non-empty text that no command filter and no waiting state takes: it
    reaches the conversation handler. *)
Lemma free_text_reaches_conversation E message t (s : bot * list call) :
  state s.1 = None ->
  text message = Some t ->
  truthy t = true ->
  ~ early_command t ->
  t <> py "/help" ->
  on_message E message s = chatgpt_text_handler E message s.
Proof.
  intros Hstate Htext Ht Hcmd Hhelp. unfold early_command in Hcmd.
  unfold on_message. rewrite get_bot_bind, Htext, Hstate.
  rewrite !bool_decide_eq_false_2 by (intros [= ->]; tauto || done).
  unfold text_truthy. rewrite Htext, Ht.
  reflexivity.
Qed.

Lemma start_and_menu_clear_state E message (b : bot) :
  admitted E b (from_user_id message) ->
  text message = Some (py "/start") \/ text message = Some (py "/menu") ->
  state (bot_after (on_message E message) b) = None.
Proof.
  intros Hadm Htext.
  unfold bot_after, run, on_message. rewrite get_bot_bind.
  destruct Htext as [Htext|Htext]; rewrite Htext.
  - rewrite !bool_decide_eq_false_2 by discriminate.
    rewrite bool_decide_eq_true_2 by done. by apply start_clears_state.
  - rewrite !bool_decide_eq_false_2 by discriminate.
    rewrite bool_decide_eq_true_2 by done. by apply menu_clears_state.
Qed.

(** *** One update after another *)

Lemma update_at_same {K V} `{EqDecision K} (k : K) (v : V) (f : K -> V) :
  update_at k v f k = v.
Proof. unfold update_at. by rewrite decide_True. Qed.

(** The next update of the same user in the same chat sees what the
    handler of the last one left. *)
Lemma view_put_same (u u' : update) (b : bot) (w : world) :
  session_key u' = session_key u ->
  state_key u' = state_key u ->
  view u' (put u b w) = b.
Proof.
  intros Hsession Hstate. unfold view, put. cbn [sessions all_users_access
    last_sys_massage states]. rewrite Hsession, Hstate, !update_at_same. by destruct b.
Qed.

Lemma step_eq E (u : update) (w : world) :
  step E u w
  = ((put u (bot_after (handle E u) (view u w)) w, calls_of (handle E u) (view u w)),
     result_of (handle E u) (view u w)).
Proof.
  unfold step, bot_after, calls_of, result_of.
  by destruct (run (handle E u) (view u w)) as [[b tr] r].
Qed.

Lemma view_world_after E (u u' : update) (w : world) :
  session_key u' = session_key u ->
  state_key u' = state_key u ->
  view u' (world_after E u w) = bot_after (handle E u) (view u w).
Proof.
  intros Hsession Hstate. unfold world_after. rewrite step_eq. cbn [fst].
  by apply view_put_same.
Qed.

Lemma calls_in_eq E (u : update) (w : world) :
  calls_in E u w = calls_of (handle E u) (view u w).
Proof. unfold calls_in. by rewrite step_eq. Qed.

(** X11.  [/start] and [/menu] from a sender with access leave no pending
    role input for that sender in that chat, whatever the state was, also
    when a later call of the handler raises; the next text of the same
    sender in the same chat, when it is not empty and none of the five
    commands, then goes to the conversation handler and is not taken as the
    system role. *)
Theorem start_and_menu_reset_waiting (E : env) (message : Message) (w : world) :
  admitted E (view (message_update message) w) (from_user_id message) ->
  text message = Some (py "/start") \/ text message = Some (py "/menu") ->
  let w' := world_after E (message_update message) w in
  states w' (chat_id message, from_user_id message) = None
  /\ forall next t,
       from_user_id next = from_user_id message ->
       chat_id next = chat_id message ->
       text next = Some t ->
       truthy t = true ->
       ~ early_command t ->
       t <> py "/help" ->
       run (handle E (message_update next)) (view (message_update next) w')
       = run (chatgpt_text_handler E next) (view (message_update next) w').
Proof.
  intros Hadm Htext w'.
  pose proof (start_and_menu_clear_state E message _ Hadm Htext) as Hstate.
  assert (forall next,
            from_user_id next = from_user_id message ->
            chat_id next = chat_id message ->
            view (message_update next) w'
            = bot_after (on_message E message) (view (message_update message) w)) as Hview.
  { intros next Huser Hchat. subst w'.
    apply (view_world_after E (message_update message) (message_update next)).
    - exact Huser.
    - cbn [state_key]. by rewrite Huser, Hchat. }
  split.
  - change (states w' (chat_id message, from_user_id message))
      with (state (view (message_update message) w')).
    by rewrite Hview.
  - intros next t Huser Hchat Hnext Ht Hcmd Hhelp.
    unfold run. cbn [handle].
    apply (free_text_reaches_conversation E next t); try done.
    cbn [fst]. by rewrite Hview.
Qed.

Lemma start_and_menu_reset_waiting_witness :
  let w := world_of (waiting_bot fresh_session) in
  let message := text_message 42 (py "/start") in
  states w (42, 42) = Some waiting_for_new_value
  /\ states (world_after quiet_env (message_update message) w) (42, 42) = None.
Proof.
  split; [reflexivity|].
  apply (start_and_menu_reset_waiting quiet_env (text_message 42 (py "/start"))
           (world_of (waiting_bot fresh_session))).
  - right. right. reflexivity.
  - left. reflexivity.
Defined.

Lemma role_input_run (E : env) (message : Message) (t : str) (b : bot) :
  admitted E b (from_user_id message) ->
  (forall tr c, raises E tr c = None) ->
  state b = Some waiting_for_new_value ->
  text message = Some t ->
  voice message = false ->
  truthy t = true ->
  ~ early_command t ->
  run (on_message E message) b
  = ((Bot (set_system_message t (user b)) (ALL_USERS_ACCESS b) (Some t) None,
      [save_user_data (from_user_id message);
       answer (py "<i>Role:</i> " ++ t) HTML (Some keyboard_value_work)]),
     inr tt).
Proof.
  intros Hadm Hquiet Hstate Htext Hvoice Ht Hcmd. unfold early_command in Hcmd.
  unfold run, on_message. rewrite get_bot_bind. cbn [fst]. rewrite Htext, Hstate.
  rewrite !bool_decide_eq_false_2 by (intros [= ->]; tauto).
  rewrite bool_decide_eq_true_2 by done. cbv iota.
  unfold process_new_value.
  rewrite checkAccess_bind_admitted by done. cbn [negb].
  rewrite Hvoice. unfold text_truthy, text_or_empty. rewrite Htext, Ht.
  unfold set_sys_massage, assign, state_clear.
  rewrite update_bot_bind, get_bot_bind. cbn [fst snd sys_massage].
  rewrite update_bot_bind. cbn [fst snd].
  rewrite await_bind_ok by apply Hquiet. cbn [fst snd].
  rewrite update_bot_bind, get_user_bind. cbn [fst snd user app].
  rewrite await_ok by apply Hquiet. cbn [fst snd user ALL_USERS_ACCESS sys_massage state app].
  unfold role_text. cbn [system_message set_system_message]. rewrite Ht. reflexivity.
Qed.

(** X12.  While the bot waits for a system role, the next text of a sender
    with access, unless it is one of [/enable_all], [/disable_all],
    [/start] and [/menu], is stored as the system role, whatever it says
    ([/help] included: its handler is registered after the one for the
    role); the session is saved, the waiting state ends, and the role is
    shown.  History and counter are not touched. *)
Theorem waiting_takes_text_as_role (E : env) (message : Message) (t : str) (b : bot) :
  admitted E b (from_user_id message) ->
  (forall tr c, raises E tr c = None) ->
  state b = Some waiting_for_new_value ->
  text message = Some t ->
  voice message = false ->
  truthy t = true ->
  ~ early_command t ->
  run (on_message E message) b
  = ((Bot (set_system_message t (user b)) (ALL_USERS_ACCESS b) (Some t) None,
      [save_user_data (from_user_id message);
       answer (py "<i>Role:</i> " ++ t) HTML (Some keyboard_value_work)]),
     inr tt).
Proof. apply role_input_run. Qed.

Lemma waiting_takes_text_as_role_witness :
  let b := waiting_bot fresh_session in
  let message := text_message 42 (py "/help") in
  system_message (user (bot_after (on_message quiet_env message) b)) = py "/help"
  /\ state (bot_after (on_message quiet_env message) b) = None.
Proof.
  unfold bot_after.
  rewrite (waiting_takes_text_as_role quiet_env (text_message 42 (py "/help")) (py "/help")
             (waiting_bot fresh_session)).
  - split; reflexivity.
  - right. right. reflexivity.
  - reflexivity.
  - reflexivity.
  - reflexivity.
  - reflexivity.
  - reflexivity.
  - intros [H|[H|[H|H]]]; discriminate H.
Defined.

(** ** handler.py: menus and settings *)

Lemma callbacks_keep_conversation E callback_query :
  data callback_query <> py "clear" ->
  preserves R_conversation (on_callback_query E callback_query).
Proof.
  intros Hclear. unfold on_callback_query. cbv zeta.
  repeat (case_bool_decide; cbv iota); try contradiction.
  all: first [apply (preserves_ret R_conversation)
             | keep R_conversation R_conversation_call ltac:(same_conversation)].
Qed.

(** X13.  No button but "clear" touches the conversation: whatever menu is
    opened and whatever setting is changed, the stored history and the
    message counter stay as they were. *)
Theorem buttons_keep_conversation (E : env) (callback_query : CallbackQuery) (b : bot) :
  data callback_query <> py "clear" ->
  messages (user (bot_after (on_callback_query E callback_query) b)) = messages (user b)
  /\ count_messages (user (bot_after (on_callback_query E callback_query) b))
     = count_messages (user b).
Proof.
  intros Hclear. exact (callbacks_keep_conversation E callback_query Hclear (b, [])).
Qed.

Lemma buttons_keep_conversation_witness :
  let b := open_bot (session (py "gpt-4o") (py "4o") [dict (py "user") (py "hi")]) in
  let callback_query := button_press 42 5000 (py "set_hd") (py "standard : 1024x1024 ") in
  data callback_query <> py "clear"
  /\ messages (user (bot_after (on_callback_query quiet_env callback_query) b))
     = [dict (py "user") (py "hi")].
Proof.
  assert (data (button_press 42 5000 (py "set_hd") (py "standard : 1024x1024 "))
          <> py "clear") as Hclear by discriminate.
  split; [exact Hclear|].
  exact (proj1 (buttons_keep_conversation quiet_env _
                  (open_bot (session (py "gpt-4o") (py "4o") [dict (py "user") (py "hi")]))
                  Hclear)).
Defined.

(** After the assignments of a settings callback, the calls that follow
    leave the session as the assignments made it. *)
Ltac tail_keeps_user :=
  match goal with
  | |- context [(?k ?s).1.1] =>
      let Hk := fresh "Hk" in
      assert (preserves R_user k) as Hk
        by keep R_user R_user_call ltac:(same_field R_user);
      rewrite (Hk s : user (k s).1.1 = user s.1)
  end.

(** X14.  A settings button pressed by a sender with access leaves the
    session with the value it stands for, also when saving or rendering
    raises afterwards. *)
Theorem setting_takes_effect (E : env) (s : setting) (callback_query : CallbackQuery)
    (b : bot) :
  data callback_query = setting_data s ->
  admitted E b (from_user_id (cq_message callback_query)) ->
  already_set s (user (bot_after (on_callback_query E callback_query) b)).
Proof.
  intros Hdata Hadm.
  unfold bot_after, run, on_callback_query. rewrite Hdata.
  destruct s; unfold setting_data; route;
    match goal with |- context [?handler E callback_query (b, [])] => unfold handler end;
    rewrite checkAccess_bind_admitted by done; cbn [negb];
    unfold state_clear; rewrite ?update_bot_bind; rewrite get_user_bind;
    cbn [fst snd user].
  all: match goal with
       | |- context [bool_decide ?P] =>
           destruct (decide P) as [Hyes|Hno];
           [rewrite (bool_decide_eq_true_2 _ Hyes)|rewrite (bool_decide_eq_false_2 _ Hno)]
       | |- context [voice_answer ?u] => destruct (voice_answer u) eqn:Hvoice
       | |- context [truthy ?t] => destruct t eqn:Hrole
       end; cbn [negb truthy].
  all: try (tail_keeps_user; cbn [fst snd user]; first [exact Hyes | exact Hvoice | exact Hrole]).
  all: unfold assign; rewrite ?update_bot_bind; cbn [fst snd user];
    tail_keeps_user; reflexivity.
Qed.

Lemma setting_takes_effect_witness :
  let b := open_bot fresh_session in
  let callback_query := button_press 42 5000 (py "set_hd") (py "standard : 1024x1024 ") in
  pic_grade (user (bot_after (on_callback_query quiet_env callback_query) b)) = py "hd".
Proof.
  apply (setting_takes_effect quiet_env quality_hd
           (button_press 42 5000 (py "set_hd") (py "standard : 1024x1024 "))
           (open_bot fresh_session)).
  - reflexivity.
  - right. right. reflexivity.
Defined.

(** ** handler.py: the model and its display strings *)

Ltac tail_keeps_model :=
  match goal with
  | |- context [(?k ?s).1.1] =>
      let Hk := fresh "Hk" in
      assert (preserves R_model k) as Hk
        by keep R_model R_model_call ltac:(same_model);
      rewrite (Hk s : model_fields (user (k s).1.1) = model_fields (user s.1))
  end.

(** A handler that assigns the model and both display strings, after the
    access check and, for the buttons, the guard for a model already set. *)
Ltac assigns_consistent :=
  intros Hcons; unfold mbind at 1, M_bind at 1;
  match goal with
  | |- context [checkAccess ?E ?m ?s] =>
      destruct (checkAccess_cases E m s)
        as [[Hadm ->] | [(Hden & Hquiet & ->) | (Hden & e & Hraise & ->)]]
  end; cbn [fst snd negb]; [|exact Hcons|exact Hcons];
  unfold state_clear; rewrite ?update_bot_bind; rewrite ?get_user_bind; cbn [fst snd user];
  try match goal with
      | |- context [bool_decide ?P] => destruct (bool_decide P)
      end;
  unfold consistent in *;
  [ try (tail_keeps_model; exact Hcons) | ..];
  unfold assign;
  repeat (rewrite update_bot_bind; cbn [fst snd user ALL_USERS_ACCESS sys_massage state]);
  tail_keeps_model;
  cbn [fst snd user model_fields model model_message_info model_message_chat set_model
    set_model_message_info set_model_message_chat set_messages set_count_messages
    set_max_out set_voice_answer set_system_message set_pic_grade set_pic_size];
  unfold model_table; repeat constructor.

Lemma start_consistent E message (b : bot) :
  consistent (user b) -> consistent (user (command_start_handler E message (b, [])).1.1).
Proof. unfold command_start_handler. assigns_consistent. Qed.

Lemma menu_1_consistent E callback_query (b : bot) :
  consistent (user b) ->
  consistent (user (process_callback_menu_1 E callback_query (b, [])).1.1).
Proof. unfold process_callback_menu_1. assigns_consistent. Qed.

Lemma menu_2_consistent E callback_query (b : bot) :
  consistent (user b) ->
  consistent (user (process_callback_menu_2 E callback_query (b, [])).1.1).
Proof. unfold process_callback_menu_2. assigns_consistent. Qed.

Lemma menu_1_o1_mini_consistent E callback_query (b : bot) :
  consistent (user b) ->
  consistent (user (process_callback_menu_1_o1_mini E callback_query (b, [])).1.1).
Proof. unfold process_callback_menu_1_o1_mini. assigns_consistent. Qed.

Lemma menu_2_o1_preview_consistent E callback_query (b : bot) :
  consistent (user b) ->
  consistent (user (process_callback_menu_2_o1_preview E callback_query (b, [])).1.1).
Proof. unfold process_callback_menu_2_o1_preview. assigns_consistent. Qed.

Lemma menu_3_consistent E callback_query (b : bot) :
  consistent (user b) ->
  consistent (user (process_callback_menu_3 E callback_query (b, [])).1.1).
Proof. unfold process_callback_menu_3. assigns_consistent. Qed.

Lemma consistent_of_same_fields (s s' : bot * list call) :
  R_model s s' -> consistent (user s.1) -> consistent (user s'.1).
Proof. unfold R_model, consistent. by intros ->. Qed.

(** X15.  The model and its two display strings always go together: if
    they are one of the five combinations the handlers assign, they still
    are after any update, whichever calls raise on the way. *)
Theorem model_and_labels_stay_consistent (E : env) (u : update) (b : bot) :
  consistent (user b) -> consistent (user (bot_after (handle E u) b)).
Proof.
  intros Hcons. unfold bot_after, run.
  destruct u as [message|callback_query]; cbn [handle].
  - unfold on_message. rewrite get_bot_bind. cbn [fst].
    repeat (case_bool_decide; cbv iota).
    all: repeat match goal with
           | |- consistent (user ((if ?c then _ else _) _).1.1) => destruct c
           end.
    all: lazymatch goal with
         | |- consistent (user (command_start_handler _ _ _).1.1) =>
             by apply start_consistent
         | |- consistent (user (?k ?s).1.1) =>
             let Hk := fresh "Hk" in
             assert (preserves R_model k) as Hk
               by first [apply (preserves_ret R_model)
                        | keep R_model R_model_call ltac:(same_model)];
             exact (consistent_of_same_fields s (k s).1 (Hk s) Hcons)
         end.
  - unfold on_callback_query. cbv zeta.
    repeat (case_bool_decide; cbv iota).
    all: lazymatch goal with
         | |- consistent (user (process_callback_menu_1 _ _ _).1.1) =>
             by apply menu_1_consistent
         | |- consistent (user (process_callback_menu_2 _ _ _).1.1) =>
             by apply menu_2_consistent
         | |- consistent (user (process_callback_menu_1_o1_mini _ _ _).1.1) =>
             by apply menu_1_o1_mini_consistent
         | |- consistent (user (process_callback_menu_2_o1_preview _ _ _).1.1) =>
             by apply menu_2_o1_preview_consistent
         | |- consistent (user (process_callback_menu_3 _ _ _).1.1) =>
             by apply menu_3_consistent
         | |- consistent (user (?k ?s).1.1) =>
             let Hk := fresh "Hk" in
             assert (preserves R_model k) as Hk
               by first [apply (preserves_ret R_model)
                        | keep R_model R_model_call ltac:(same_model)];
             exact (consistent_of_same_fields s (k s).1 (Hk s) Hcons)
         end.
Qed.

Lemma model_and_labels_stay_consistent_witness :
  let b := open_bot fresh_session in
  let u := callback_update (button_press 42 5000 (py "gpt_o1_mini") (py "<i>Model:</i> 4o mini ")) in
  consistent (user b)
  /\ consistent (user (bot_after (handle quiet_env u) b))
  /\ model_message_chat (user (bot_after (handle quiet_env u) b)) = py "o1 mini:" ++ [nl; nl].
Proof.
  assert (consistent (user (open_bot fresh_session))) as Hcons
    by (unfold consistent, model_table; repeat constructor).
  split; [exact Hcons|]. split; [|reflexivity].
  exact (model_and_labels_stay_consistent quiet_env
           (callback_update (button_press 42 5000 (py "gpt_o1_mini")
                               (py "<i>Model:</i> 4o mini ")))
           (open_bot fresh_session) Hcons).
Defined.

(** ** handler.py: one exchange with a text model *)

Lemma exchange_run (E : env) (message : Message) (t : str) (b : bot) :
  admitted E b (from_user_id message) ->
  (forall tr c, raises E tr c = None) ->
  text message = Some t ->
  voice message = false ->
  truthy t = true ->
  simple_bot_responses E t = [] ->
  is_text_model (model (user b)) = true ->
  let sent := model_input (set_messages (messages (user b) ++ [dict (py "user") t]) (user b)) in
  let response := completion_content E (model (user b)) sent in
  messages (user (bot_after (chatgpt_text_handler E message) b))
  = messages (user b) ++ [dict (py "user") t; dict (py "assistant") response]
  /\ count_messages (user (bot_after (chatgpt_text_handler E message) b))
     = count_messages (user b) + 1
  /\ result_of (chatgpt_text_handler E message) b = inr tt
  /\ calls_of (chatgpt_text_handler E message) b
     = [answer temporary_message HTML None;
        chat_completions_create (model (user b)) sent;
        send_chat_action (chat_id message) (py "typing");
        save_user_data (from_user_id message);
        delete_message (chat_id message)
          (sent_message_id E [answer temporary_message HTML None])]
       ++ sends_of (choose_variant response) (model_message_chat (user b)) response
       ++ speech_calls (user b) message response.
Proof.
  intros Hadm Hquiet Htext Hvoice Ht Hsimple Hmodel sent response.
  unfold bot_after, result_of, calls_of, run, chatgpt_text_handler.
  rewrite checkAccess_bind_admitted by done. cbn [negb].
  rewrite get_user_bind. cbn [fst snd].
  rewrite await_bind_ok by apply Hquiet. cbn [fst snd app].
  rewrite calls_so_far_bind. cbn [fst snd]. cbv zeta.
  rewrite Hvoice. unfold text_truthy, text_or_empty. rewrite Htext, Ht.
  rewrite ret_bind, Hsimple. cbn [truthy]. rewrite Hmodel.
  unfold assign. rewrite update_bot_bind. cbn [fst snd user ALL_USERS_ACCESS sys_massage state].
  unfold try_except.
  rewrite get_user_bind. cbn [fst snd user]. cbv zeta. fold sent.
  rewrite await_bind_ok by apply Hquiet. cbn [fst snd app].
  rewrite await_bind_ok by apply Hquiet. cbn [fst snd app].
  cbn [model set_messages]. fold response.
  rewrite update_bot_bind. cbn [fst snd user ALL_USERS_ACCESS sys_massage state].
  rewrite update_bot_bind. cbn [fst snd user ALL_USERS_ACCESS sys_massage state].
  rewrite await_bind_ok by apply Hquiet. cbn [fst snd app].
  rewrite await_bind_ok by apply Hquiet. cbn [fst snd app].
  rewrite dispatch_ok by apply Hquiet.
  cbn [fst snd user messages count_messages set_messages set_count_messages
       model_message_chat voice_answer].
  repeat split.
  - by rewrite <- app_assoc.
Qed.

(** X16.  One text from a sender with access, with a text model chosen and
    no call raising: the model is sent the pruned history with the new
    text (after the system entry, for the two models that take one); the
    history grows by the user's entry and the assistant's entry, the counter
    by one; the session is saved and the waiting notice deleted before the
    answer is sent, and the answer is sent as the dispatch table says. *)
Theorem exchange_appends_saves_and_sends (E : env) (message : Message) (t : str) (b : bot) :
  admitted E b (from_user_id message) ->
  (forall tr c, raises E tr c = None) ->
  text message = Some t ->
  voice message = false ->
  truthy t = true ->
  simple_bot_responses E t = [] ->
  is_text_model (model (user b)) = true ->
  let sent := model_input (set_messages (messages (user b) ++ [dict (py "user") t]) (user b)) in
  let response := completion_content E (model (user b)) sent in
  messages (user (bot_after (chatgpt_text_handler E message) b))
  = messages (user b) ++ [dict (py "user") t; dict (py "assistant") response]
  /\ count_messages (user (bot_after (chatgpt_text_handler E message) b))
     = count_messages (user b) + 1
  /\ result_of (chatgpt_text_handler E message) b = inr tt
  /\ calls_of (chatgpt_text_handler E message) b
     = [answer temporary_message HTML None;
        chat_completions_create (model (user b)) sent;
        send_chat_action (chat_id message) (py "typing");
        save_user_data (from_user_id message);
        delete_message (chat_id message)
          (sent_message_id E [answer temporary_message HTML None])]
       ++ sends_of (choose_variant response) (model_message_chat (user b)) response
       ++ speech_calls (user b) message response.
Proof. apply exchange_run. Qed.

Lemma exchange_appends_saves_and_sends_witness :
  let b := open_bot (set_system_message (py "You always respond as a pirate.") fresh_session) in
  let message := text_message 42 (py "hi") in
  messages (user (bot_after (chatgpt_text_handler quiet_env message) b))
  = [dict (py "user") (py "hi"); dict (py "assistant") (py "ok")]
  /\ calls_of (chatgpt_text_handler quiet_env message) b
     = [answer temporary_message HTML None;
        chat_completions_create (py "gpt-4o-mini")
          [dict (py "system") (py "You always respond as a pirate.");
           dict (py "user") (py "hi")];
        send_chat_action 42 (py "typing");
        save_user_data 42;
        delete_message 42 7;
        reply (label_4o_mini ++ py "ok") (as_kwargs 10)].
Proof.
  destruct (exchange_appends_saves_and_sends quiet_env (text_message 42 (py "hi")) (py "hi")
              (open_bot (set_system_message (py "You always respond as a pirate.")
                           fresh_session)))
    as (Hmessages & _ & _ & Hcalls).
  - right. right. reflexivity.
  - reflexivity.
  - reflexivity.
  - reflexivity.
  - reflexivity.
  - reflexivity.
  - reflexivity.
  - split; [exact Hmessages|exact Hcalls].
Defined.

(** X17.  When the call to the model raises (and nothing else does), the
    user's entry stays in the history without an answer, the counter is not
    raised, nothing is saved, the waiting notice is not deleted, and the
    sender is told "An error occurred" with the text of the exception; the
    handler itself ends normally. *)
Theorem failed_completion_keeps_question (E : env) (message : Message) (t : str)
    (b : bot) (e : exn) :
  admitted E b (from_user_id message) ->
  (forall tr c, is_completion c = false -> raises E tr c = None) ->
  (forall tr c, is_completion c = true -> raises E tr c = Some e) ->
  text message = Some t ->
  voice message = false ->
  truthy t = true ->
  simple_bot_responses E t = [] ->
  is_text_model (model (user b)) = true ->
  run (chatgpt_text_handler E message) b
  = ((Bot (set_messages (messages (user b) ++ [dict (py "user") t]) (user b))
          (ALL_USERS_ACCESS b) (sys_massage b) (state b),
      [answer temporary_message HTML None;
       logging_exception e;
       reply (py "An error occurred: " ++ str_of_exn e) HTML]),
     inr tt).
Proof.
  intros Hadm Hquiet Hfail Htext Hvoice Ht Hsimple Hmodel.
  unfold run, chatgpt_text_handler.
  rewrite checkAccess_bind_admitted by done. cbn [negb].
  rewrite get_user_bind. cbn [fst snd].
  rewrite await_bind_ok by by apply Hquiet. cbn [fst snd app].
  rewrite calls_so_far_bind. cbn [fst snd]. cbv zeta.
  rewrite Hvoice. unfold text_truthy, text_or_empty. rewrite Htext, Ht.
  rewrite ret_bind, Hsimple. cbn [truthy]. rewrite Hmodel.
  unfold assign. rewrite update_bot_bind. cbn [fst snd user ALL_USERS_ACCESS sys_massage state].
  unfold try_except.
  rewrite get_user_bind. cbn [fst snd user]. cbv zeta.
  rewrite (await_bind_raise E _ e) by by apply Hfail.
  rewrite log_exception_bind. cbn [fst snd app].
  rewrite await_ok by by apply Hquiet. reflexivity.
Qed.

Lemma failed_completion_keeps_question_witness :
  let b := open_bot fresh_session in
  let message := text_message 42 (py "hi") in
  messages (user (bot_after (chatgpt_text_handler completion_fails_env message) b))
  = [dict (py "user") (py "hi")]
  /\ calls_of (chatgpt_text_handler completion_fails_env message) b
     = [answer temporary_message HTML None;
        logging_exception (Exception (py "timeout"));
        reply (py "An error occurred: timeout") HTML].
Proof.
  unfold bot_after, calls_of.
  rewrite (failed_completion_keeps_question completion_fails_env (text_message 42 (py "hi"))
             (py "hi") (open_bot fresh_session) (Exception (py "timeout"))).
  - split; reflexivity.
  - right. right. reflexivity.
  - intros tr c Hc. simpl. by rewrite Hc.
  - intros tr c Hc. simpl. by rewrite Hc.
  - reflexivity.
  - reflexivity.
  - reflexivity.
  - reflexivity.
  - reflexivity.
Defined.

(** ** handler.py: clearing and showing the context *)

Lemma clear_run (E : env) (callback_query : CallbackQuery) (b : bot) :
  (forall tr c, raises E tr c = None) ->
  data callback_query = py "clear" ->
  admitted E b (from_user_id (cq_message callback_query)) ->
  run (on_callback_query E callback_query) b
  = ((Bot (set_count_messages 0 (set_messages [] (user b)))
        (ALL_USERS_ACCESS b) (sys_massage b) (state b),
      save_user_data (cq_from_user_id callback_query)
      :: (if bool_decide (text (cq_message callback_query) = Some (py "Context cleared"))
          then [callback_answer]
          else [edit_text (py "Context cleared") (Some keyboard_context);
                callback_answer])),
     inr tt).
Proof.
  intros Hquiet Hclear Hadm.
  unfold run, on_callback_query. rewrite Hclear. route.
  unfold process_callback_clear.
  rewrite checkAccess_bind_admitted by done. cbn [negb].
  unfold assign. rewrite update_bot_bind. cbn [fst snd user ALL_USERS_ACCESS sys_massage state].
  rewrite update_bot_bind. cbn [fst snd user ALL_USERS_ACCESS sys_massage state].
  rewrite await_bind_ok by apply Hquiet. cbn [fst snd app].
  destruct (bool_decide _).
  - by rewrite await_ok by apply Hquiet.
  - rewrite await_bind_ok by apply Hquiet. cbn [fst snd app].
    by rewrite await_ok by apply Hquiet.
Qed.

Lemma context_of_empty_history (E : env) (callback_query : CallbackQuery) (b : bot) :
  (forall tr c, raises E tr c = None) ->
  data callback_query = py "context" ->
  admitted E b (from_user_id (cq_message callback_query)) ->
  text (cq_message callback_query) <> Some (py "Context is empty") ->
  messages (user b) = [] ->
  calls_of (on_callback_query E callback_query) b
  = [edit_text (py "Context is empty") (Some keyboard_context); callback_answer].
Proof.
  intros Hquiet Hshow Hadm Htext Hempty.
  unfold calls_of, run, on_callback_query. rewrite Hshow. route.
  unfold process_callback_context.
  rewrite checkAccess_bind_admitted by done.
  cbn [negb]. rewrite get_user_bind. cbn [fst snd]. cbv zeta.
  rewrite bool_decide_eq_false_2 by done. rewrite Hempty.
  change (generate_history []) with (@nil ascii). cbn [truthy negb].
  rewrite await_bind_ok by apply Hquiet. cbn [fst snd app].
  by rewrite await_ok by apply Hquiet.
Qed.

(** X18.  The clear button, pressed with access when no call raises, empties
    the history of the user who pressed, resets that user's counter and
    saves the session; the context button pressed next by the same user
    (on a message that does not read "Context is empty") shows "Context is
    empty" and sends no history. *)
Theorem clear_then_context_is_empty (E : env) (clear_press show_press : CallbackQuery)
    (w : world) :
  (forall tr c, raises E tr c = None) ->
  data clear_press = py "clear" ->
  data show_press = py "context" ->
  cq_from_user_id show_press = cq_from_user_id clear_press ->
  admitted E (view (callback_update clear_press) w) (from_user_id (cq_message clear_press)) ->
  admitted E (view (callback_update show_press) w) (from_user_id (cq_message show_press)) ->
  text (cq_message show_press) <> Some (py "Context is empty") ->
  let w' := world_after E (callback_update clear_press) w in
  messages (sessions w' (cq_from_user_id clear_press)) = []
  /\ count_messages (sessions w' (cq_from_user_id clear_press)) = 0
  /\ save_user_data (cq_from_user_id clear_press)
     ∈ calls_in E (callback_update clear_press) w
  /\ calls_in E (callback_update show_press) w'
     = [edit_text (py "Context is empty") (Some keyboard_context); callback_answer].
Proof.
  intros Hquiet Hclear Hshow Hsame Hadm1 Hadm2 Htext w'.
  pose proof (clear_run E clear_press _ Hquiet Hclear Hadm1) as Hrun.
  assert (w' = put (callback_update clear_press)
                 (Bot (set_count_messages 0
                         (set_messages [] (user (view (callback_update clear_press) w))))
                    (all_users_access w) (last_sys_massage w)
                    (states w (state_key (callback_update clear_press)))) w) as Hw'.
  { subst w'. unfold world_after. rewrite step_eq. cbn [fst handle].
    unfold bot_after. by rewrite Hrun. }
  assert (sessions w' (cq_from_user_id clear_press)
          = set_count_messages 0
              (set_messages [] (user (view (callback_update clear_press) w)))) as Hsession.
  { rewrite Hw'. unfold put. cbn [sessions session_key user]. by rewrite update_at_same. }
  split; [by rewrite Hsession|]. split; [by rewrite Hsession|]. split.
  - rewrite calls_in_eq. cbn [handle]. unfold calls_of. rewrite Hrun. by left.
  - rewrite calls_in_eq. cbn [handle].
    apply context_of_empty_history; try done.
    + destruct Hadm2 as [?|[?|Hopen]]; [by left|by right; left|right; right].
      rewrite Hw'. exact Hopen.
    + unfold view. cbn [user session_key]. by rewrite Hsame, Hsession.
Qed.

Lemma clear_then_context_is_empty_witness :
  let w := world_of (open_bot (session (py "gpt-4o") (py "4o") [dict (py "user") (py "hi")])) in
  let show_press := button_press 42 5000 (py "context") (py "Context cleared") in
  calls_in quiet_env (callback_update show_press)
    (world_after quiet_env (callback_update press_clear) w)
  = [edit_text (py "Context is empty") (Some keyboard_context); callback_answer].
Proof.
  apply (clear_then_context_is_empty quiet_env press_clear
           (button_press 42 5000 (py "context") (py "Context cleared"))
           (world_of (open_bot (session (py "gpt-4o") (py "4o")
                                  [dict (py "user") (py "hi")])))).
  - reflexivity.
  - reflexivity.
  - reflexivity.
  - reflexivity.
  - right. right. reflexivity.
  - right. right. reflexivity.
  - discriminate.
Defined.

(** ** handler.py: edges of the waiting state and of the conversation *)

(** X19.  While the bot waits for a system role, a message with neither
    text nor voice (a photo, say) is given to the role handler all the same.
    It reads the module-level [sys_massage]: when no role was entered since
    the module was loaded the handler raises a [NameError] and changes
    nothing; otherwise the role entered last, by whichever user, becomes the
    sender's system role. *)
Theorem waiting_without_text_reuses_last_role (E : env) (message : Message) (b : bot) :
  admitted E b (from_user_id message) ->
  (forall tr c, raises E tr c = None) ->
  state b = Some waiting_for_new_value ->
  text message = None ->
  voice message = false ->
  (sys_massage b = None ->
   run (on_message E message) b
   = ((b, []), inl (Exception (py "name 'sys_massage' is not defined"))))
  /\ (forall v,
        sys_massage b = Some v ->
        run (on_message E message) b
        = ((Bot (set_system_message v (user b)) (ALL_USERS_ACCESS b) (Some v) None,
            [save_user_data (from_user_id message);
             answer (role_text (set_system_message v (user b))) HTML
               (Some keyboard_value_work)]),
           inr tt)).
Proof.
  intros Hadm Hquiet Hstate Htext Hvoice.
  assert (forall s : bot * list call,
            s.1 = b -> on_message E message s = process_new_value E message s) as Hroute.
  { intros s Hs. unfold on_message. rewrite get_bot_bind, Hs, Htext, Hstate.
    rewrite !bool_decide_eq_false_2 by discriminate.
    by rewrite bool_decide_eq_true_2. }
  unfold run. rewrite Hroute by done. unfold process_new_value.
  rewrite checkAccess_bind_admitted by done. cbn [negb].
  rewrite Hvoice. unfold text_truthy. rewrite Htext.
  rewrite ret_bind, get_bot_bind. cbn [fst snd].
  split.
  - intros ->. destruct b. reflexivity.
  - intros v Hv. rewrite Hv.
    unfold assign, state_clear.
    rewrite update_bot_bind. cbn [fst snd user ALL_USERS_ACCESS sys_massage state].
    rewrite await_bind_ok by apply Hquiet. cbn [fst snd app].
    rewrite update_bot_bind, get_user_bind.
    cbn [fst snd user ALL_USERS_ACCESS sys_massage state].
    rewrite await_ok by apply Hquiet. cbn [fst snd app]. by rewrite Hv.
Qed.

Lemma waiting_without_text_reuses_last_role_witness :
  run (on_message quiet_env (photo_message 42 None)) (waiting_bot fresh_session)
  = ((waiting_bot fresh_session, []),
     inl (Exception (py "name 'sys_massage' is not defined"))).
Proof.
  destruct (waiting_without_text_reuses_last_role quiet_env (photo_message 42 None)
              (waiting_bot fresh_session)) as [Hnone _].
  - right. right. reflexivity.
  - reflexivity.
  - reflexivity.
  - reflexivity.
  - reflexivity.
  - apply Hnone. reflexivity.
Defined.

(** ** handler.py: what touches the history *)

Lemma R_messages_call b tr c : R_messages (b, tr) (b, tr ++ [c]).
Proof. reflexivity. Qed.

(** State updates that leave the history. *)
Ltac same_messages :=
  intros ? ?; unfold R_messages;
  cbn [fst snd user messages set_model set_model_message_info set_model_message_chat
    set_count_messages set_max_out set_voice_answer set_system_message
    set_pic_grade set_pic_size];
  reflexivity.

(** From a step on one state to the code that makes it. *)
Ltac by_code R :=
  lazymatch goal with
  | |- R ?s (fst (?k ?s)) =>
      let Hk := fresh "Hk" in
      enough (preserves R k) as Hk by exact (Hk s)
  end.

Lemma bind_eq {A B} (m : M A) (f : A -> M B) s :
  (m ≫= f) s
  = match m s with
    | (s', inl e) => (s', inl e)
    | (s', inr a) => f a s'
    end.
Proof. unfold mbind, M_bind. by destruct (m s) as [s' [e|a]]. Qed.

(** The conversation handler with a model that is not a text model, or for a
    sender without access. *)
Lemma chat_keeps_messages E message (b : bot) :
  ~ (admitted E b (from_user_id message) /\ is_text_model (model (user b)) = true) ->
  R_messages (b, []) (chatgpt_text_handler E message (b, [])).1.
Proof.
  intros Hnot. unfold chatgpt_text_handler.
  destruct (checkAccess_cases E message (b, []))
    as [[Hadm Heq] | [(_ & _ & Heq) | (_ & e & _ & Heq)]].
  - rewrite checkAccess_bind_admitted by done. cbn [negb].
    rewrite get_user_bind. cbn [fst snd].
    destruct (is_text_model (model (user b))) eqn:Hmodel; [exfalso; by apply Hnot|].
    by_code R_messages.
    keep R_messages R_messages_call ltac:(same_messages).
  - rewrite bind_eq, Heq. reflexivity.
  - rewrite bind_eq, Heq. reflexivity.
Qed.

Lemma chat_keeps_messages_or_chats E message (b : bot) :
  state b <> Some waiting_for_new_value ->
  (forall t, text message = Some t -> ~ early_command t /\ t <> py "/help") ->
  text_truthy message = true \/ voice message = true ->
  R_messages (b, []) (chatgpt_text_handler E message (b, [])).1
  \/ chat_update E b (message_update message).
Proof.
  intros Hstate Hcmd Hroute.
  destruct (is_text_model (model (user b))) eqn:Hmodel.
  - destruct (checkAccess_cases E message (b, []))
      as [[Hadm _] | [(Hden & _) | (Hden & _)]].
    + right. by exists message.
    + left. apply chat_keeps_messages. tauto.
    + left. apply chat_keeps_messages. tauto.
  - left. apply chat_keeps_messages. intros [_ ?]. congruence.
Qed.

Lemma message_keeps_messages_or_chats E message (b : bot) :
  text message <> Some (py "/start") ->
  R_messages (b, []) (on_message E message (b, [])).1
  \/ chat_update E b (message_update message).
Proof.
  intros Hstart. unfold on_message. rewrite get_bot_bind. cbn [fst].
  repeat (case_bool_decide; cbv iota); try contradiction.
  all: repeat match goal with
         | |- R_messages _ (fst ((if ?c then _ else _) _)) \/ _ =>
             lazymatch c with
             | text_truthy _ || voice _ =>
                 let Hroute := fresh "Hroute" in
                 destruct c eqn:Hroute; [apply orb_true_iff in Hroute|]
             | _ => destruct c eqn:?
             end
         end.
  all: lazymatch goal with
       | |- R_messages _ (fst (chatgpt_text_handler _ _ _)) \/ _ =>
           apply chat_keeps_messages_or_chats; [done| |done];
           intros t Ht; unfold early_command; split;
           [intros [-> | [-> | [-> | ->]]]; congruence | intros ->; congruence]
       | |- _ =>
           left; by_code R_messages;
           keep R_messages R_messages_call ltac:(same_messages)
       end.
Qed.

(** X20.  The stored history is changed by three things only: [/start], the
    clear button, and a message that reaches the conversation handler with
    a text model chosen (a non-empty text that is none of the five
    commands, or a voice message, from a sender with access, while no role
    input is pending).  The other commands, photos, image requests, the
    system role, the menus and the settings never touch it, whatever call
    fails. *)
Theorem history_changed_by_start_clear_or_chat_only (E : env) (u : update) (b : bot) :
  messages (user (bot_after (handle E u) b)) <> messages (user b) ->
  is_start u \/ is_clear u \/ chat_update E b u.
Proof.
  intros Hchanged. destruct u as [message|callback_query].
  - destruct (decide (text message = Some (py "/start"))) as [Hstart|Hstart].
    { left. by eexists. }
    destruct (message_keeps_messages_or_chats E message b Hstart) as [Hkeep|Hchat].
    + exfalso. apply Hchanged. exact Hkeep.
    + right. right. exact Hchat.
  - destruct (decide (data callback_query = py "clear")) as [Hclear|Hclear].
    { right. left. by eexists. }
    exfalso. apply Hchanged.
    exact (proj1 (callbacks_keep_conversation E callback_query Hclear (b, []))).
Qed.

Lemma history_changed_by_start_clear_or_chat_only_witness :
  let b := open_bot fresh_session in
  let u := message_update (text_message 42 (py "hi")) in
  messages (user (bot_after (handle quiet_env u) b)) <> messages (user b)
  /\ (is_start u \/ is_clear u \/ chat_update quiet_env b u).
Proof.
  assert (messages (user (bot_after (handle quiet_env (message_update (text_message 42 (py "hi"))))
                            (open_bot fresh_session)))
          <> messages (user (open_bot fresh_session))) as Hchanged by discriminate.
  split; [exact Hchanged|].
  exact (history_changed_by_start_clear_or_chat_only quiet_env _ _ Hchanged).
Defined.

(** ** handler.py: image requests and photos *)

(** X21.  With DALL-E 3 chosen, a non-empty text from a sender with access
    (no command, the bot not waiting for a role, no call raising) is the prompt
    of one image: nothing is added to the history and no chat model is
    called; the counter goes up by one, the session is saved, the waiting
    notice is deleted and the image is sent in reply to the request, with
    the size and quality of the session. *)
Theorem image_request_counts_and_leaves_history (E : env) (message : Message)
    (t : str) (b : bot) :
  admitted E b (from_user_id message) ->
  (forall tr c, raises E tr c = None) ->
  state b = None ->
  text message = Some t ->
  voice message = false ->
  truthy t = true ->
  ~ early_command t ->
  t <> py "/help" ->
  simple_bot_responses E t = [] ->
  model (user b) = py "dall-e-3" ->
  run (on_message E message) b
  = ((Bot (set_count_messages (count_messages (user b) + 1) (user b))
          (ALL_USERS_ACCESS b) (sys_massage b) (state b),
      [answer temporary_message HTML None;
       images_generate t (pic_size (user b)) (pic_grade (user b));
       send_chat_action (chat_id message) (py "upload_photo");
       save_user_data (from_user_id message);
       delete_message (chat_id message)
         (sent_message_id E [answer temporary_message HTML None]);
       send_photo (chat_id message)
         (image_url E t (pic_size (user b)) (pic_grade (user b)))
         (message_id message)]),
     inr tt).
Proof.
  intros Hadm Hquiet Hstate Htext Hvoice Ht Hcmd Hhelp Hsimple Hmodel.
  unfold early_command in Hcmd.
  unfold run, on_message. rewrite get_bot_bind. cbn [fst]. rewrite Htext, Hstate.
  rewrite !bool_decide_eq_false_2 by (first [discriminate | intros [= ->]; tauto]).
  unfold text_truthy at 1. rewrite Htext, Ht. cbn [orb].
  unfold chatgpt_text_handler.
  rewrite checkAccess_bind_admitted by done. cbn [negb].
  rewrite get_user_bind. cbn [fst snd].
  rewrite await_bind_ok by apply Hquiet. cbn [fst snd app].
  rewrite calls_so_far_bind. cbn [fst snd]. cbv zeta.
  rewrite Hvoice. unfold text_truthy, text_or_empty. rewrite Htext.
  rewrite Ht.
  rewrite ret_bind, Hsimple. cbn [truthy]. rewrite Hmodel.
  change (is_text_model (py "dall-e-3")) with false. cbv iota.
  rewrite bool_decide_eq_true_2 by done.
  rewrite bind_eq. unfold try_except.
  rewrite await_bind_ok by apply Hquiet. cbn [fst snd app negb].
  unfold mret, M_ret. cbn [negb].
  rewrite await_bind_ok by apply Hquiet. cbn [fst snd app].
  unfold assign. rewrite update_bot_bind. cbn [fst snd user ALL_USERS_ACCESS sys_massage state].
  rewrite await_bind_ok by apply Hquiet. cbn [fst snd app].
  rewrite await_bind_ok by apply Hquiet. cbn [fst snd app].
  rewrite await_ok by apply Hquiet. cbn [fst snd app]. by rewrite Hstate.
Qed.

Lemma image_request_counts_and_leaves_history_witness :
  let b := open_bot (session (py "dall-e-3") (py "DALL·E 3") [dict (py "user") (py "hi")]) in
  let message := text_message 42 (py "a cat") in
  messages (user (bot_after (on_message quiet_env message) b)) = [dict (py "user") (py "hi")]
  /\ count_messages (user (bot_after (on_message quiet_env message) b)) = 1
  /\ calls_of (on_message quiet_env message) b
     = [answer temporary_message HTML None;
        images_generate (py "a cat") (py "1024x1024") (py "standard");
        send_chat_action 42 (py "upload_photo");
        save_user_data 42;
        delete_message 42 7;
        send_photo 42 (py "https://example.org/image.png") 1].
Proof.
  unfold bot_after, calls_of.
  rewrite (image_request_counts_and_leaves_history quiet_env (text_message 42 (py "a cat"))
             (py "a cat")
             (open_bot (session (py "dall-e-3") (py "DALL·E 3") [dict (py "user") (py "hi")]))).
  - repeat split; reflexivity.
  - right. right. reflexivity.
  - reflexivity.
  - reflexivity.
  - reflexivity.
  - reflexivity.
  - reflexivity.
  - intros [H|[H|[H|H]]]; discriminate H.
  - discriminate.
  - reflexivity.
  - reflexivity.
Defined.

(** X22.  A photo from a sender with access, while the bot is not waiting
    for a role and no call raises: the question put to the vision model is
    the caption, or "What's in the picture?" when the caption is missing or
    empty; the counter goes up by one and the session is saved, the waiting
    notice is deleted, and the model's description is sent.  The history is
    not touched. *)
Theorem photo_is_described_and_counted (E : env) (message : Message) (b : bot) :
  admitted E b (from_user_id message) ->
  (forall tr c, raises E tr c = None) ->
  state b = None ->
  text message = None ->
  voice message = false ->
  photo message = true ->
  let question :=
    if truthy (default [] (caption message)) then default [] (caption message)
    else default_question in
  run (on_message E message) b
  = ((Bot (set_count_messages (count_messages (user b) + 1) (user b))
          (ALL_USERS_ACCESS b) (sys_massage b) None,
      [answer temporary_message HTML None;
       get_file;
       download_and_encode_image;
       process_image_with_gpt question;
       save_user_data (from_user_id message);
       delete_message (chat_id message)
         (sent_message_id E [answer temporary_message HTML None]);
       answer (vision_content E question) HTML None]),
     inr tt).
Proof.
  intros Hadm Hquiet Hstate Htext Hvoice Hphoto question.
  unfold run, on_message. rewrite get_bot_bind. cbn [fst].
  unfold text_truthy. rewrite Htext, Hstate, Hvoice, Hphoto.
  rewrite !bool_decide_eq_false_2 by discriminate.
  cbn [orb]. unfold chatgpt_photo_vision_handler.
  rewrite checkAccess_bind_admitted by done. cbn [negb].
  unfold state_clear. rewrite update_bot_bind.
  cbn [fst snd user ALL_USERS_ACCESS sys_massage state].
  unfold try_except.
  rewrite await_bind_ok by apply Hquiet. cbn [fst snd app].
  rewrite calls_so_far_bind. cbn [fst snd]. cbv zeta.
  assert (match caption message with
          | Some c => if truthy c then c else py "What's in the picture?"
          | None => py "What's in the picture?"
          end = question) as ->.
  { subst question. unfold default_question. by destruct (caption message). }
  rewrite await_bind_ok by apply Hquiet. cbn [fst snd app].
  rewrite await_bind_ok by apply Hquiet. cbn [fst snd app].
  rewrite await_bind_ok by apply Hquiet. cbn [fst snd app].
  unfold update_user_data, assign.
  rewrite bind_bind, update_bot_bind.
  cbn [fst snd user ALL_USERS_ACCESS sys_massage state].
  rewrite await_bind_ok by apply Hquiet. cbn [fst snd app].
  rewrite await_bind_ok by apply Hquiet. cbn [fst snd app].
  rewrite await_ok by apply Hquiet. reflexivity.
Qed.

Lemma photo_is_described_and_counted_witness :
  let b := open_bot (session (py "gpt-4o") (py "4o") [dict (py "user") (py "hi")]) in
  let message := photo_message 42 (Some []) in
  messages (user (bot_after (on_message quiet_env message) b)) = [dict (py "user") (py "hi")]
  /\ count_messages (user (bot_after (on_message quiet_env message) b)) = 1
  /\ calls_of (on_message quiet_env message) b
     = [answer temporary_message HTML None;
        get_file;
        download_and_encode_image;
        process_image_with_gpt (py "What's in the picture?");
        save_user_data 42;
        delete_message 42 7;
        answer (py "a picture") HTML None].
Proof.
  unfold bot_after, calls_of.
  rewrite (photo_is_described_and_counted quiet_env (photo_message 42 (Some []))
             (open_bot (session (py "gpt-4o") (py "4o") [dict (py "user") (py "hi")]))).
  - repeat split; reflexivity.
  - right. right. reflexivity.
  - reflexivity.
  - reflexivity.
  - reflexivity.
  - reflexivity.
  - reflexivity.
Defined.

(** X23.  When [simple_bot_responses] has an answer for a non-empty text
    that reaches the conversation handler, the sender gets it at once: the
    waiting notice is sent and deleted, the answer is sent as a reply, and
    nothing else happens: no model is called, and history, counter and
    settings stay as they were, whatever model is chosen. *)
Theorem simple_response_short_circuits (E : env) (message : Message) (t : str) (b : bot) :
  admitted E b (from_user_id message) ->
  (forall tr c, raises E tr c = None) ->
  state b = None ->
  text message = Some t ->
  voice message = false ->
  truthy t = true ->
  ~ early_command t ->
  t <> py "/help" ->
  truthy (simple_bot_responses E t) = true ->
  run (on_message E message) b
  = ((b,
      [answer temporary_message HTML None;
       delete_message (chat_id message)
         (sent_message_id E [answer temporary_message HTML None]);
       reply (simple_bot_responses E t) HTML]),
     inr tt).
Proof.
  intros Hadm Hquiet Hstate Htext Hvoice Ht Hcmd Hhelp Hsimple.
  unfold early_command in Hcmd.
  unfold run, on_message. rewrite get_bot_bind. cbn [fst]. rewrite Htext, Hstate.
  rewrite !bool_decide_eq_false_2 by (first [discriminate | intros [= ->]; tauto]).
  unfold text_truthy at 1. rewrite Htext, Ht. cbn [orb].
  unfold chatgpt_text_handler.
  rewrite checkAccess_bind_admitted by done. cbn [negb].
  rewrite get_user_bind. cbn [fst snd].
  rewrite await_bind_ok by apply Hquiet. cbn [fst snd app].
  rewrite calls_so_far_bind. cbn [fst snd]. cbv zeta.
  rewrite Hvoice. unfold text_truthy, text_or_empty. rewrite Htext.
  rewrite Ht.
  rewrite ret_bind, Hsimple.
  rewrite await_bind_ok by apply Hquiet. cbn [fst snd app].
  rewrite await_ok by apply Hquiet. by destruct b.
Qed.

Lemma simple_response_short_circuits_witness :
  let b := open_bot (session (py "gpt-4o") (py "4o") [dict (py "user") (py "hi")]) in
  run (on_message greeting_env (text_message 42 (py "hello"))) b
  = ((b, [answer temporary_message HTML None; delete_message 42 7;
          reply (py "Hi there!") HTML]),
     inr tt).
Proof.
  apply (simple_response_short_circuits greeting_env (text_message 42 (py "hello"))
           (py "hello")
           (open_bot (session (py "gpt-4o") (py "4o") [dict (py "user") (py "hi")]))).
  - right. right. reflexivity.
  - reflexivity.
  - reflexivity.
  - reflexivity.
  - reflexivity.
  - reflexivity.
  - intros [H|[H|[H|H]]]; discriminate H.
  - discriminate.
  - reflexivity.
Defined.

(** ** handler.py: showing the context *)

(** X24.  The context button, pressed by a sender with access when no call
    raises.  On a message that already reads "Context is empty" it only
    acknowledges the press, whatever the history holds by then.  Otherwise,
    for a history with entries whose transcript has no line of 4096
    characters or more, it sends the whole transcript to the user who
    pressed, in messages shorter than 4096 characters that joined with
    newlines are the transcript, then the context menu, and then turns the
    message with the button into "Context:".  The session is not changed. *)
Theorem context_button_sends_whole_history (E : env) (callback_query : CallbackQuery)
    (b : bot) :
  admitted E b (from_user_id (cq_message callback_query)) ->
  (forall tr c, raises E tr c = None) ->
  data callback_query = py "context" ->
  (text (cq_message callback_query) = Some (py "Context is empty") ->
   run (on_callback_query E callback_query) b = ((b, [callback_answer]), inr tt))
  /\ (text (cq_message callback_query) <> Some (py "Context is empty") ->
      messages (user b) <> [] ->
      Forall (fun l => len l < 4096) (split_nl (generate_history (messages (user b)))) ->
      exists chunks,
        run (on_callback_query E callback_query) b
        = ((b, history_sends (cq_from_user_id callback_query) chunks
               ++ [edit_text (py "Context:") None; callback_answer]),
           inr tt)
        /\ Forall (fun c => len c < 4096) chunks
        /\ join [nl] chunks = generate_history (messages (user b))).
Proof.
  intros Hadm Hquiet Hdata.
  assert (run (on_callback_query E callback_query) b
          = process_callback_context E callback_query (b, [])) as ->.
  { unfold run, on_callback_query. rewrite Hdata. by route. }
  unfold process_callback_context.
  rewrite checkAccess_bind_admitted by done. cbn [negb].
  rewrite get_user_bind. cbn [fst snd]. cbv zeta.
  split.
  - intros Hshown. rewrite bool_decide_eq_true_2 by done.
    by rewrite await_ok by apply Hquiet.
  - intros Hshown Hfull Hlines. rewrite bool_decide_eq_false_2 by done.
    rewrite generate_history_truthy by done. cbn [negb].
    destruct (send_history_chunks_ok _ Hlines) as [Hbound Hjoin].
    exists (send_history_chunks (generate_history (messages (user b)))).
    split; [|done].
    unfold send_history, send_message, send_menu.
    rewrite !bind_bind.
    rewrite bind_eq, for_each_await_ok by (intros tr c _; apply Hquiet).
    cbn [fst snd app].
    rewrite await_bind_ok by apply Hquiet. cbn [fst snd].
    rewrite await_bind_ok by apply Hquiet. cbn [fst snd].
    rewrite await_ok by apply Hquiet. cbn [fst snd].
    unfold history_sends. by rewrite <- !app_assoc.
Qed.

Lemma context_button_sends_whole_history_witness :
  let b := open_bot (session (py "gpt-4o") (py "4o") [dict (py "user") (py "hi")]) in
  let callback_query := button_press 42 5000 (py "context") (py "<i>Messages:</i> 1 ") in
  exists chunks,
    run (on_callback_query quiet_env callback_query) b
    = ((b, history_sends 42 chunks ++ [edit_text (py "Context:") None; callback_answer]),
       inr tt)
    /\ Forall (fun c => len c < 4096) chunks
    /\ join [nl] chunks = py "user:" ++ [nl] ++ py "hi".
Proof.
  destruct (context_button_sends_whole_history quiet_env
              (button_press 42 5000 (py "context") (py "<i>Messages:</i> 1 "))
              (open_bot (session (py "gpt-4o") (py "4o") [dict (py "user") (py "hi")])))
    as [_ Hshow].
  - right. right. reflexivity.
  - reflexivity.
  - reflexivity.
  - apply Hshow.
    + discriminate.
    + discriminate.
    + apply (bool_decide_unpack _). vm_compute. exact I.
Defined.

(** ** handler.py: [/start] *)

(** X25.  [/start] from a sender with access is a full reset: whatever the
    session held, every field the handlers read is at its default
    afterwards (GPT-4o mini and its labels, no history, counter 0, budget
    128000, voice answers off, no system role, standard quality,
    1024x1024), as the greeting says, and no role input is pending; this
    holds also when saving or greeting raises.  The access flag is not
    reset. *)
Theorem start_is_a_full_reset (E : env) (message : Message) (b : bot) :
  admitted E b (from_user_id message) ->
  text message = Some (py "/start") ->
  user (bot_after (on_message E message) b) = fresh_session
  /\ state (bot_after (on_message E message) b) = None
  /\ ALL_USERS_ACCESS (bot_after (on_message E message) b) = ALL_USERS_ACCESS b.
Proof.
  intros Hadm Htext.
  assert (text message <> Some (py "/enable_all")) as Hen by (rewrite Htext; discriminate).
  assert (text message <> Some (py "/disable_all")) as Hdis by (rewrite Htext; discriminate).
  split; [|split].
  - unfold bot_after, run, on_message. rewrite get_bot_bind, Htext.
    rewrite !bool_decide_eq_false_2 by discriminate.
    rewrite bool_decide_eq_true_2 by done.
    unfold command_start_handler.
    rewrite checkAccess_bind_admitted by done. cbn [negb].
    unfold state_clear, assign.
    repeat (rewrite update_bot_bind; cbn [fst snd user ALL_USERS_ACCESS sys_massage state]).
    tail_keeps_user. cbn [fst snd user]. by destruct (user b).
  - unfold bot_after, run, on_message. rewrite get_bot_bind, Htext.
    rewrite !bool_decide_eq_false_2 by discriminate.
    rewrite bool_decide_eq_true_2 by done. by apply start_clears_state.
  - exact (messages_keep_flag E message Hen Hdis (b, [])).
Qed.

Lemma start_is_a_full_reset_witness :
  let b := open_bot (set_voice_answer true
                       (session (py "dall-e-3") (py "DALL·E 3") [dict (py "user") (py "hi")])) in
  user (bot_after (on_message completion_fails_env (text_message 42 (py "/start"))) b)
  = fresh_session.
Proof.
  apply (start_is_a_full_reset completion_fails_env (text_message 42 (py "/start"))
           (open_bot (set_voice_answer true
                        (session (py "dall-e-3") (py "DALL·E 3")
                           [dict (py "user") (py "hi")])))).
  - right. right. reflexivity.
  - reflexivity.
Defined.

(** ** handler.py: from the role dialogue to the model *)

Lemma takes_system_role_is_text_model m :
  takes_system_role m = true -> is_text_model m = true.
Proof.
  unfold takes_system_role, is_text_model.
  intros [H|H]%orb_true_iff; rewrite H; [done|]. by rewrite orb_true_r.
Qed.

Lemma role_dialogue_run (E : env) (callback_query : CallbackQuery)
    (role_message next_message : Message) (r t : str) (b : bot) :
  (forall tr c, raises E tr c = None) ->
  ALL_USERS_ACCESS b = true ->
  data callback_query = py "change_value" ->
  text role_message = Some r ->
  voice role_message = false ->
  truthy r = true ->
  ~ early_command r ->
  text next_message = Some t ->
  voice next_message = false ->
  truthy t = true ->
  ~ early_command t ->
  t <> py "/help" ->
  simple_bot_responses E t = [] ->
  takes_system_role (model (user b)) = true ->
  let b1 := bot_after (on_callback_query E callback_query) b in
  let b2 := bot_after (on_message E role_message) b1 in
  let sent :=
    dict (py "system") r
    :: prune_messages (messages (user b) ++ [dict (py "user") t]) (max_out (user b)) in
  (exists rest,
     calls_of (on_message E next_message) b2
     = answer temporary_message HTML None
       :: chat_completions_create (model (user b)) sent :: rest)
  /\ messages (user (bot_after (on_message E next_message) b2))
     = messages (user b)
       ++ [dict (py "user") t;
           dict (py "assistant") (completion_content E (model (user b)) sent)].
Proof.
  intros Hquiet Hopen Hdata Hr Hrvoice Hrt Hrcmd Ht Htvoice Htt Htcmd Hhelp Hsimple Hrole
    b1 b2 sent.
  assert (b1 = Bot (user b) (ALL_USERS_ACCESS b) (sys_massage b)
                 (Some waiting_for_new_value)) as Hb1.
  { subst b1. unfold bot_after, run, on_callback_query. rewrite Hdata. route.
    unfold process_callback_change_value.
    rewrite checkAccess_bind_admitted by (right; right; exact Hopen). cbn [negb].
    unfold state_set_state. rewrite update_bot_bind. cbn [fst snd].
    rewrite await_bind_ok by apply Hquiet. cbn [fst snd].
    by rewrite await_ok by apply Hquiet. }
  assert (b2 = Bot (set_system_message r (user b)) (ALL_USERS_ACCESS b) (Some r) None) as Hb2.
  { subst b2. unfold bot_after.
    rewrite (role_input_run E role_message r b1); try done.
    - by rewrite Hb1.
    - right. right. by rewrite Hb1.
    - by rewrite Hb1. }
  assert (run (on_message E next_message) b2 = run (chatgpt_text_handler E next_message) b2)
    as Hroute.
  { unfold run. apply (free_text_reaches_conversation E next_message t); try done.
    by rewrite Hb2. }
  unfold calls_of, bot_after. rewrite Hroute.
  destruct (exchange_run E next_message t b2) as (Hmessages & _ & _ & Hcalls); try done.
  { right. right. by rewrite Hb2. }
  { rewrite Hb2. cbn [user model set_system_message].
    by apply takes_system_role_is_text_model. }
  assert (model_input (set_messages (messages (user b2) ++ [dict (py "user") t]) (user b2))
          = sent) as Hsent.
  { rewrite Hb2. unfold model_input.
    cbn [user model messages max_out system_message set_messages set_system_message].
    by rewrite Hrole. }
  unfold calls_of, bot_after in Hmessages, Hcalls.
  rewrite Hsent in Hmessages, Hcalls.
  assert (model (user b2) = model (user b)) as Hmodel by by rewrite Hb2.
  assert (messages (user b2) = messages (user b)) as Hhistory by by rewrite Hb2.
  rewrite Hmodel in Hmessages, Hcalls. rewrite Hhistory in Hmessages.
  split; [|exact Hmessages].
  rewrite Hcalls. cbn [app]. by eexists.
Qed.

(** X26.  The role dialogue end to end, for one user in one chat, with the
    bot open to all users, one of the two models that take a system role
    chosen by that user, and no call raising: after the user presses
    "change value" and answers with a text [r], the user's next text [t]
    is sent to the model behind one system entry that holds [r], followed by
    the user's pruned history with [t]; and the user's history stored
    afterwards holds the user's entry and the answer, not the system
    entry. *)
Theorem role_dialogue_reaches_model (E : env) (callback_query : CallbackQuery)
    (role_message next_message : Message) (r t : str) (w : world) :
  (forall tr c, raises E tr c = None) ->
  all_users_access w = true ->
  data callback_query = py "change_value" ->
  from_user_id role_message = cq_from_user_id callback_query ->
  chat_id role_message = chat_id (cq_message callback_query) ->
  from_user_id next_message = cq_from_user_id callback_query ->
  chat_id next_message = chat_id (cq_message callback_query) ->
  text role_message = Some r ->
  voice role_message = false ->
  truthy r = true ->
  ~ early_command r ->
  text next_message = Some t ->
  voice next_message = false ->
  truthy t = true ->
  ~ early_command t ->
  t <> py "/help" ->
  simple_bot_responses E t = [] ->
  takes_system_role (model (sessions w (cq_from_user_id callback_query))) = true ->
  let u := sessions w (cq_from_user_id callback_query) in
  let w1 := world_after E (callback_update callback_query) w in
  let w2 := world_after E (message_update role_message) w1 in
  let sent :=
    dict (py "system") r
    :: prune_messages (messages u ++ [dict (py "user") t]) (max_out u) in
  (exists rest,
     calls_in E (message_update next_message) w2
     = answer temporary_message HTML None
       :: chat_completions_create (model u) sent :: rest)
  /\ messages (sessions (world_after E (message_update next_message) w2)
                 (cq_from_user_id callback_query))
     = messages u
       ++ [dict (py "user") t; dict (py "assistant") (completion_content E (model u) sent)].
Proof.
  intros Hquiet Hopen Hdata Hruser Hrchat Hnuser Hnchat Hr Hrvoice Hrt Hrcmd
    Ht Htvoice Htt Htcmd Hhelp Hsimple Hrole u w1 w2 sent.
  assert (view (message_update role_message) w1
          = bot_after (on_callback_query E callback_query)
              (view (callback_update callback_query) w)) as Hview1.
  { subst w1.
    apply (view_world_after E (callback_update callback_query) (message_update role_message)).
    - exact Hruser.
    - cbn [state_key]. by rewrite Hruser, Hrchat. }
  assert (view (message_update next_message) w2
          = bot_after (on_message E role_message) (view (message_update role_message) w1))
    as Hview2.
  { subst w2.
    apply (view_world_after E (message_update role_message) (message_update next_message)).
    - cbn [session_key]. by rewrite Hnuser, Hruser.
    - cbn [state_key]. by rewrite Hnuser, Hnchat, Hruser, Hrchat. }
  assert (sessions (world_after E (message_update next_message) w2)
            (cq_from_user_id callback_query)
          = user (bot_after (on_message E next_message)
                    (view (message_update next_message) w2))) as Hsession.
  { rewrite <- Hnuser.
    change (sessions ?w' (from_user_id next_message))
      with (user (view (message_update next_message) w')).
    by rewrite (view_world_after E (message_update next_message)). }
  destruct (role_dialogue_run E callback_query role_message next_message r t
              (view (callback_update callback_query) w)) as [Hcalls Hmessages]; try done.
  rewrite calls_in_eq, Hsession, Hview2, Hview1. cbn [handle].
  split; [exact Hcalls|exact Hmessages].
Qed.

Lemma role_dialogue_reaches_model_witness :
  let pirate := py "You always respond as a pirate." in
  let w := world_of (open_bot fresh_session) in
  let w1 := world_after quiet_env
              (callback_update
                 (button_in_chat 42 5000 (py "change_value") (py "<i>Role:</i> Undefined"))) w in
  let w2 := world_after quiet_env (message_update (text_message 42 pirate)) w1 in
  (exists rest,
     calls_in quiet_env (message_update (text_message 42 (py "hi"))) w2
     = answer temporary_message HTML None
       :: chat_completions_create (py "gpt-4o-mini")
            [dict (py "system") pirate; dict (py "user") (py "hi")] :: rest)
  /\ messages (sessions (world_after quiet_env (message_update (text_message 42 (py "hi"))) w2)
                 42)
     = [dict (py "user") (py "hi"); dict (py "assistant") (py "ok")].
Proof.
  apply (role_dialogue_reaches_model quiet_env
           (button_in_chat 42 5000 (py "change_value") (py "<i>Role:</i> Undefined"))
           (text_message 42 (py "You always respond as a pirate."))
           (text_message 42 (py "hi"))
           (py "You always respond as a pirate.") (py "hi")
           (world_of (open_bot fresh_session))).
  - reflexivity.
  - reflexivity.
  - reflexivity.
  - reflexivity.
  - reflexivity.
  - reflexivity.
  - reflexivity.
  - reflexivity.
  - reflexivity.
  - reflexivity.
  - intros [H|[H|[H|H]]]; discriminate H.
  - reflexivity.
  - reflexivity.
  - reflexivity.
  - intros [H|[H|[H|H]]]; discriminate H.
  - discriminate.
  - reflexivity.
  - reflexivity.
Defined.
